(** * GrubDash: the dishes and orders controllers

    A shallow embedding of [src/dishes/dishes.controller.js] and
    [src/orders/orders.controller.js]: the JSON values a request body
    carries, the Express middleware chain, the two in-memory stores and
    every handler and validation middleware of the two controllers,
    followed by the properties of the specification. *)

From Stdlib Require Import ZArith NArith QArith DecimalString DecimalN.
From stdpp Require Import base list strings.

Set Warnings "-register-all".

(** ** JavaScript values *)

Module JS.

(** A Number: every finite double is a rational, so the finite ones are
    embedded in [Q]; [Number.isInteger] and the comparisons with the
    literals [0] and [1] are exact on them. *)
Inductive number : Type :=
| NaN
| PosInf
| NegInf
| Fin (q : Q).

(** What [JSON.parse] produces, and [undefined] for an absent property.
    An object is its list of own properties, looked up first match. *)
Inductive value : Type :=
| VUndef
| VNull
| VBool (b : bool)
| VNum (n : number)
| VStr (s : string)
| VArr (elems : list value)
| VObj (props : list (string * value)).

(** An evaluation either completes with a result or throws a [TypeError]
    (reading a property of, or destructuring, [null] or [undefined]; assigning
    to a [const]; converting to a primitive an object that has none). *)
Inductive completion (A : Type) : Type :=
| Ret (a : A)
| TypeError.
Arguments Ret {A} a.
Arguments TypeError {A}.

#[global] Instance completion_ret : MRet completion := λ A a, Ret a.
#[global] Instance completion_bind : MBind completion := λ A B k c,
  match c with
  | Ret a => k a
  | TypeError => TypeError
  end.

(** The two conversions between strings and numbers ([StringToNumber],
    [Number::toString]) depend on the double format; the controllers are
    verified for every implementation of them. *)
Class Coercions : Type := {
  StringToNumber : string → number;
  NumberToString : number → string
}.

(** [ToBoolean]: the falsy values are [undefined], [null], [false], [0],
    [NaN] and the empty string. *)
Definition ToBoolean (v : value) : bool :=
  match v with
  | VUndef | VNull => false
  | VBool b => b
  | VNum NaN => false
  | VNum (Fin q) => negb (Qeq_bool q 0)
  | VNum _ => true
  | VStr s => negb (String.eqb s "")
  | VArr _ | VObj _ => true
  end.

Definition integral (q : Q) : bool :=
  (Qnum q mod Zpos (Qden q) =? 0)%Z.

Definition Number_isInteger (v : value) : bool :=
  match v with
  | VNum (Fin q) => integral q
  | _ => false
  end.

Definition Array_isArray (v : value) : bool :=
  match v with
  | VArr _ => true
  | _ => false
  end.

(** [a < b] and [a <= b] on Numbers; a comparison with [NaN] is false. *)
Definition number_lt (a b : number) : bool :=
  match a, b with
  | NaN, _ | _, NaN => false
  | Fin p, Fin q => negb (Qle_bool q p)
  | NegInf, (Fin _ | PosInf) => true
  | Fin _, PosInf => true
  | _, _ => false
  end.

Definition number_le (a b : number) : bool :=
  match a, b with
  | NaN, _ | _, NaN => false
  | Fin p, Fin q => Qle_bool p q
  | NegInf, _ => true
  | _, PosInf => true
  | _, _ => false
  end.

Fixpoint own (k : string) (props : list (string * value)) : value :=
  match props with
  | [] => VUndef
  | (k', v) :: rest => if String.eqb k k' then v else own k rest
  end.

(** [k] is an own property of the object, whatever it holds. *)
Fixpoint has_own (k : string) (props : list (string * value)) : bool :=
  match props with
  | [] => false
  | (k', _) :: rest => String.eqb k k' || has_own k rest
  end.

(** [a || b] where only the right operand can throw: it is evaluated
    when the left one is false. *)
Definition or_else (a : bool) (b : completion bool) : completion bool :=
  if a then Ret true else b.

Section Conversions.
Context `{Coercions}.

(** [ToString], as a template literal applies it. An array is joined
    with commas, [null] and [undefined] elements printing as nothing. An
    object is converted by its [toString] method: the inherited one prints
    [[object Object]]; an own [toString] property hides it, and what a
    request body holds there is no function, so that the object has no
    primitive value ([valueOf] returns the object) and the conversion
    throws. *)
Fixpoint ToString (v : value) : completion string :=
  match v with
  | VUndef => Ret "undefined"
  | VNull => Ret "null"
  | VBool true => Ret "true"
  | VBool false => Ret "false"
  | VNum n => Ret (NumberToString n)
  | VStr s => Ret s
  | VArr elems =>
      (fix join (l : list value) : completion string :=
         match l with
         | [] => Ret ""
         | [x] => match x with VUndef | VNull => Ret "" | _ => ToString x end
         | x :: rest =>
             s ← match x with VUndef | VNull => Ret "" | _ => ToString x end;
             t ← join rest;
             Ret (s +:+ "," +:+ t)
         end) elems
  | VObj props =>
      if has_own "toString" props then TypeError else Ret "[object Object]"
  end.

(** [ToNumber]; an array or object is first converted to its string (the
    inherited [valueOf] returns the object itself, and an own [valueOf]
    of a request body is no function). *)
Definition ToNumber (v : value) : completion number :=
  match v with
  | VUndef => Ret NaN
  | VNull => Ret (Fin 0)
  | VBool true => Ret (Fin 1)
  | VBool false => Ret (Fin 0)
  | VNum n => Ret n
  | VStr s => Ret (StringToNumber s)
  | VArr _ | VObj _ => s ← ToString v; Ret (StringToNumber s)
  end.

(** [v <= n] and [v < n] against a numeric literal: the left operand is
    converted to a Number. *)
Definition le (v : value) (n : number) : completion bool :=
  x ← ToNumber v; Ret (number_le x n).
Definition lt (v : value) (n : number) : completion bool :=
  x ← ToNumber v; Ret (number_lt x n).
End Conversions.

(** Property read [v[k]] / [v.k] and destructuring [{ k } = v], for the
    keys the controllers use ([data], [id], [name], [price], [quantity],
    ...): none of them is a property of an array, a string, a number or a
    boolean, nor inherited by an object. *)
Definition get (v : value) (k : string) : completion value :=
  match v with
  | VUndef | VNull => TypeError
  | VObj props => Ret (own k props)
  | _ => Ret VUndef
  end.

(** Default initialiser of a destructuring pattern: [x = dflt] takes
    [dflt] only when the property is [undefined]. *)
Definition default (v dflt : value) : value :=
  match v with
  | VUndef => dflt
  | _ => v
  end.

(** [v === s] for a string [s]. *)
Definition strict_eq (v : value) (s : string) : bool :=
  match v with
  | VStr t => String.eqb t s
  | _ => false
  end.

End JS.

(** ** The Express route stack *)

Module Express.
Import JS.

(** [req]: the route parameter ([:dishId], [:orderId]) and the parsed body. *)
Record request : Type := {
  params : string;
  body : value
}.

(** [const { data: { ... } = {} } = req.body]: the [data] the fields are
    then read from; reading a field of a [null] data throws. *)
Definition body_data (rq : request) : completion value :=
  data ← get (body rq) "data"; mret (default data (VObj [])).

Section Route.
Context {R : Type}.

(** What a handler sends: [res.json({ data })] with a record, with the
    whole collection or with [undefined], or a bare status. *)
Inductive reply : Type :=
| Data (r : R)
| DataList (l : list R)
| NoData
| Empty.

(** How a middleware function ends: [next()], [next({ status, message })],
    a response, or an exception, which Express hands to the error
    handler like [next(err)], with an error that carries no status. *)
Inductive outcome : Type :=
| Next
| NextErr (status : Z) (message : string)
| Sent (status : Z) (data : reply)
| Thrown.

(** The module-level array and [res.locals]. [res.locals.dish] and
    [res.locals.order] hold a reference to an element of the array: its
    index. *)
Record state : Type := {
  store : list R;
  locals : option nat
}.

Definition middleware : Type := request → state → outcome * state.

(** The route runs its stack in order; only [next()] continues. *)
Fixpoint run (stack : list middleware) (rq : request) (st : state)
  : outcome * state :=
  match stack with
  | [] => (Next, st)
  | m :: rest =>
      match m rq st with
      | (Next, st') => run rest rq st'
      | stop => stop
      end
  end.

(** One request against the collection [db], with fresh [res.locals]. *)
Definition handle (stack : list middleware) (rq : request) (db : list R)
  : outcome * list R :=
  let (o, st) := run stack rq {| store := db; locals := None |} in
  (o, store st).

(** The object [res.locals] refers to. *)
Definition found (st : state) : option R :=
  i ← locals st; store st !! i.
End Route.

Arguments reply : clear implicits.
Arguments outcome : clear implicits.
Arguments state : clear implicits.
Arguments middleware : clear implicits.

End Express.

(** ** The id generator *)

Module Utils.

(** Modelled from the spec: an id "read as a number", absent like the
    generator itself; the ids the generator returns are decimal numerals,
    and an id is read as one. *)
Definition numeric (s : string) : option N :=
  N.of_uint <$> NilEmpty.uint_of_string s.

(** Modelled from the spec: "the highest existing numeric ID" of a
    collection, 0 when none of its ids reads as a number. *)
Definition highest (ids : list string) : N :=
  foldr (λ s m, match numeric s with Some n => N.max n m | None => m end)
        0%N ids.

(** Modelled from the spec: [src/utils/nextId.js] is not among the sources.
    "Computes one more than the highest existing numeric ID across the
    target collection (falling back to 1 if empty), returns it as a
    string."  The collection is passed as the list of its ids. *)
Definition nextId (ids : list string) : string :=
  NilEmpty.string_of_uint (N.to_uint (highest ids + 1)).

End Utils.

(** ** dishes.controller.js *)

Module Dishes.
Import JS Express Utils.

(** A dish of the collection. Its [id] is a string (the data file's, or
    the one [nextId] returned); the other fields hold whatever value the
    payload that wrote them carried. *)
Record dish : Type := {
  id : string;
  name : value;
  description : value;
  price : value;
  image_url : value
}.

Section Controller.
Context `{Coercions}.

(** *** Handlers *)

Definition create : middleware dish := λ rq st,
  match (data ← body_data rq;
         n ← get data "name";
         d ← get data "description";
         p ← get data "price";
         i ← get data "image_url";
         mret (n, d, p, i)) with
  | TypeError => (Thrown, st)
  | Ret (n, d, p, i) =>
      let newDish :=
        {| id := nextId (id <$> store st);
           name := n; description := d; price := p; image_url := i |} in
      (Sent 201 (Data newDish),
       {| store := store st ++ [newDish]; locals := locals st |})
  end.

Definition read : middleware dish := λ rq st,
  match found st with
  | Some foundDish => (Sent 200 (Data foundDish), st)
  | None => (Sent 200 NoData, st)
  end.

(** The fields of the found dish are assigned in place; without a found
    dish the first assignment throws. *)
Definition update : middleware dish := λ rq st,
  match (data ← body_data rq;
         _ ← get data "id";
         n ← get data "name";
         d ← get data "description";
         p ← get data "price";
         i ← get data "image_url";
         mret (n, d, p, i)) with
  | TypeError => (Thrown, st)
  | Ret (n, d, p, i) =>
      match locals st, found st with
      | Some at_, Some foundDish =>
          let foundDish :=
            {| id := id foundDish;
               name := n; description := d; price := p; image_url := i |} in
          (Sent 200 (Data foundDish),
           {| store := <[at_ := foundDish]> (store st); locals := locals st |})
      | _, _ => (Thrown, st)
      end
  end.

(** *** Middleware *)

Definition bodyDataHas (propertyName : string) : middleware dish := λ rq st,
  match (data ← body_data rq; get data propertyName) with
  | TypeError => (Thrown, st)
  | Ret v =>
      if ToBoolean v then (Next, st)
      else (NextErr 400 ("Dish must include a " +:+ propertyName), st)
  end.

Definition hasPrice : middleware dish := λ rq st,
  match (data ← body_data rq; get data "price") with
  | TypeError => (Thrown, st)
  | Ret price =>
      match le price (Fin 0) with
      | TypeError => (Thrown, st)
      | Ret nonpositive =>
          if nonpositive || negb (Number_isInteger price)
          then (NextErr 400
                  "Dish must have a price that is an integer greater than 0",
                st)
          else (Next, st)
      end
  end.

Definition dishExists : middleware dish := λ rq st,
  let dishId := params rq in
  match list_find (λ dish, id dish = dishId) (store st) with
  | Some (at_, _) => (Next, {| store := store st; locals := Some at_ |})
  | None => (NextErr 404 ("Dish not found: " +:+ dishId), st)
  end.

(** When the body id is truthy and equal to the route id, the source
    calls [next()] and then, falling out of the [if], [next()] again. The
    second call resumes the route after [update], which has run and
    responded by then; it does not run a handler of this controller
    again. The message is built before [next] is called with it: when the
    conversion of the id throws, no error object is passed. *)
Definition idMatch : middleware dish := λ rq st,
  let dishId := params rq in
  match (data ← body_data rq; get data "id") with
  | TypeError => (Thrown, st)
  | Ret id =>
      if ToBoolean id then
        if negb (strict_eq id dishId) then
          match ToString id with
          | TypeError => (Thrown, st)
          | Ret shown =>
              (NextErr 400
                 ("Dish id does not match route id. Dish: " +:+ shown
                  +:+ ", Route: " +:+ dishId), st)
          end
        else (Next, st)
      else (Next, st)
  end.

Definition list : middleware dish := λ rq st,
  (Sent 200 (DataList (store st)), st).
End Controller.

(** *** Exports *)

Module exports.
Section Stacks.
Context `{Coercions}.

Definition create : Datatypes.list (middleware dish) :=
  [ bodyDataHas "name";
    bodyDataHas "description";
    hasPrice;
    bodyDataHas "price";
    bodyDataHas "image_url";
    Dishes.create ].

Definition read : Datatypes.list (middleware dish) :=
  [ dishExists; Dishes.read ].

Definition update : Datatypes.list (middleware dish) :=
  [ dishExists;
    bodyDataHas "name";
    bodyDataHas "description";
    hasPrice;
    bodyDataHas "price";
    bodyDataHas "image_url";
    idMatch;
    Dishes.update ].
End Stacks.
End exports.

End Dishes.

(** ** orders.controller.js *)

Module Orders.
Import JS Express Utils.

(** An order of the collection; [status] is [undefined] when the payload
    that created it carried none. *)
Record order : Type := {
  id : string;
  deliverTo : value;
  mobileNumber : value;
  status : value;
  dishes : value
}.

Section Controller.
Context `{Coercions}.

(** *** Handlers *)

(** The default of [dishes] assigns to [id], a constant of the same
    declaration: with [dishes] undefined the handler throws. *)
Definition create : middleware order := λ rq st,
  match (data ← body_data rq;
         _ ← get data "id";
         to ← get data "deliverTo";
         mobile ← get data "mobileNumber";
         s ← get data "status";
         ds ← get data "dishes";
         ds ← match ds with VUndef => TypeError | _ => mret ds end;
         mret (to, mobile, s, ds)) with
  | TypeError => (Thrown, st)
  | Ret (to, mobile, s, ds) =>
      let newOrder :=
        {| id := nextId (id <$> store st);
           deliverTo := to; mobileNumber := mobile; status := s;
           dishes := ds |} in
      (Sent 201 (Data newOrder),
       {| store := store st ++ [newOrder]; locals := locals st |})
  end.

Definition read : middleware order := λ rq st,
  match found st with
  | Some foundOrder => (Sent 200 (Data foundOrder), st)
  | None => (Sent 200 NoData, st)
  end.

(** Here the default of [dishes] is the array of one empty object. *)
Definition update : middleware order := λ rq st,
  match (data ← body_data rq;
         to ← get data "deliverTo";
         mobile ← get data "mobileNumber";
         s ← get data "status";
         ds ← get data "dishes";
         mret (to, mobile, s, default ds (VArr [VObj []]))) with
  | TypeError => (Thrown, st)
  | Ret (to, mobile, s, ds) =>
      match locals st, found st with
      | Some at_, Some orderToUpdate =>
          let orderToUpdate :=
            {| id := id orderToUpdate;
               deliverTo := to; mobileNumber := mobile; status := s;
               dishes := ds |} in
          (Sent 200 (Data orderToUpdate),
           {| store := <[at_ := orderToUpdate]> (store st);
              locals := locals st |})
      | _, _ => (Thrown, st)
      end
  end.

Definition destroy : middleware order := λ rq st,
  match found st with
  | None => (Thrown, st)
  | Some foundOrder =>
      let orders :=
        match list_find (λ order, id order = id foundOrder) (store st) with
        | Some (index, _) => delete index (store st)
        | None => store st
        end in
      (Sent 204 Empty, {| store := orders; locals := locals st |})
  end.

(** *** Middleware *)

Definition bodyDataHas (propertyName : string) : middleware order := λ rq st,
  match (data ← body_data rq; get data propertyName) with
  | TypeError => (Thrown, st)
  | Ret v =>
      if ToBoolean v then (Next, st)
      else (NextErr 400 ("Order must include a " +:+ propertyName), st)
  end.

Definition length_of (v : value) : nat :=
  match v with
  | VArr elems => length elems
  | _ => 0
  end.

(** The [for ... in] loop over the lines, in index order: the [id] of
    the first line whose quantity is refused, if any. The three tests of
    a line are joined by [||]: the comparison is reached by a quantity
    that is truthy and an integer. *)
Fixpoint first_refused (lines : Datatypes.list value)
  : completion (option value) :=
  match lines with
  | [] => mret None
  | line :: rest =>
      quantity ← get line "quantity";
      refused ← or_else (negb (ToBoolean quantity)
                         || negb (Number_isInteger quantity))
                        (lt quantity (Fin 1));
      if refused : bool
      then (i ← get line "id"; mret (Some i))
      else first_refused rest
  end.

Definition dishProperties : middleware order := λ rq st,
  match (data ← body_data rq;
         ds ← get data "dishes";
         mret (default ds (VArr []))) with
  | TypeError => (Thrown, st)
  | Ret ds =>
      if negb (ToBoolean ds) || negb (Array_isArray ds)
         || (length_of ds =? 0)%nat
      then (NextErr 400 "Order must include a dish", st)
      else
        match first_refused (match ds with VArr l => l | _ => [] end) with
        | TypeError => (Thrown, st)
        | Ret (Some i) =>
            match ToString i with
            | TypeError => (Thrown, st)
            | Ret shown =>
                (NextErr 400
                   ("Dish " +:+ shown
                    +:+ " must have a quantity that is an integer greater than 0"),
                 st)
            end
        | Ret None => (Next, st)
        end
  end.

Definition orderExists : middleware order := λ rq st,
  let orderId := params rq in
  match list_find (λ order, id order = orderId) (store st) with
  | Some (at_, _) => (Next, {| store := store st; locals := Some at_ |})
  | None => (NextErr 404 ("Order id not found: " +:+ orderId), st)
  end.

Definition orderStatus : middleware order := λ rq st,
  match found st with
  | None => (Thrown, st)
  | Some o =>
      match list_find (λ order, id order = id o) (store st) with
      | None => (Thrown, st)
      | Some (_, foundOrder) =>
          if negb (strict_eq (status foundOrder) "pending")
          then (NextErr 400
                  "An order cannot be deleted unless it is pending.", st)
          else (Next, st)
      end
  end.

Definition matchIds : middleware order := λ rq st,
  let orderId := params rq in
  match (data ← body_data rq; get data "id") with
  | TypeError => (Thrown, st)
  | Ret id =>
      if negb (ToBoolean id) then (Next, st)
      else if negb (strict_eq id orderId) then
        match ToString id with
        | TypeError => (Thrown, st)
        | Ret shown =>
            (NextErr 400
               ("Order id does not match route id. Order: " +:+ shown
                +:+ ", Route: " +:+ orderId +:+ "."), st)
        end
      else (Next, st)
  end.

Definition orderDelivered : middleware order := λ rq st,
  match found st with
  | None => (Thrown, st)
  | Some order =>
      if strict_eq (status order) "delivered"
      then (NextErr 400 "A delivered order cannot be changed", st)
      else (Next, st)
  end.

Definition validStatuses : Datatypes.list string :=
  ["pending"; "preparing"; "out-for-delivery"; "delivered"].

Definition statusInvalid : middleware order := λ rq st,
  match (data ← body_data rq; get data "status") with
  | TypeError => (Thrown, st)
  | Ret s =>
      if existsb (strict_eq s) validStatuses then (Next, st)
      else (NextErr 400 "Order status invalid", st)
  end.

Definition list : middleware order := λ rq st,
  (Sent 200 (DataList (store st)), st).
End Controller.

(** *** Exports *)

Module exports.
Section Stacks.
Context `{Coercions}.

Definition create : Datatypes.list (middleware order) :=
  [ bodyDataHas "deliverTo";
    bodyDataHas "mobileNumber";
    bodyDataHas "dishes";
    dishProperties;
    Orders.create ].

Definition read : Datatypes.list (middleware order) :=
  [ orderExists; Orders.read ].

Definition update : Datatypes.list (middleware order) :=
  [ orderExists;
    matchIds;
    orderDelivered;
    bodyDataHas "deliverTo";
    bodyDataHas "mobileNumber";
    bodyDataHas "dishes";
    bodyDataHas "status";
    statusInvalid;
    dishProperties;
    Orders.update ].

Definition destroy : Datatypes.list (middleware order) :=
  [ orderExists; orderStatus; Orders.destroy ].
End Stacks.
End exports.

End Orders.

(** ** Notions the properties are stated with *)

Module Props.
Import JS Express Utils.

(** A check that fails: it passes an error to [next], or throws. *)
Definition failed {R} (o : outcome R) : Prop :=
  match o with
  | NextErr _ _ | Thrown => True
  | _ => False
  end.

Definition responded {R} (o : outcome R) : Prop :=
  match o with
  | Sent _ _ => True
  | _ => False
  end.

(** A middleware leaves the collection alone unless it responds. *)
Definition keeps_store {R} (m : middleware R) : Prop :=
  ∀ rq st, ¬ responded (m rq st).1 → store (m rq st).2 = store st.

(** [new] is not among [ids] and reads as a number above each of them. *)
Definition fresh_increasing (ids : list string) (new : string) : Prop :=
  (new ∉ ids) ∧
  (∃ k, numeric new = Some k ∧
        ∀ s n, s ∈ ids → numeric s = Some n → (n < k)%N) ∧
  (ids = [] → new = "1").

(** A price or quantity the validators accept: a Number that is an
    integer and at least 1. *)
Definition positive_integer (v : value) : Prop :=
  ∃ q, v = VNum (Fin q) ∧ integral q = true ∧ (0 < q)%Q.

(** The conversions used where a closed example needs an instance:
    decimal numerals and the integers. No property below depends on
    them. *)
Definition decimal : Coercions := {|
  StringToNumber s :=
    match s, NilEmpty.uint_of_string s with
    | "", _ => Fin 0
    | _, Some d => Fin (inject_Z (Z.of_N (N.of_uint d)))
    | _, None => NaN
    end;
  NumberToString n :=
    match n with
    | NaN => "NaN"
    | PosInf => "Infinity"
    | NegInf => "-Infinity"
    | Fin q => NilEmpty.string_of_int (Z.to_int (Qnum q / Zpos (Qden q)))
    end
|}.

(** Data of the closed examples. *)
Definition int (z : Z) : value := VNum (Fin (inject_Z z)).

Definition taco : Dishes.dish :=
  {| Dishes.id := "1"; Dishes.name := VStr "Taco";
     Dishes.description := VStr "x"; Dishes.price := int 8;
     Dishes.image_url := VStr "u" |}.

Definition taco_2 : Dishes.dish :=
  {| Dishes.id := "2"; Dishes.name := VStr "Taco";
     Dishes.description := VStr "x"; Dishes.price := int 8;
     Dishes.image_url := VStr "u" |}.

Definition taco_9 : Dishes.dish :=
  {| Dishes.id := "1"; Dishes.name := VStr "Taco";
     Dishes.description := VStr "x"; Dishes.price := int 9;
     Dishes.image_url := VStr "u" |}.

Definition line (id : string) (quantity : Z) : value :=
  VObj [("id", VStr id); ("quantity", int quantity)].

Definition an_order (id status : string) : Orders.order :=
  {| Orders.id := id; Orders.deliverTo := VStr "a";
     Orders.mobileNumber := VStr "b"; Orders.status := VStr status;
     Orders.dishes := VArr [line "1" 2] |}.

Definition taco_fields (price : Z) : list (string * value) :=
  [("name", VStr "Taco"); ("description", VStr "x"); ("price", int price);
   ("image_url", VStr "u")].

Definition order_fields (lines : list value) : list (string * value) :=
  [("deliverTo", VStr "a"); ("mobileNumber", VStr "b"); ("dishes", VArr lines)].

(** A request on the route [id] whose body is [{ data: { ...fields } }]. *)
Definition request_with (id : string) (fields : list (string * value))
  : request :=
  {| params := id; body := VObj [("data", VObj fields)] |}.

(** A line of an order that the quantity loop lets through. *)
Definition accepted_line (line : value) : Prop :=
  ∃ q, get line "quantity" = Ret q ∧ positive_integer q.

(** [i] is the [id] read from the line the quantity loop stops at: the
    first line of [ds] that is not accepted, which holds a quantity. *)
Definition refused_line (ds i : value) : Prop :=
  ∃ good line rest q,
    ds = VArr (good ++ line :: rest) ∧ Forall accepted_line good ∧
    get line "quantity" = Ret q ∧ ¬ positive_integer q ∧
    get line "id" = Ret i.

(** A check that, run at [st], calls [next()] or refuses with [status],
    and leaves the state as it is. *)
Definition passes_or_refuses {R} (status : Z) (rq : request) (st : state R)
    (m : middleware R) : Prop :=
  m rq st = (Next, st) ∨ ∃ msg, m rq st = (NextErr status msg, st).

(** The fields a dish payload must hold to pass the checks. *)
Definition dish_payload (data n d p i : value) : Prop :=
  get data "name" = Ret n ∧ ToBoolean n = true ∧
  get data "description" = Ret d ∧ ToBoolean d = true ∧
  get data "price" = Ret p ∧ positive_integer p ∧
  get data "image_url" = Ret i ∧ ToBoolean i = true.

(** The fields an order payload must hold to pass the checks that the
    create and the update stack share. *)
Definition order_payload (data to mobile ds : value) : Prop :=
  get data "deliverTo" = Ret to ∧ ToBoolean to = true ∧
  get data "mobileNumber" = Ret mobile ∧ ToBoolean mobile = true ∧
  get data "dishes" = Ret ds ∧
  ∃ line lines, ds = VArr (line :: lines) ∧ Forall accepted_line (line :: lines).

(** The body id is absent or falsy, or it is the route's id. *)
Definition id_agrees (data : value) (route : string) : Prop :=
  ∃ v, get data "id" = Ret v ∧ (ToBoolean v = false ∨ v = VStr route).

(** A stored dish that satisfies what the checks ask of a payload. *)
Definition valid_dish (d : Dishes.dish) : Prop :=
  ToBoolean (Dishes.name d) = true ∧ ToBoolean (Dishes.description d) = true ∧
  positive_integer (Dishes.price d) ∧ ToBoolean (Dishes.image_url d) = true.

(** A stored order that satisfies what the checks common to create and
    update ask of a payload. *)
Definition valid_order (o : Orders.order) : Prop :=
  ToBoolean (Orders.deliverTo o) = true ∧
  ToBoolean (Orders.mobileNumber o) = true ∧
  ∃ line lines,
    Orders.dishes o = VArr (line :: lines) ∧
    Forall accepted_line (line :: lines).

(** The payload's status is one of the four valid strings. *)
Definition status_accepted (data s : value) : Prop :=
  get data "status" = Ret s ∧ ∃ t, s = VStr t ∧ t ∈ Orders.validStatuses.

End Props.

(** ** Properties *)

Import JS Express Utils Props.

(** *** The route stack *)

Section RunLemmas.
Context {R : Type}.
Implicit Types (stack : list (middleware R)) (m : middleware R).

Lemma run_app stack1 stack2 rq st st1 :
  run stack1 rq st = (Next, st1) →
  run (stack1 ++ stack2) rq st = run stack2 rq st1.
Proof.
  revert st. induction stack1 as [|m stack1 IH]; intros st; simpl.
  - by intros [= ->].
  - destruct (m rq st) as [[] st0]; try done. apply IH.
Qed.

Lemma run_cons_Next m stack rq st st1 :
  m rq st = (Next, st1) → run (m :: stack) rq st = run stack rq st1.
Proof. simpl. by intros ->. Qed.

Lemma run_stops stack rq st o st' :
  run stack rq st = (o, st') → o ≠ Next →
  ∃ pre m post st1,
    stack = pre ++ m :: post ∧ run pre rq st = (Next, st1) ∧
    m rq st1 = (o, st').
Proof.
  revert st. induction stack as [|m stack IH]; intros st; simpl.
  - intros [= <- _] ?; done.
  - destruct (m rq st) as [o0 st0] eqn:Hm.
    destruct o0;
      try (intros [= <- <-] _; exists [], m, stack, st; by rewrite Hm).
    intros Hrun Ho. destruct (IH _ Hrun Ho) as (pre & m' & post & st1 & -> & Hpre & Hm').
    exists (m :: pre), m', post, st1. simpl. by rewrite Hm.
Qed.

Lemma run_refused status pre m post rq st :
  Forall (passes_or_refuses status rq st) pre →
  (∃ msg, m rq st = (NextErr status msg, st)) →
  ∃ msg, run (pre ++ m :: post) rq st = (NextErr status msg, st).
Proof.
  intros Hpre [msg Hm].
  induction Hpre as [|m' pre [Hnext|[msg' Hrefuse]] _ IH]; simpl.
  - rewrite Hm. eauto.
  - by rewrite Hnext.
  - rewrite Hrefuse. eauto.
Qed.

Lemma run_keeps_store stack rq st :
  Forall keeps_store stack →
  ¬ responded (run stack rq st).1 → store (run stack rq st).2 = store st.
Proof.
  intros Hall. revert st.
  induction Hall as [|m stack Hm _ IH]; intros st; simpl; [done|].
  specialize (Hm rq st). destruct (m rq st) as [o0 st0]; simpl in *.
  destruct o0; simpl; intros Hr; [|by apply Hm..].
  rewrite (IH st0 Hr). apply Hm. intros [].
Qed.
End RunLemmas.

(** *** Which functions touch the collection *)

Ltac keeps_store_tac :=
  let rq := fresh "rq" in
  let st := fresh "st" in
  let Hn := fresh "Hn" in
  intros rq st; cbv beta delta [body_data]; simpl;
  repeat case_match; simpl; try done;
  intros Hn; exfalso; apply Hn; exact I.

(** Case analysis on every test a stack performs. *)
Ltac crunch :=
  repeat (case_match; simpl; try done);
  unfold mret, completion_ret in *; simplify_eq/=.

Section Frames.
Context `{Coercions}.

Lemma dishes_create_stack_keeps_store :
  Forall keeps_store Dishes.exports.create.
Proof.
  unfold Dishes.exports.create. repeat apply Forall_cons_2; try apply Forall_nil_2.
  all: unfold Dishes.bodyDataHas, Dishes.hasPrice, Dishes.create; keeps_store_tac.
Qed.

Lemma dishes_update_stack_keeps_store :
  Forall keeps_store Dishes.exports.update.
Proof.
  unfold Dishes.exports.update. repeat apply Forall_cons_2; try apply Forall_nil_2.
  all: unfold Dishes.bodyDataHas, Dishes.hasPrice, Dishes.dishExists,
         Dishes.idMatch, Dishes.update; keeps_store_tac.
Qed.

Lemma orders_create_stack_keeps_store :
  Forall keeps_store Orders.exports.create.
Proof.
  unfold Orders.exports.create. repeat apply Forall_cons_2; try apply Forall_nil_2.
  all: unfold Orders.bodyDataHas, Orders.dishProperties, Orders.create;
    keeps_store_tac.
Qed.

Lemma orders_update_stack_keeps_store :
  Forall keeps_store Orders.exports.update.
Proof.
  unfold Orders.exports.update. repeat apply Forall_cons_2; try apply Forall_nil_2.
  all: unfold Orders.bodyDataHas, Orders.dishProperties, Orders.orderExists,
         Orders.matchIds, Orders.orderDelivered, Orders.statusInvalid,
         Orders.update; keeps_store_tac.
Qed.

Lemma orders_destroy_stack_keeps_store :
  Forall keeps_store Orders.exports.destroy.
Proof.
  unfold Orders.exports.destroy. repeat apply Forall_cons_2; try apply Forall_nil_2.
  all: unfold Orders.orderExists, Orders.orderStatus, Orders.destroy;
    keeps_store_tac.
Qed.

Lemma failed_run_keeps_store {R} (stack : list (middleware R)) rq db o db' :
  Forall keeps_store stack →
  handle stack rq db = (o, db') → failed o →
  db' = db ∧
  ∃ pre m post st st',
    stack = pre ++ m :: post ∧
    run pre rq {| store := db; locals := None |} = (Next, st) ∧
    m rq st = (o, st') ∧ store st' = db.
Proof.
  intros Hall. unfold handle.
  destruct (run stack rq _) as [o0 st0] eqn:Hrun. intros [= -> <-] Hf.
  pose proof (run_keeps_store stack rq {| store := db; locals := None |} Hall)
    as Hk. rewrite Hrun in Hk.
  simpl in Hk. split.
  - apply Hk. destruct o; simpl in *; tauto.
  - destruct (run_stops _ _ _ _ _ Hrun) as (pre & m & post & st1 & ? & ? & ?);
      [by destruct o|].
    exists pre, m, post, st1, st0. split_and!; try done.
    apply Hk. destruct o; simpl in *; tauto.
Qed.
End Frames.

(** *** The id generator *)

Lemma numeric_nextId ids : numeric (nextId ids) = Some (highest ids + 1)%N.
Proof.
  unfold numeric, nextId. rewrite NilEmpty.usu. simpl.
  by rewrite DecimalN.Unsigned.of_to.
Qed.

Lemma highest_bound ids s n :
  s ∈ ids → numeric s = Some n → (n ≤ highest ids)%N.
Proof.
  induction ids as [|s' ids IH]; [by intros ?%elem_of_nil|].
  intros [->|Hin]%elem_of_cons Hn; simpl.
  - rewrite Hn. lia.
  - specialize (IH Hin Hn). destruct (numeric s'); lia.
Qed.

Lemma nextId_fresh_increasing ids : fresh_increasing ids (nextId ids).
Proof.
  split_and!.
  - intros Hin. pose proof (highest_bound _ _ _ Hin (numeric_nextId ids)). lia.
  - exists (highest ids + 1)%N. split; [apply numeric_nextId|].
    intros s n Hin Hn. pose proof (highest_bound _ _ _ Hin Hn). lia.
  - by intros ->.
Qed.

Lemma fresh_increasing_NoDup ids new :
  fresh_increasing ids new → NoDup ids → NoDup (ids ++ [new]).
Proof.
  intros (Hnew & _) Hnd. apply NoDup_app. split_and!; [done| |apply NoDup_singleton].
  intros x Hx ->%list_elem_of_singleton. done.
Qed.

(** *** Prices and quantities *)

Section Numbers.
Context `{Coercions}.

Lemma integral_positive_ge_1 q :
  integral q = true → (0 < q)%Q → (1 <= q)%Q.
Proof.
  unfold integral, Qlt, Qle. destruct q as [n d]. simpl.
  intros Hm%Z.eqb_eq Hpos.
  apply Z.mod_divide in Hm as [k ->]; [|done].
  assert (0 < k)%Z by nia. nia.
Qed.

(** A Number is compared as it is. *)
Lemma le_number n m : le (VNum n) m = Ret (number_le n m).
Proof. done. Qed.

Lemma lt_number n m : lt (VNum n) m = Ret (number_lt n m).
Proof. done. Qed.

(** A price that is a positive integer is above 0. *)
Lemma price_accepted p : positive_integer p → le p (Fin 0) = Ret false.
Proof.
  intros (q & -> & Hint & Hpos). rewrite le_number. f_equal. simpl.
  apply not_true_is_false. intros Hq%Qle_bool_iff. by apply Qlt_not_le in Hpos.
Qed.

(** The test of [hasPrice], once the comparison has a result, lets
    through exactly the positive integers. *)
Lemma price_test p b :
  le p (Fin 0) = Ret b →
  b || negb (Number_isInteger p) = false ↔ positive_integer p.
Proof.
  intros Hle. rewrite orb_false_iff, negb_false_iff. split.
  - intros [-> Hint]. destruct p as [| | |[| | |q]| | |]; try done.
    exists q. split_and!; [done..|].
    apply Qnot_le_lt. intros Hq%Qle_bool_iff.
    rewrite le_number in Hle. simpl in Hle. congruence.
  - intros Hp. rewrite (price_accepted p Hp) in Hle. injection Hle as <-.
    destruct Hp as (q & -> & Hint & _). done.
Qed.

(** The test of the quantity loop always has a result: the comparison
    is reached by Numbers only. *)
Lemma quantity_test_defined v :
  ∃ b, or_else (negb (ToBoolean v) || negb (Number_isInteger v))
               (lt v (Fin 1)) = Ret b.
Proof.
  unfold or_else.
  destruct (negb (ToBoolean v) || negb (Number_isInteger v)) eqn:Hfirst;
    [eauto|].
  destruct v as [| | |n| | |]; try (by rewrite orb_true_r in Hfirst).
  rewrite lt_number. eauto.
Qed.

(** It lets through the same values as the test of the price. *)
Lemma quantity_test v :
  or_else (negb (ToBoolean v) || negb (Number_isInteger v)) (lt v (Fin 1))
    = Ret false
  ↔ positive_integer v.
Proof.
  split.
  - unfold or_else.
    destruct (negb (ToBoolean v) || negb (Number_isInteger v)) eqn:Hfirst;
      [done|].
    apply orb_false_iff in Hfirst as [Htrue%negb_false_iff Hint%negb_false_iff].
    destruct v as [| | |[| | |q]| | |]; try done.
    rewrite lt_number. intros [= Hlt]. simpl in Hlt.
    apply negb_false_iff, Qle_bool_iff in Hlt.
    exists q. split_and!; [done..|].
    eapply Qlt_le_trans; [|exact Hlt]. done.
  - intros (q & -> & Hint & Hpos).
    pose proof (integral_positive_ge_1 q Hint Hpos) as Hge.
    assert (negb (ToBoolean (VNum (Fin q))) = false) as Htrue.
    { simpl. apply negb_false_iff, negb_true_iff, not_true_is_false.
      intros Hq%Qeq_bool_iff. rewrite Hq in Hpos. by apply Qlt_irrefl in Hpos. }
    rewrite Htrue. simpl. rewrite Hint. simpl. rewrite lt_number. f_equal.
    simpl. by apply negb_false_iff, Qle_bool_iff.
Qed.

Lemma quantity_refused v :
  ¬ positive_integer v →
  or_else (negb (ToBoolean v) || negb (Number_isInteger v)) (lt v (Fin 1))
    = Ret true.
Proof.
  intros Hv. destruct (quantity_test_defined v) as [[] Hb]; [done|].
  by apply quantity_test in Hb.
Qed.
End Numbers.

(** *** Looking a record up by its id *)

Lemma strict_eq_true v s : strict_eq v s = true ↔ v = VStr s.
Proof.
  destruct v; simpl; try (split; [done|congruence]).
  rewrite String.eqb_eq. split; congruence.
Qed.

Lemma strict_eq_false v s : strict_eq v s = false ↔ v ≠ VStr s.
Proof. rewrite <- strict_eq_true. by destruct (strict_eq v s). Qed.

Lemma get_defined data k v k' : get data k = Ret v → ∃ v', get data k' = Ret v'.
Proof. destruct data; simpl; try done; eauto. Qed.

Section Lookup.
Context {R : Type} (key : R → string).

Lemma list_find_fresh (db : list R) (new : R) :
  key new ∉ key <$> db →
  list_find (λ r, key r = key new) (db ++ [new]) = Some (length db, new).
Proof.
  intros Hfresh. rewrite list_find_app_r.
  - simpl. by rewrite decide_True.
  - apply list_find_None, Forall_forall. intros r Hr Heq.
    apply Hfresh. rewrite <- Heq. by apply list_elem_of_fmap_2.
Qed.

Lemma list_find_deleted (db : list R) (i : nat) (r : R) :
  NoDup (key <$> db) → db !! i = Some r →
  list_find (λ x, key x = key r) (delete i db) = None.
Proof.
  intros Hnd Hi. apply list_find_None, Forall_forall.
  intros x [j Hj]%list_elem_of_lookup Heq.
  assert (∃ j', j' ≠ i ∧ db !! j' = Some x) as (j' & Hne & Hj').
  { destruct (decide (j < i)).
    - exists j. split; [lia|]. by rewrite list_lookup_delete_lt in Hj.
    - exists (S j). split; [lia|]. by rewrite list_lookup_delete_ge in Hj by lia. }
  apply Hne. eapply NoDup_lookup; [exact Hnd| |];
    rewrite list_lookup_fmap; [rewrite Hj'|rewrite Hi]; simpl; by rewrite ?Heq.
Qed.
End Lookup.

(** *** What each validation middleware tests *)

Ltac inv_close :=
  intros [= <- <-]; split_and?; simpl; try tauto; try done; eauto 10.

Section Middleware.
Context `{Coercions}.

Lemma run_cons_inv {R} (m : middleware R) rest rq st o st' :
  run (m :: rest) rq st = (o, st') →
  (∃ st1, m rq st = (Next, st1) ∧ run rest rq st1 = (o, st')) ∨
  (o ≠ Next ∧ m rq st = (o, st')).
Proof.
  simpl. destruct (m rq st) as [[] st1]; intros Hrun; eauto;
    right; by simplify_eq.
Qed.

Lemma dishes_bodyDataHas_eval p rq st data v :
  body_data rq = Ret data → get data p = Ret v →
  Dishes.bodyDataHas p rq st =
    if ToBoolean v then (Next, st)
    else (NextErr 400 ("Dish must include a " +:+ p), st).
Proof. unfold Dishes.bodyDataHas. intros -> Hv. simpl. by rewrite Hv. Qed.

Lemma dishes_bodyDataHas_inv p rq st o st' :
  Dishes.bodyDataHas p rq st = (o, st') →
  ¬ responded o ∧ st' = st ∧
  (o = Next →
   ∃ data v, body_data rq = Ret data ∧ get data p = Ret v ∧ ToBoolean v = true).
Proof.
  unfold Dishes.bodyDataHas.
  destruct (body_data rq) as [data|]; simpl; [|inv_close].
  destruct (get data p) as [v|] eqn:?; simpl; [|inv_close].
  destruct (ToBoolean v) eqn:?; inv_close.
Qed.

Lemma dishes_hasPrice_eval rq st data p :
  body_data rq = Ret data → get data "price" = Ret p →
  Dishes.hasPrice rq st =
    match le p (Fin 0) with
    | TypeError => (Thrown, st)
    | Ret nonpositive =>
        if nonpositive || negb (Number_isInteger p)
        then (NextErr 400
                "Dish must have a price that is an integer greater than 0", st)
        else (Next, st)
    end.
Proof. unfold Dishes.hasPrice. intros -> Hv. simpl. by rewrite Hv. Qed.

Lemma dishes_hasPrice_inv rq st o st' :
  Dishes.hasPrice rq st = (o, st') →
  ¬ responded o ∧ st' = st ∧
  (o = Next →
   ∃ data p, body_data rq = Ret data ∧ get data "price" = Ret p ∧
             positive_integer p).
Proof.
  unfold Dishes.hasPrice.
  destruct (body_data rq) as [data|]; simpl; [|inv_close].
  destruct (get data "price") as [p|] eqn:?; simpl; [|inv_close].
  destruct (le p (Fin 0)) as [b|] eqn:Hle; [|inv_close].
  destruct (b || negb (Number_isInteger p)) eqn:Htest; [inv_close|].
  intros [= <- <-]. split_and!; [simpl; tauto|done|].
  intros _. exists data, p. split_and!; try done. by apply (price_test p b).
Qed.

Lemma dishExists_inv rq st o st' :
  Dishes.dishExists rq st = (o, st') →
  ¬ responded o ∧ store st' = store st ∧
  (o = Next →
   ∃ at_ found_,
     list_find (λ d, Dishes.id d = params rq) (store st) = Some (at_, found_) ∧
     st' = {| store := store st; locals := Some at_ |}).
Proof.
  unfold Dishes.dishExists.
  destruct (list_find _ _) as [[at_ found_]|]; inv_close.
Qed.

Lemma idMatch_eval rq st data v :
  body_data rq = Ret data → get data "id" = Ret v →
  Dishes.idMatch rq st =
    if ToBoolean v && negb (strict_eq v (params rq))
    then match ToString v with
         | TypeError => (Thrown, st)
         | Ret shown =>
             (NextErr 400
                ("Dish id does not match route id. Dish: " +:+ shown
                 +:+ ", Route: " +:+ params rq), st)
         end
    else (Next, st).
Proof.
  unfold Dishes.idMatch. intros -> Hv. simpl. rewrite Hv.
  by destruct (ToBoolean v), (strict_eq v (params rq)).
Qed.

Lemma idMatch_inv rq st o st' :
  Dishes.idMatch rq st = (o, st') → ¬ responded o ∧ st' = st.
Proof.
  unfold Dishes.idMatch.
  destruct (body_data rq) as [data|]; simpl; [|inv_close].
  destruct (get data "id") as [v|]; simpl; [|inv_close].
  destruct (ToBoolean v), (strict_eq v (params rq)), (ToString v);
    inv_close.
Qed.

Lemma orders_bodyDataHas_eval p rq st data v :
  body_data rq = Ret data → get data p = Ret v →
  Orders.bodyDataHas p rq st =
    if ToBoolean v then (Next, st)
    else (NextErr 400 ("Order must include a " +:+ p), st).
Proof. unfold Orders.bodyDataHas. intros -> Hv. simpl. by rewrite Hv. Qed.

Lemma orders_bodyDataHas_inv p rq st o st' :
  Orders.bodyDataHas p rq st = (o, st') →
  ¬ responded o ∧ st' = st ∧
  (o = Next →
   ∃ data v, body_data rq = Ret data ∧ get data p = Ret v ∧ ToBoolean v = true).
Proof.
  unfold Orders.bodyDataHas.
  destruct (body_data rq) as [data|]; simpl; [|inv_close].
  destruct (get data p) as [v|] eqn:?; simpl; [|inv_close].
  destruct (ToBoolean v) eqn:?; inv_close.
Qed.

Lemma dishProperties_eval rq st data ds :
  body_data rq = Ret data → get data "dishes" = Ret ds →
  Orders.dishProperties rq st =
    let ds := default ds (VArr []) in
    if negb (ToBoolean ds) || negb (Array_isArray ds)
       || (Orders.length_of ds =? 0)%nat
    then (NextErr 400 "Order must include a dish", st)
    else
      match Orders.first_refused (match ds with VArr l => l | _ => [] end) with
      | TypeError => (Thrown, st)
      | Ret (Some i) =>
          match ToString i with
          | TypeError => (Thrown, st)
          | Ret shown =>
              (NextErr 400
                 ("Dish " +:+ shown
                  +:+ " must have a quantity that is an integer greater than 0"),
               st)
          end
      | Ret None => (Next, st)
      end.
Proof. unfold Orders.dishProperties. intros -> Hv. simpl. by rewrite Hv. Qed.

Lemma dishProperties_inv rq st o st' :
  Orders.dishProperties rq st = (o, st') → ¬ responded o ∧ st' = st.
Proof.
  unfold Orders.dishProperties.
  destruct (body_data rq) as [data|]; simpl; [|inv_close].
  destruct (get data "dishes") as [ds|]; simpl; [|inv_close].
  destruct (_ || _); [inv_close|].
  destruct (Orders.first_refused _) as [[i|]|]; [|inv_close..].
  destruct (ToString i); inv_close.
Qed.

Lemma orderExists_inv rq st o st' :
  Orders.orderExists rq st = (o, st') →
  ¬ responded o ∧ store st' = store st ∧
  (o = Next →
   ∃ at_ found_,
     list_find (λ x, Orders.id x = params rq) (store st) = Some (at_, found_) ∧
     st' = {| store := store st; locals := Some at_ |}).
Proof.
  unfold Orders.orderExists.
  destruct (list_find _ _) as [[at_ found_]|]; inv_close.
Qed.

Lemma orderExists_eval rq db at_ o :
  list_find (λ x, Orders.id x = params rq) db = Some (at_, o) →
  Orders.orderExists rq {| store := db; locals := None |} =
    (Next, {| store := db; locals := Some at_ |}).
Proof. unfold Orders.orderExists. simpl. by intros ->. Qed.

Lemma dishExists_eval rq db at_ d :
  list_find (λ x, Dishes.id x = params rq) db = Some (at_, d) →
  Dishes.dishExists rq {| store := db; locals := None |} =
    (Next, {| store := db; locals := Some at_ |}).
Proof. unfold Dishes.dishExists. simpl. by intros ->. Qed.

Lemma matchIds_eval rq st data v :
  body_data rq = Ret data → get data "id" = Ret v →
  Orders.matchIds rq st =
    if ToBoolean v && negb (strict_eq v (params rq))
    then match ToString v with
         | TypeError => (Thrown, st)
         | Ret shown =>
             (NextErr 400
                ("Order id does not match route id. Order: " +:+ shown
                 +:+ ", Route: " +:+ params rq +:+ "."), st)
         end
    else (Next, st).
Proof.
  unfold Orders.matchIds. intros -> Hv. simpl. rewrite Hv.
  by destruct (ToBoolean v), (strict_eq v (params rq)).
Qed.

Lemma matchIds_inv rq st o st' :
  Orders.matchIds rq st = (o, st') → ¬ responded o ∧ st' = st.
Proof.
  unfold Orders.matchIds.
  destruct (body_data rq) as [data|]; simpl; [|inv_close].
  destruct (get data "id") as [v|]; simpl; [|inv_close].
  destruct (ToBoolean v), (strict_eq v (params rq)), (ToString v);
    inv_close.
Qed.

Lemma orderDelivered_inv rq st o st' :
  Orders.orderDelivered rq st = (o, st') → ¬ responded o ∧ st' = st.
Proof.
  unfold Orders.orderDelivered.
  destruct (found st) as [x|]; [|inv_close].
  destruct (strict_eq _ _); inv_close.
Qed.

Lemma statusInvalid_eval rq st data s :
  body_data rq = Ret data → get data "status" = Ret s →
  Orders.statusInvalid rq st =
    if existsb (strict_eq s) Orders.validStatuses then (Next, st)
    else (NextErr 400 "Order status invalid", st).
Proof. unfold Orders.statusInvalid. intros -> Hv. simpl. by rewrite Hv. Qed.

(** With a body whose data is not [null], these checks pass or refuse
    with 400; [hasPrice] and the id checks do when the conversion they
    apply has a result. *)
Lemma dishes_bodyDataHas_answers p rq st data v :
  body_data rq = Ret data → get data p = Ret v →
  passes_or_refuses 400 rq st (Dishes.bodyDataHas p).
Proof.
  intros Hdata Hv. unfold passes_or_refuses.
  rewrite (dishes_bodyDataHas_eval _ _ _ _ _ Hdata Hv).
  destruct (ToBoolean v); eauto.
Qed.

Lemma dishes_hasPrice_answers rq st data p b :
  body_data rq = Ret data → get data "price" = Ret p →
  le p (Fin 0) = Ret b →
  passes_or_refuses 400 rq st Dishes.hasPrice.
Proof.
  intros Hdata Hp Hle. unfold passes_or_refuses.
  rewrite (dishes_hasPrice_eval _ _ _ _ Hdata Hp), Hle.
  destruct (b || _); eauto.
Qed.

Lemma idMatch_answers rq st data v shown :
  body_data rq = Ret data → get data "id" = Ret v → ToString v = Ret shown →
  passes_or_refuses 400 rq st Dishes.idMatch.
Proof.
  intros Hdata Hv Hshown. unfold passes_or_refuses.
  rewrite (idMatch_eval _ _ _ _ Hdata Hv), Hshown.
  destruct (ToBoolean v && _); eauto.
Qed.

Lemma orders_bodyDataHas_answers p rq st data v :
  body_data rq = Ret data → get data p = Ret v →
  passes_or_refuses 400 rq st (Orders.bodyDataHas p).
Proof.
  intros Hdata Hv. unfold passes_or_refuses.
  rewrite (orders_bodyDataHas_eval _ _ _ _ _ Hdata Hv).
  destruct (ToBoolean v); eauto.
Qed.

Lemma matchIds_answers rq st data v shown :
  body_data rq = Ret data → get data "id" = Ret v → ToString v = Ret shown →
  passes_or_refuses 400 rq st Orders.matchIds.
Proof.
  intros Hdata Hv Hshown. unfold passes_or_refuses.
  rewrite (matchIds_eval _ _ _ _ Hdata Hv), Hshown.
  destruct (ToBoolean v && _); eauto.
Qed.

Lemma orderDelivered_answers rq (st : state Orders.order) o :
  found st = Some o → passes_or_refuses 400 rq st Orders.orderDelivered.
Proof.
  intros Hfound. unfold passes_or_refuses, Orders.orderDelivered.
  rewrite Hfound. destruct (strict_eq _ _); eauto.
Qed.

Lemma statusInvalid_answers rq st data s :
  body_data rq = Ret data → get data "status" = Ret s →
  passes_or_refuses 400 rq st Orders.statusInvalid.
Proof.
  intros Hdata Hs. unfold passes_or_refuses.
  rewrite (statusInvalid_eval _ _ _ _ Hdata Hs).
  destruct (existsb _ _); eauto.
Qed.

Lemma statusInvalid_inv rq st o st' :
  Orders.statusInvalid rq st = (o, st') → ¬ responded o ∧ st' = st.
Proof.
  unfold Orders.statusInvalid.
  destruct (body_data rq) as [data|]; simpl; [|inv_close].
  destruct (get data "status") as [v|]; simpl; [|inv_close].
  match goal with |- context [if ?b then _ else _] => destruct b end;
    inv_close.
Qed.
End Middleware.

(** *** When a stack responds *)

(** One step of a stack whose outcome is a response: the head is a
    validation middleware, so it has called [next()]. *)
Ltac step_validator H lem :=
  let st1 := fresh "st" in
  let Hm := fresh "Hm" in
  apply run_cons_inv in H as [(st1 & Hm & H)|[_ Hm]];
  [apply lem in Hm
  |apply lem in Hm as [Hm _]; exfalso; apply Hm; exact I].

(** One step of a stack of checks that has called [next()] throughout. *)
Ltac step_passed H lem :=
  let st1 := fresh "st" in
  let Hm := fresh "Hm" in
  apply run_cons_inv in H as [(st1 & Hm & H)|[? _]]; [apply lem in Hm|done].

Ltac same_data :=
  repeat match goal with
  | H1 : body_data ?rq = Ret ?a, H2 : body_data ?rq = Ret ?b |- _ =>
      assert (b = a) by congruence; subst b; clear H2
  end.

Section Responses.
Context `{Coercions}.

Lemma handle_inv {R} (stack : list (middleware R)) rq db o db' :
  handle stack rq db = (o, db') →
  ∃ st', run stack rq {| store := db; locals := None |} = (o, st') ∧
         store st' = db'.
Proof.
  unfold handle. destruct (run stack rq _) as [o0 st0].
  intros [= <- <-]. eauto.
Qed.

Lemma dishes_create_responds rq db code r db' :
  handle Dishes.exports.create rq db = (Sent code r, db') →
  ∃ data n d p i,
    body_data rq = Ret data ∧
    get data "name" = Ret n ∧ ToBoolean n = true ∧
    get data "description" = Ret d ∧ ToBoolean d = true ∧
    get data "price" = Ret p ∧ positive_integer p ∧
    get data "image_url" = Ret i ∧ ToBoolean i = true ∧
    code = 201%Z ∧
    r = Data {| Dishes.id := nextId (Dishes.id <$> db); Dishes.name := n;
                Dishes.description := d; Dishes.price := p;
                Dishes.image_url := i |} ∧
    db' = db ++ [{| Dishes.id := nextId (Dishes.id <$> db); Dishes.name := n;
                    Dishes.description := d; Dishes.price := p;
                    Dishes.image_url := i |}].
Proof.
  intros (st' & Hrun & <-)%handle_inv. unfold Dishes.exports.create in Hrun.
  step_validator Hrun (dishes_bodyDataHas_inv "name").
  destruct Hm as (_ & -> & Hn). destruct (Hn eq_refl) as (data & n & Hdata & Hgn & Htn).
  step_validator Hrun (dishes_bodyDataHas_inv "description").
  destruct Hm as (_ & -> & Hd). destruct (Hd eq_refl) as (? & d & ? & Hgd & Htd).
  step_validator Hrun dishes_hasPrice_inv.
  destruct Hm as (_ & -> & Hp). destruct (Hp eq_refl) as (? & p & ? & Hgp & Htp).
  step_validator Hrun (dishes_bodyDataHas_inv "price").
  destruct Hm as (_ & -> & _).
  step_validator Hrun (dishes_bodyDataHas_inv "image_url").
  destruct Hm as (_ & -> & Hi). destruct (Hi eq_refl) as (? & i & ? & Hgi & Hti).
  same_data. simpl in Hrun. unfold Dishes.create in Hrun.
  rewrite Hdata in Hrun. simpl in Hrun.
  rewrite Hgn, Hgd, Hgp, Hgi in Hrun. simpl in Hrun. simplify_eq/=.
  exists data, n, d, p, i. split_and!; done.
Qed.
Lemma dishes_update_responds rq db code r db' :
  handle Dishes.exports.update rq db = (Sent code r, db') →
  ∃ at_ old data n d p i,
    list_find (λ x, Dishes.id x = params rq) db = Some (at_, old) ∧
    body_data rq = Ret data ∧
    get data "name" = Ret n ∧ ToBoolean n = true ∧
    get data "description" = Ret d ∧ ToBoolean d = true ∧
    get data "price" = Ret p ∧ positive_integer p ∧
    get data "image_url" = Ret i ∧ ToBoolean i = true ∧
    code = 200%Z ∧
    r = Data {| Dishes.id := Dishes.id old; Dishes.name := n;
                Dishes.description := d; Dishes.price := p;
                Dishes.image_url := i |} ∧
    db' = <[at_ := {| Dishes.id := Dishes.id old; Dishes.name := n;
                      Dishes.description := d; Dishes.price := p;
                      Dishes.image_url := i |}]> db.
Proof.
  intros (st' & Hrun & <-)%handle_inv. unfold Dishes.exports.update in Hrun.
  step_validator Hrun dishExists_inv.
  destruct Hm as (_ & _ & Hex).
  destruct (Hex eq_refl) as (at_ & old & Hfind & ->). simpl in Hfind.
  step_validator Hrun (dishes_bodyDataHas_inv "name").
  destruct Hm as (_ & -> & Hn). destruct (Hn eq_refl) as (data & n & Hdata & Hgn & Htn).
  step_validator Hrun (dishes_bodyDataHas_inv "description").
  destruct Hm as (_ & -> & Hd). destruct (Hd eq_refl) as (? & d & ? & Hgd & Htd).
  step_validator Hrun dishes_hasPrice_inv.
  destruct Hm as (_ & -> & Hp). destruct (Hp eq_refl) as (? & p & ? & Hgp & Htp).
  step_validator Hrun (dishes_bodyDataHas_inv "price").
  destruct Hm as (_ & -> & _).
  step_validator Hrun (dishes_bodyDataHas_inv "image_url").
  destruct Hm as (_ & -> & Hi). destruct (Hi eq_refl) as (? & i & ? & Hgi & Hti).
  step_validator Hrun idMatch_inv.
  destruct Hm as (_ & ->).
  same_data. simpl in Hrun. unfold Dishes.update, found in Hrun.
  rewrite Hdata in Hrun. simpl in Hrun.
  apply list_find_Some in Hfind as Hfind'. destruct Hfind' as (Hat & _ & _).
  rewrite Hat in Hrun.
  destruct (get data "id"); simpl in Hrun; [|done].
  rewrite Hgn, Hgd, Hgp, Hgi in Hrun. simpl in Hrun. simplify_eq/=.
  exists at_, old, data, n, d, p, i. split_and!; done.
Qed.

Lemma orders_create_responds rq db code r db' :
  handle Orders.exports.create rq db = (Sent code r, db') →
  ∃ data to mobile s ds,
    body_data rq = Ret data ∧
    get data "deliverTo" = Ret to ∧ ToBoolean to = true ∧
    get data "mobileNumber" = Ret mobile ∧ ToBoolean mobile = true ∧
    get data "status" = Ret s ∧
    get data "dishes" = Ret ds ∧ ToBoolean ds = true ∧
    code = 201%Z ∧
    r = Data {| Orders.id := nextId (Orders.id <$> db);
                Orders.deliverTo := to; Orders.mobileNumber := mobile;
                Orders.status := s; Orders.dishes := ds |} ∧
    db' = db ++ [{| Orders.id := nextId (Orders.id <$> db);
                    Orders.deliverTo := to; Orders.mobileNumber := mobile;
                    Orders.status := s; Orders.dishes := ds |}].
Proof.
  intros (st' & Hrun & <-)%handle_inv. unfold Orders.exports.create in Hrun.
  step_validator Hrun (orders_bodyDataHas_inv "deliverTo").
  destruct Hm as (_ & -> & Hn). destruct (Hn eq_refl) as (data & to & Hdata & Hgt & Htt).
  step_validator Hrun (orders_bodyDataHas_inv "mobileNumber").
  destruct Hm as (_ & -> & Hd). destruct (Hd eq_refl) as (? & mobile & ? & Hgm & Htm).
  step_validator Hrun (orders_bodyDataHas_inv "dishes").
  destruct Hm as (_ & -> & Hp). destruct (Hp eq_refl) as (? & ds & ? & Hgd & Htd).
  step_validator Hrun dishProperties_inv.
  destruct Hm as (_ & ->).
  same_data. simpl in Hrun. unfold Orders.create in Hrun.
  rewrite Hdata in Hrun. simpl in Hrun.
  destruct (get data "id"); simpl in Hrun; [|done].
  rewrite Hgt, Hgm, Hgd in Hrun. simpl in Hrun.
  destruct (get data "status") as [s|] eqn:Hgs; simpl in Hrun; [|done].
  assert (match ds with VUndef => TypeError | _ => Ret ds end = Ret ds) as Hds
    by (by destruct ds).
  unfold mret, completion_ret in Hrun. rewrite Hds in Hrun. simpl in Hrun.
  injection Hrun as <- <- <-.
  exists data, to, mobile, s, ds. split_and!; done.
Qed.

Lemma orders_update_responds rq db code r db' :
  handle Orders.exports.update rq db = (Sent code r, db') →
  ∃ at_ old data to mobile s ds,
    list_find (λ x, Orders.id x = params rq) db = Some (at_, old) ∧
    body_data rq = Ret data ∧
    get data "deliverTo" = Ret to ∧ ToBoolean to = true ∧
    get data "mobileNumber" = Ret mobile ∧ ToBoolean mobile = true ∧
    get data "status" = Ret s ∧ ToBoolean s = true ∧
    get data "dishes" = Ret ds ∧ ToBoolean ds = true ∧
    code = 200%Z ∧
    r = Data {| Orders.id := Orders.id old;
                Orders.deliverTo := to; Orders.mobileNumber := mobile;
                Orders.status := s; Orders.dishes := ds |} ∧
    db' = <[at_ := {| Orders.id := Orders.id old;
                      Orders.deliverTo := to; Orders.mobileNumber := mobile;
                      Orders.status := s; Orders.dishes := ds |}]> db.
Proof.
  intros (st' & Hrun & <-)%handle_inv. unfold Orders.exports.update in Hrun.
  step_validator Hrun orderExists_inv.
  destruct Hm as (_ & _ & Hex).
  destruct (Hex eq_refl) as (at_ & old & Hfind & ->). simpl in Hfind.
  step_validator Hrun matchIds_inv. destruct Hm as (_ & ->).
  step_validator Hrun orderDelivered_inv. destruct Hm as (_ & ->).
  step_validator Hrun (orders_bodyDataHas_inv "deliverTo").
  destruct Hm as (_ & -> & Hn). destruct (Hn eq_refl) as (data & to & Hdata & Hgt & Htt).
  step_validator Hrun (orders_bodyDataHas_inv "mobileNumber").
  destruct Hm as (_ & -> & Hd). destruct (Hd eq_refl) as (? & mobile & ? & Hgm & Htm).
  step_validator Hrun (orders_bodyDataHas_inv "dishes").
  destruct Hm as (_ & -> & Hp). destruct (Hp eq_refl) as (? & ds & ? & Hgd & Htd).
  step_validator Hrun (orders_bodyDataHas_inv "status").
  destruct Hm as (_ & -> & Hs). destruct (Hs eq_refl) as (? & s & ? & Hgs & Hts).
  step_validator Hrun statusInvalid_inv. destruct Hm as (_ & ->).
  step_validator Hrun dishProperties_inv. destruct Hm as (_ & ->).
  same_data. simpl in Hrun. unfold Orders.update, found in Hrun.
  rewrite Hdata in Hrun. simpl in Hrun.
  apply list_find_Some in Hfind as Hfind'. destruct Hfind' as (Hat & _ & _).
  rewrite Hat in Hrun.
  rewrite Hgt, Hgm, Hgs, Hgd in Hrun. simpl in Hrun.
  assert (default ds (VArr [VObj []]) = ds) as Hdef by by destruct ds.
  rewrite Hdef in Hrun. simplify_eq/=.
  exists at_, old, data, to, mobile, s, ds. split_and!; done.
Qed.

(** A payload that passes the validation of a create is created. *)
Lemma dishes_create_validated rq db st :
  run [Dishes.bodyDataHas "name"; Dishes.bodyDataHas "description";
       Dishes.hasPrice; Dishes.bodyDataHas "price";
       Dishes.bodyDataHas "image_url"]
      rq {| store := db; locals := None |} = (Next, st) →
  ∃ new, handle Dishes.exports.create rq db
         = (Sent 201 (Data new), db ++ [new]).
Proof.
  intros Hrun.
  pose proof (run_app _ [Dishes.create] _ _ _ Hrun) as Happ.
  step_passed Hrun (dishes_bodyDataHas_inv "name").
  destruct Hm as (_ & -> & Hn). destruct (Hn eq_refl) as (data & n & Hdata & Hgn & _).
  step_passed Hrun (dishes_bodyDataHas_inv "description").
  destruct Hm as (_ & -> & _).
  step_passed Hrun dishes_hasPrice_inv. destruct Hm as (_ & -> & _).
  step_passed Hrun (dishes_bodyDataHas_inv "price"). destruct Hm as (_ & -> & _).
  step_passed Hrun (dishes_bodyDataHas_inv "image_url").
  destruct Hm as (_ & -> & _). simpl in Hrun. injection Hrun as <-.
  destruct (get_defined _ _ _ "description" Hgn) as [d Hgd].
  destruct (get_defined _ _ _ "price" Hgn) as [p Hgp].
  destruct (get_defined _ _ _ "image_url" Hgn) as [i Hgi].
  eexists. unfold handle, Dishes.exports.create. simpl app in Happ.
  rewrite Happ. simpl. unfold Dishes.create. rewrite Hdata. simpl.
  rewrite Hgn, Hgd, Hgp, Hgi. simpl. reflexivity.
Qed.

Lemma orders_create_validated rq db st :
  run [Orders.bodyDataHas "deliverTo"; Orders.bodyDataHas "mobileNumber";
       Orders.bodyDataHas "dishes"; Orders.dishProperties]
      rq {| store := db; locals := None |} = (Next, st) →
  ∃ new, handle Orders.exports.create rq db
         = (Sent 201 (Data new), db ++ [new]).
Proof.
  intros Hrun.
  pose proof (run_app _ [Orders.create] _ _ _ Hrun) as Happ.
  step_passed Hrun (orders_bodyDataHas_inv "deliverTo").
  destruct Hm as (_ & -> & Hn). destruct (Hn eq_refl) as (data & to & Hdata & Hgt & _).
  step_passed Hrun (orders_bodyDataHas_inv "mobileNumber").
  destruct Hm as (_ & -> & _).
  step_passed Hrun (orders_bodyDataHas_inv "dishes").
  destruct Hm as (_ & -> & Hd). destruct (Hd eq_refl) as (? & ds & ? & Hgd & Htd).
  step_passed Hrun dishProperties_inv. destruct Hm as (_ & ->).
  simpl in Hrun. injection Hrun as <-. same_data.
  destruct (get_defined _ _ _ "id" Hgt) as [i Hgi].
  destruct (get_defined _ _ _ "mobileNumber" Hgt) as [mobile Hgm].
  destruct (get_defined _ _ _ "status" Hgt) as [s Hgs].
  eexists. unfold handle, Orders.exports.create. simpl app in Happ.
  rewrite Happ. simpl. unfold Orders.create. rewrite Hdata. simpl.
  rewrite Hgi, Hgt, Hgm, Hgs, Hgd. simpl.
  assert (match ds with VUndef => TypeError | _ => Ret ds end = Ret ds) as Hds
    by (by destruct ds).
  unfold mret, completion_ret. rewrite Hds. simpl. reflexivity.
Qed.
End Responses.

(** *** Validation failures leave the collections as they were *)

Section Claims.
Context `{Coercions}.

(** C4. In each of the five mutating operations (dish create and update,
  order create, update and delete), when a check fails (it passes an error
  on, or throws) the outcome of the operation is the outcome of that
  check, every function before it in the stack has called [next()], none
  after it has run, and the collection is the one the request found. *)
Theorem failed_check_stops_stack_store_unchanged :
∀ rq,
  (∀ stack db o db',
      stack ∈ [Dishes.exports.create; Dishes.exports.update] →
      handle stack rq db = (o, db') → failed o →
      db' = db ∧
      ∃ pre m post st st',
        stack = pre ++ m :: post ∧
        run pre rq {| store := db; locals := None |} = (Next, st) ∧
        m rq st = (o, st') ∧ store st' = db) ∧
  (∀ stack db o db',
      stack ∈ [Orders.exports.create; Orders.exports.update;
               Orders.exports.destroy] →
      handle stack rq db = (o, db') → failed o →
      db' = db ∧
      ∃ pre m post st st',
        stack = pre ++ m :: post ∧
        run pre rq {| store := db; locals := None |} = (Next, st) ∧
        m rq st = (o, st') ∧ store st' = db).
Proof.
intros rq. split; intros stack db o db' Hin.
- apply failed_run_keeps_store.
  repeat (apply elem_of_cons in Hin as [->|Hin]);
    [apply dishes_create_stack_keeps_store
    |apply dishes_update_stack_keeps_store
    |by apply elem_of_nil in Hin].
- apply failed_run_keeps_store.
  repeat (apply elem_of_cons in Hin as [->|Hin]);
    [apply orders_create_stack_keeps_store
    |apply orders_update_stack_keeps_store
    |apply orders_destroy_stack_keeps_store
    |by apply elem_of_nil in Hin].
Qed.

Lemma body_data_defined rq : body_data rq ≠ Ret VUndef.
Proof.
unfold body_data. destruct (get (body rq) "data") as [[]|]; done.
Qed.

(** C1. Whatever the request and the collection, the create handler of a
  dish and that of an order either throw, storing nothing (the body data
  is [null] or cannot be read; for an order also when it holds no
  [dishes]), or answer 201 with a new record that they append to the
  collection and whose id is the one [nextId] computes from the ids
  present: that id is not among them, it reads as a number strictly above
  every one of them that reads as a number, it is ["1"] for an empty
  collection, and ids that were pairwise distinct stay so. *)
Theorem create_assigns_fresh_increasing_id :
∀ rq,
  (∀ st : state Dishes.dish,
      ((body_data rq = TypeError ∨ body_data rq = Ret VNull) ∧
       Dishes.create rq st = (Thrown, st)) ∨
      ∃ d,
        Dishes.create rq st
        = (Sent 201 (Data d),
           {| store := store st ++ [d]; locals := locals st |}) ∧
        Dishes.id d = nextId (Dishes.id <$> store st) ∧
        fresh_increasing (Dishes.id <$> store st) (Dishes.id d) ∧
        (NoDup (Dishes.id <$> store st) →
         NoDup (Dishes.id <$> store st ++ [d]))) ∧
  (∀ st : state Orders.order,
      ((body_data rq = TypeError ∨ body_data rq = Ret VNull ∨
        ∃ data, body_data rq = Ret data ∧ get data "dishes" = Ret VUndef) ∧
       Orders.create rq st = (Thrown, st)) ∨
      ∃ o,
        Orders.create rq st
        = (Sent 201 (Data o),
           {| store := store st ++ [o]; locals := locals st |}) ∧
        Orders.id o = nextId (Orders.id <$> store st) ∧
        fresh_increasing (Orders.id <$> store st) (Orders.id o) ∧
        (NoDup (Orders.id <$> store st) →
         NoDup (Orders.id <$> store st ++ [o]))).
Proof.
intros rq. pose proof (body_data_defined rq) as Hdef. split; intros st.
- unfold Dishes.create.
  destruct (body_data rq) as [data|]; [|left; auto].
  destruct (get data "name") as [n|] eqn:Hn.
  2:{ left. destruct data; try done. simpl. auto. }
  right.
  destruct (get_defined _ _ _ "description" Hn) as [d Hd].
  destruct (get_defined _ _ _ "price" Hn) as [p Hp].
  destruct (get_defined _ _ _ "image_url" Hn) as [i Hi].
  simpl. rewrite Hn, Hd, Hp, Hi. simpl.
  eexists. split_and!; [reflexivity|done| |].
  + apply nextId_fresh_increasing.
  + intros Hnd. rewrite fmap_app. simpl.
    apply fresh_increasing_NoDup; [apply nextId_fresh_increasing|done].
- unfold Orders.create.
  destruct (body_data rq) as [data|]; [|left; auto].
  destruct (get data "dishes") as [ds|] eqn:Hds.
  2:{ left. destruct data; try done. simpl. auto. }
  destruct (get_defined _ _ _ "id" Hds) as [i Hi].
  destruct (get_defined _ _ _ "deliverTo" Hds) as [to Hto].
  destruct (get_defined _ _ _ "mobileNumber" Hds) as [mobile Hmobile].
  destruct (get_defined _ _ _ "status" Hds) as [status Hstatus].
  simpl. rewrite Hi, Hto, Hmobile, Hstatus, Hds. simpl.
  assert (ds = VUndef ∨
          match ds with VUndef => TypeError | _ => mret ds end = Ret ds)
    as [->| ->] by (destruct ds; auto).
  { left. split; [|done]. right. right. by exists data. }
  right. simpl.
  eexists. split_and!; [reflexivity|done| |].
  + apply nextId_fresh_increasing.
  + intros Hnd. rewrite fmap_app. simpl.
    apply fresh_increasing_NoDup; [apply nextId_fresh_increasing|done].
Qed.

(** C7. A successful update of a dish or of an order replaces, at the
  position of the record the request resolved, its mutable fields by
  those of the payload and keeps its [id]; the payload's own [id] is read
  and never stored, and every other record is as before. *)
Theorem update_keeps_id_overwrites_fields :
∀ rq,
  (∀ st code r st',
      Dishes.update rq st = (Sent code r, st') →
      ∃ at_ old new data,
        locals st = Some at_ ∧ store st !! at_ = Some old ∧
        body_data rq = Ret data ∧ r = Data new ∧
        store st' = <[at_ := new]> (store st) ∧
        store st' !! at_ = Some new ∧
        (∀ j, j ≠ at_ → store st' !! j = store st !! j) ∧
        Dishes.id new = Dishes.id old ∧
        get data "name" = Ret (Dishes.name new) ∧
        get data "description" = Ret (Dishes.description new) ∧
        get data "price" = Ret (Dishes.price new) ∧
        get data "image_url" = Ret (Dishes.image_url new)) ∧
  (∀ st code r st',
      Orders.update rq st = (Sent code r, st') →
      ∃ at_ old new data ds,
        locals st = Some at_ ∧ store st !! at_ = Some old ∧
        body_data rq = Ret data ∧ r = Data new ∧
        store st' = <[at_ := new]> (store st) ∧
        store st' !! at_ = Some new ∧
        (∀ j, j ≠ at_ → store st' !! j = store st !! j) ∧
        Orders.id new = Orders.id old ∧
        get data "deliverTo" = Ret (Orders.deliverTo new) ∧
        get data "mobileNumber" = Ret (Orders.mobileNumber new) ∧
        get data "status" = Ret (Orders.status new) ∧
        get data "dishes" = Ret ds ∧
        Orders.dishes new = default ds (VArr [VObj []])).
Proof.
intros rq. split; intros st code r st'.
- unfold Dishes.update, found.
  destruct (body_data rq) as [data|] eqn:Hdata; simpl; [|done].
  destruct (get data "id") eqn:?; simpl; [|done].
  destruct (get data "name") as [n|] eqn:?; simpl; [|done].
  destruct (get data "description") as [d|] eqn:?; simpl; [|done].
  destruct (get data "price") as [p|] eqn:?; simpl; [|done].
  destruct (get data "image_url") as [i|] eqn:?; simpl; [|done].
  destruct (locals st) as [at_|]; simpl; [|done].
  destruct (store st !! at_) as [old|] eqn:Hold; [|done].
  intros [= <- <- <-]. simpl.
  eexists at_, old, _, data. split_and!; simpl; try done.
  + apply list_lookup_insert_eq. by eapply lookup_lt_Some.
  + intros j Hj. by apply list_lookup_insert_ne.
- unfold Orders.update, found.
  destruct (body_data rq) as [data|] eqn:Hdata; simpl; [|done].
  destruct (get data "deliverTo") as [to|] eqn:?; simpl; [|done].
  destruct (get data "mobileNumber") as [mobile|] eqn:?; simpl; [|done].
  destruct (get data "status") as [s|] eqn:?; simpl; [|done].
  destruct (get data "dishes") as [ds|] eqn:?; simpl; [|done].
  destruct (locals st) as [at_|]; simpl; [|done].
  destruct (store st !! at_) as [old|] eqn:Hold; [|done].
  intros [= <- <- <-]. simpl.
  eexists at_, old, _, data, ds. split_and!; simpl; try done.
  + apply list_lookup_insert_eq. by eapply lookup_lt_Some.
  + intros j Hj. by apply list_lookup_insert_ne.
Qed.

Lemma dishes_read_created db new b :
Dishes.id new = nextId (Dishes.id <$> db) →
handle Dishes.exports.read {| params := Dishes.id new; body := b |}
       (db ++ [new])
= (Sent 200 (Data new), db ++ [new]).
Proof.
intros Hid. unfold handle, Dishes.exports.read. cbn [run].
unfold Dishes.dishExists. cbn [params store].
rewrite (list_find_fresh Dishes.id).
- unfold Dishes.read, found. simpl.
  by rewrite lookup_app_r, Nat.sub_diag by lia.
- rewrite Hid. apply nextId_fresh_increasing.
Qed.

Lemma orders_read_created db new b :
Orders.id new = nextId (Orders.id <$> db) →
handle Orders.exports.read {| params := Orders.id new; body := b |}
       (db ++ [new])
= (Sent 200 (Data new), db ++ [new]).
Proof.
intros Hid. unfold handle, Orders.exports.read. cbn [run].
unfold Orders.orderExists. cbn [params store].
rewrite (list_find_fresh Orders.id).
- unfold Orders.read, found. simpl.
  by rewrite lookup_app_r, Nat.sub_diag by lia.
- rewrite Hid. apply nextId_fresh_increasing.
Qed.

(** C9. A payload that passes the validation of the create stack of a
    dish or of an order is created: the stack responds 201 with the new
    record, appended to the collection, whose fields other than [id] are
    the values the payload holds; the read stack, asked for the new id,
    then responds with that same record. *)
Theorem create_then_read_round_trip :
  ∀ rq,
    (∀ db st,
        run [Dishes.bodyDataHas "name"; Dishes.bodyDataHas "description";
             Dishes.hasPrice; Dishes.bodyDataHas "price";
             Dishes.bodyDataHas "image_url"]
            rq {| store := db; locals := None |} = (Next, st) →
        ∃ new data,
          handle Dishes.exports.create rq db
          = (Sent 201 (Data new), db ++ [new]) ∧
          body_data rq = Ret data ∧
          get data "name" = Ret (Dishes.name new) ∧
          get data "description" = Ret (Dishes.description new) ∧
          get data "price" = Ret (Dishes.price new) ∧
          get data "image_url" = Ret (Dishes.image_url new) ∧
          ∀ b, handle Dishes.exports.read
                 {| params := Dishes.id new; body := b |} (db ++ [new])
               = (Sent 200 (Data new), db ++ [new])) ∧
    (∀ db st,
        run [Orders.bodyDataHas "deliverTo"; Orders.bodyDataHas "mobileNumber";
             Orders.bodyDataHas "dishes"; Orders.dishProperties]
            rq {| store := db; locals := None |} = (Next, st) →
        ∃ new data,
          handle Orders.exports.create rq db
          = (Sent 201 (Data new), db ++ [new]) ∧
          body_data rq = Ret data ∧
          get data "deliverTo" = Ret (Orders.deliverTo new) ∧
          get data "mobileNumber" = Ret (Orders.mobileNumber new) ∧
          get data "status" = Ret (Orders.status new) ∧
          get data "dishes" = Ret (Orders.dishes new) ∧
          ∀ b, handle Orders.exports.read
                 {| params := Orders.id new; body := b |} (db ++ [new])
               = (Sent 200 (Data new), db ++ [new])).
Proof.
  intros rq. split; intros db st Hvalid.
  - destruct (dishes_create_validated _ _ _ Hvalid) as [new Hcreate].
    pose proof Hcreate as Hfields.
    apply dishes_create_responds in Hfields
      as (data & n & d & p & i & ? & ? & _ & ? & _ & ? & _ & ? & _ & _ & Hr & _).
    injection Hr as ->.
    eexists _, data. split_and!; [exact Hcreate|done..|].
    intros b. by apply dishes_read_created.
  - destruct (orders_create_validated _ _ _ Hvalid) as [new Hcreate].
    pose proof Hcreate as Hfields.
    apply orders_create_responds in Hfields
      as (data & to & mobile & s & ds & ? & ? & _ & ? & _ & ? & ? & _ & _ & Hr & _).
    injection Hr as ->.
    eexists _, data. split_and!; [exact Hcreate|done..|].
    intros b. by apply orders_read_created.
Qed.

(** C10. Order creation does not look at [status]: when the presence
  checks of [deliverTo], [mobileNumber] and [dishes] and the quantity
  check pass, the create stack responds 201 and appends an order whose
  [status] is whatever the payload holds under that key, [undefined]
  when it holds nothing; no default is applied. The same holds of every
  payload that differs from it in [status] only. *)
Theorem order_create_stores_status_unvalidated :
∀ rq db,
  let st := {| store := db; locals := None |} in
  Orders.bodyDataHas "deliverTo" rq st = (Next, st) →
  Orders.bodyDataHas "mobileNumber" rq st = (Next, st) →
  Orders.bodyDataHas "dishes" rq st = (Next, st) →
  Orders.dishProperties rq st = (Next, st) →
  ∃ data,
    body_data rq = Ret data ∧
    ∀ rq' data',
      body_data rq' = Ret data' →
      (∀ k, k ≠ "status" → get data' k = get data k) →
      ∃ s new,
        get data' "status" = Ret s ∧ Orders.status new = s ∧
        handle Orders.exports.create rq' db
        = (Sent 201 (Data new), db ++ [new]).
Proof.
intros rq db st Hto Hmobile Hdishes Hlines.
apply orders_bodyDataHas_inv in Hto as (_ & _ & Hf).
destruct (Hf eq_refl) as (data & to & Hdata & Hgt & Htt).
apply orders_bodyDataHas_inv in Hmobile as (_ & _ & Hf').
destruct (Hf' eq_refl) as (? & mobile & ? & Hgm & Htm).
apply orders_bodyDataHas_inv in Hdishes as (_ & _ & Hf'').
destruct (Hf'' eq_refl) as (? & ds & ? & Hgd & Htd).
same_data. rewrite (dishProperties_eval _ _ _ _ Hdata Hgd) in Hlines.
exists data. split; [done|]. intros rq' data' Hdata' Hsame.
rewrite <- Hsame in Hgt, Hgm, Hgd by done.
assert (∃ s, get data' "status" = Ret s) as [s Hgs].
{ destruct data'; try done; simpl; eauto. }
assert (∃ i, get data' "id" = Ret i) as [i Hgi].
{ destruct data'; try done; simpl; eauto. }
eexists s, _. split_and!; [done| |].
2:{ unfold handle, Orders.exports.create. cbn [run]. fold st.
    rewrite (orders_bodyDataHas_eval _ _ _ _ _ Hdata' Hgt), Htt.
    rewrite (orders_bodyDataHas_eval _ _ _ _ _ Hdata' Hgm), Htm.
    rewrite (orders_bodyDataHas_eval _ _ _ _ _ Hdata' Hgd), Htd.
    rewrite (dishProperties_eval _ _ _ _ Hdata' Hgd), Hlines.
    unfold Orders.create. rewrite Hdata'. simpl.
    rewrite Hgi, Hgt, Hgm, Hgs, Hgd. simpl.
    assert (match ds with VUndef => TypeError | _ => Ret ds end = Ret ds) as Hds
      by (by destruct ds).
    unfold mret, completion_ret. rewrite Hds. simpl. reflexivity. }
done.
Qed.

(** C3. A delete request for an order that exists: unless the stored
  status is exactly ["pending"] it fails with 400 and the collection is
  as before; when it is ["pending"] the order is removed, and, ids being
  distinct, reading that id then fails with 404. *)
Theorem delete_only_when_pending :
∀ rq db at_ o,
  list_find (λ x, Orders.id x = params rq) db = Some (at_, o) →
  (Orders.status o ≠ VStr "pending" →
   handle Orders.exports.destroy rq db
   = (NextErr 400 "An order cannot be deleted unless it is pending.", db)) ∧
  (Orders.status o = VStr "pending" →
   handle Orders.exports.destroy rq db = (Sent 204 Empty, delete at_ db) ∧
   (NoDup (Orders.id <$> db) →
    ∀ b, handle Orders.exports.read {| params := params rq; body := b |}
           (delete at_ db)
         = (NextErr 404 ("Order id not found: " +:+ params rq),
            delete at_ db))).
Proof.
intros rq db at_ o Hfind.
pose proof Hfind as (Hat & Hid & _)%list_find_Some.
assert (handle Orders.exports.destroy rq db =
        if negb (strict_eq (Orders.status o) "pending")
        then (NextErr 400 "An order cannot be deleted unless it is pending.", db)
        else (Sent 204 Empty, delete at_ db)) as Hdestroy.
{ unfold handle, Orders.exports.destroy. cbn [run].
  rewrite (orderExists_eval _ _ _ _ Hfind).
  unfold Orders.orderStatus, Orders.destroy, found. simpl.
  rewrite Hat, Hid, Hfind.
  destruct (strict_eq (Orders.status o) "pending"); simpl; [|done].
  by rewrite Hat, Hid, Hfind. }
split.
- intros Hs%strict_eq_false. by rewrite Hdestroy, Hs.
- intros Hs. rewrite Hdestroy, Hs. simpl. split; [done|].
  intros Hnd b. unfold handle, Orders.exports.read. cbn [run].
  unfold Orders.orderExists. cbn [params store].
  rewrite <- Hid. by rewrite (list_find_deleted Orders.id).
Qed.

(** *** Updating a delivered order *)

(** Whatever the request, an update of a delivered order never responds
  and never changes the collection. *)
Lemma update_delivered_never_applies rq db at_ o :
list_find (λ x, Orders.id x = params rq) db = Some (at_, o) →
Orders.status o = VStr "delivered" →
¬ responded (handle Orders.exports.update rq db).1 ∧
(handle Orders.exports.update rq db).2 = db.
Proof.
intros Hfind Hs. pose proof Hfind as (Hat & _ & _)%list_find_Some.
unfold handle, Orders.exports.update. cbn [run].
rewrite (orderExists_eval _ _ _ _ Hfind).
destruct (Orders.matchIds rq _) as [o1 st1] eqn:Hm.
apply matchIds_inv in Hm as (Hr & ->).
destruct o1; simpl; try done.
cbn [run]. unfold Orders.orderDelivered, found. simpl.
by rewrite Hat, Hs.
Qed.

(** When the body's [data] is not [null] and the body id converts to a
  string, that update fails with 400. *)
Lemma update_delivered_rejected rq db at_ o data v shown :
list_find (λ x, Orders.id x = params rq) db = Some (at_, o) →
Orders.status o = VStr "delivered" →
body_data rq = Ret data → get data "id" = Ret v → ToString v = Ret shown →
∃ msg, handle Orders.exports.update rq db = (NextErr 400 msg, db).
Proof.
intros Hfind Hs Hdata Hid Hshown.
pose proof Hfind as (Hat & _ & _)%list_find_Some.
unfold handle, Orders.exports.update. cbn [run].
rewrite (orderExists_eval _ _ _ _ Hfind).
rewrite (matchIds_eval _ _ _ _ Hdata Hid), Hshown.
destruct (ToBoolean v && _); simpl; [eauto|].
unfold Orders.orderDelivered, found. simpl. rewrite Hat, Hs. simpl. eauto.
Qed.

(** A body id that is an object with a [toString] property of its own
  makes that update throw while the message of [matchIds] is built. *)
Lemma update_delivered_unprintable_id_throws rq db at_ o data props :
list_find (λ x, Orders.id x = params rq) db = Some (at_, o) →
body_data rq = Ret data → get data "id" = Ret (VObj props) →
has_own "toString" props = true →
handle Orders.exports.update rq db = (Thrown, db).
Proof.
intros Hfind Hdata Hid Hown.
unfold handle, Orders.exports.update. cbn [run].
rewrite (orderExists_eval _ _ _ _ Hfind).
rewrite (matchIds_eval _ _ _ _ Hdata Hid). simpl. by rewrite Hown.
Qed.

(** C2. The update of a delivered order with a body whose [data] is
    [null] throws in [matchIds], which destructures the body before
    [orderDelivered] is reached: the request does not end in the 400 of
    the validation, though the order is left as it was. *)
Theorem update_delivered_null_data_throws :
  ∀ rq db at_ o,
    list_find (λ x, Orders.id x = params rq) db = Some (at_, o) →
    Orders.status o = VStr "delivered" →
    body_data rq = Ret VNull →
    handle Orders.exports.update rq db = (Thrown, db).
Proof.
  intros rq db at_ o Hfind _ Hdata.
  unfold handle, Orders.exports.update.
  rewrite (run_cons_Next _ _ _ _ _ (orderExists_eval _ _ _ _ Hfind)).
  cbn [run]. unfold Orders.matchIds. by rewrite Hdata.
Qed.

(** *** Prices *)

Lemma dishes_price_checks rq st data p nonpositive
  (rest : list (middleware Dishes.dish)) :
body_data rq = Ret data → get data "price" = Ret p →
le p (Fin 0) = Ret nonpositive →
nonpositive = true ∨ Number_isInteger p = false →
∃ msg,
  run (Dishes.bodyDataHas "name" :: Dishes.bodyDataHas "description"
       :: Dishes.hasPrice :: rest) rq st
  = (NextErr 400 msg, st).
Proof.
intros Hdata Hp Hle Hbad.
destruct (get_defined _ _ _ "name" Hp) as [n Hn].
destruct (get_defined _ _ _ "description" Hp) as [d Hd].
apply (run_refused 400 [Dishes.bodyDataHas "name";
                        Dishes.bodyDataHas "description"]).
- repeat apply Forall_cons_2; [..|apply Forall_nil_2];
    eauto using dishes_bodyDataHas_answers.
- rewrite (dishes_hasPrice_eval _ _ _ _ Hdata Hp), Hle.
  assert (nonpositive || negb (Number_isInteger p) = true) as ->; [|eauto].
  destruct Hbad as [->| ->]; [done|]. by rewrite orb_true_r.
Qed.

(** C6, amended. A dish create request, or a dish update request for a
  dish that exists, whose body data is not [null] and whose price, once
  compared with 0, is [<= 0] or is not an integer, fails with 400 and
  leaves the collection as it was; and a create or update that responds
  has written a dish whose price is an integer greater than 0. *)
Theorem bad_price_rejected_with_400 :
∀ rq db,
  (∀ data p nonpositive,
      body_data rq = Ret data → get data "price" = Ret p →
      le p (Fin 0) = Ret nonpositive →
      nonpositive = true ∨ Number_isInteger p = false →
      (∃ msg, handle Dishes.exports.create rq db = (NextErr 400 msg, db)) ∧
      (∀ at_ old,
          list_find (λ x, Dishes.id x = params rq) db = Some (at_, old) →
          ∃ msg, handle Dishes.exports.update rq db = (NextErr 400 msg, db))) ∧
  (∀ stack code r db',
      stack ∈ [Dishes.exports.create; Dishes.exports.update] →
      handle stack rq db = (Sent code r, db') →
      ∃ d, r = Data d ∧ d ∈ db' ∧ positive_integer (Dishes.price d)).
Proof.
intros rq db. split.
- intros data p nonpositive Hdata Hp Hle Hbad. split.
  + unfold handle, Dishes.exports.create.
    destruct (dishes_price_checks rq {| store := db; locals := None |} data p
                nonpositive
                [Dishes.bodyDataHas "price"; Dishes.bodyDataHas "image_url";
                 Dishes.create] Hdata Hp Hle Hbad) as [msg ->]. eauto.
  + intros at_ old Hfind. unfold handle, Dishes.exports.update.
    rewrite (run_cons_Next _ _ _ _ _ (dishExists_eval _ _ _ _ Hfind)).
    destruct (dishes_price_checks rq {| store := db; locals := Some at_ |} data p
                nonpositive
                [Dishes.bodyDataHas "price"; Dishes.bodyDataHas "image_url";
                 Dishes.idMatch; Dishes.update] Hdata Hp Hle Hbad) as [msg ->].
    eauto.
- intros stack code r db' Hin Hsent.
  repeat (apply elem_of_cons in Hin as [->|Hin]); [| |by apply elem_of_nil in Hin].
  + apply dishes_create_responds in Hsent
      as (data & n & d & p & i & _ & _ & _ & _ & _ & _ & Hp & _ & _ & _ & -> & ->).
    eexists. split_and!; [done| |done].
    apply elem_of_app. right. apply list_elem_of_singleton. done.
  + apply dishes_update_responds in Hsent
      as (at_ & old & data & n & d & p & i & Hfind & _ & _ & _ & _ & _ & _ & Hp
          & _ & _ & _ & -> & ->).
    apply list_find_Some in Hfind as (Hat & _ & _).
    eexists. split_and!; [done| |done].
    apply list_elem_of_lookup. exists at_.
    apply list_lookup_insert_eq. by eapply lookup_lt_Some.
Qed.

(** *** The id of the body against the id of the route *)

(** C8, amended. For an update whose body data is not [null] and
  supplies a truthy [id] that is not the route's id and that converts to a
  string: the update of an order that exists fails with 400 and the
  message "Order id does not match route id. Order: <body>, Route:
  <route>."; the update of a dish that exists fails with 400 when its
  price can be compared with 0, and its message is "Dish id does not match
  route id. Dish: <body>, Route: <route>" once the name, description,
  price and image checks have passed. When the body data is not [null]
  and omits the [id], or supplies a falsy one, the id check of either
  controller calls [next()]. *)
Theorem body_id_must_match_route :
∀ rq data v,
  body_data rq = Ret data → get data "id" = Ret v →
  (ToBoolean v = true → v ≠ VStr (params rq) →
   ∀ shown, ToString v = Ret shown →
   (∀ db at_ o,
       list_find (λ x, Orders.id x = params rq) db = Some (at_, o) →
       handle Orders.exports.update rq db
       = (NextErr 400
            ("Order id does not match route id. Order: " +:+ shown
             +:+ ", Route: " +:+ params rq +:+ "."), db)) ∧
   (∀ db at_ d,
       list_find (λ x, Dishes.id x = params rq) db = Some (at_, d) →
       (∀ p nonpositive,
           get data "price" = Ret p → le p (Fin 0) = Ret nonpositive →
           ∃ msg,
             handle Dishes.exports.update rq db = (NextErr 400 msg, db)) ∧
       (∀ st,
           run [Dishes.bodyDataHas "name"; Dishes.bodyDataHas "description";
                Dishes.hasPrice; Dishes.bodyDataHas "price";
                Dishes.bodyDataHas "image_url"]
               rq {| store := db; locals := Some at_ |} = (Next, st) →
           handle Dishes.exports.update rq db
           = (NextErr 400
                ("Dish id does not match route id. Dish: " +:+ shown
                 +:+ ", Route: " +:+ params rq), db)))) ∧
  (ToBoolean v = false →
   ∀ (so : state Orders.order) (sd : state Dishes.dish),
     Orders.matchIds rq so = (Next, so) ∧ Dishes.idMatch rq sd = (Next, sd)).
Proof.
intros rq data v Hdata Hid. split.
- intros Htrue Hne%strict_eq_false shown Hshown. split.
  + intros db at_ o Hfind. unfold handle, Orders.exports.update.
    rewrite (run_cons_Next _ _ _ _ _ (orderExists_eval _ _ _ _ Hfind)).
    cbn [run].
    rewrite (matchIds_eval _ _ _ _ Hdata Hid), Htrue, Hne, Hshown. done.
  + intros db at_ d Hfind.
    assert (Dishes.idMatch rq {| store := db; locals := Some at_ |}
            = (NextErr 400
                 ("Dish id does not match route id. Dish: " +:+ shown
                  +:+ ", Route: " +:+ params rq),
               {| store := db; locals := Some at_ |})) as Hrefuses.
    { by rewrite (idMatch_eval _ _ _ _ Hdata Hid), Htrue, Hne, Hshown. }
    split.
    * intros p nonpositive Hp Hle.
      destruct (get_defined _ _ _ "name" Hid) as [n Hn].
      destruct (get_defined _ _ _ "description" Hid) as [de Hde].
      destruct (get_defined _ _ _ "image_url" Hid) as [i Hi].
      unfold handle, Dishes.exports.update.
      rewrite (run_cons_Next _ _ _ _ _ (dishExists_eval _ _ _ _ Hfind)).
      destruct (run_refused 400
                  [Dishes.bodyDataHas "name"; Dishes.bodyDataHas "description";
                   Dishes.hasPrice; Dishes.bodyDataHas "price";
                   Dishes.bodyDataHas "image_url"]
                  Dishes.idMatch [Dishes.update] rq
                  {| store := db; locals := Some at_ |}) as [msg Hrun].
      { repeat apply Forall_cons_2; [..|apply Forall_nil_2];
          eauto using dishes_bodyDataHas_answers, dishes_hasPrice_answers. }
      { eauto. }
      simpl app in Hrun. rewrite Hrun. eauto.
    * intros st Hchecks. unfold handle, Dishes.exports.update.
      rewrite (run_cons_Next _ _ _ _ _ (dishExists_eval _ _ _ _ Hfind)).
      pose proof (run_app _ [Dishes.idMatch; Dishes.update] _ _ _ Hchecks)
        as Happ.
      simpl app in Happ. rewrite Happ. cbn [run].
      assert (st = {| store := db; locals := Some at_ |}) as ->.
      { step_passed Hchecks (dishes_bodyDataHas_inv "name").
        destruct Hm as (_ & -> & _).
        step_passed Hchecks (dishes_bodyDataHas_inv "description").
        destruct Hm as (_ & -> & _).
        step_passed Hchecks dishes_hasPrice_inv. destruct Hm as (_ & -> & _).
        step_passed Hchecks (dishes_bodyDataHas_inv "price").
        destruct Hm as (_ & -> & _).
        step_passed Hchecks (dishes_bodyDataHas_inv "image_url").
        destruct Hm as (_ & -> & _). simpl in Hchecks. by injection Hchecks. }
      by rewrite Hrefuses.
- intros Hfalse so sd.
  by rewrite (matchIds_eval _ _ _ _ Hdata Hid),
             (idMatch_eval _ _ _ _ Hdata Hid), Hfalse.
Qed.

(** *** The dishes of an order *)

Lemma handle_run {R} (stack : list (middleware R)) rq db o st' db' :
store st' = db' →
run stack rq {| store := db; locals := None |} = (o, st') →
handle stack rq db = (o, db').
Proof. unfold handle. by intros <- ->. Qed.

Lemma first_refused_at ds i :
refused_line ds i →
∃ lines, ds = VArr lines ∧ lines ≠ [] ∧
         Orders.first_refused lines = Ret (Some i).
Proof.
intros (good & line_ & rest & q & -> & Hgood & Hq & Hbad & Hi).
eexists. split; [done|]. split; [by destruct good|].
induction Hgood as [|l good (q' & Hq' & Hok) _ IH]; simpl.
- rewrite Hq. simpl. rewrite (quantity_refused q Hbad). simpl. by rewrite Hi.
- rewrite Hq'. simpl. apply quantity_test in Hok. by rewrite Hok.
Qed.

(** What [dishProperties] answers to a [dishes] it refuses. *)
Lemma dishProperties_shape rq st data ds :
body_data rq = Ret data → get data "dishes" = Ret ds →
Array_isArray ds = false ∨ ds = VArr [] →
Orders.dishProperties rq st = (NextErr 400 "Order must include a dish", st).
Proof.
intros Hdata Hds Hshape.
rewrite (dishProperties_eval _ _ _ _ Hdata Hds). cbv zeta.
destruct Hshape as [Hnot| ->]; [|done].
destruct ds; try done; cbn [default Array_isArray negb];
  by rewrite orb_true_r.
Qed.

Lemma dishProperties_line rq st data ds i shown :
body_data rq = Ret data → get data "dishes" = Ret ds →
refused_line ds i → ToString i = Ret shown →
Orders.dishProperties rq st
= (NextErr 400
     ("Dish " +:+ shown
      +:+ " must have a quantity that is an integer greater than 0"), st).
Proof.
intros Hdata Hds (lines & -> & Hlines & Hfirst)%first_refused_at Hshown.
rewrite (dishProperties_eval _ _ _ _ Hdata Hds). cbn [default].
cbn [ToBoolean Array_isArray negb orb Orders.length_of].
destruct lines as [|l lines]; [done|]. simpl length. cbn [Nat.eqb].
by rewrite Hfirst, Hshown.
Qed.

Lemma dishProperties_refuses rq st data ds :
body_data rq = Ret data → get data "dishes" = Ret ds →
Array_isArray ds = false ∨ ds = VArr [] ∨
  (∃ i shown, refused_line ds i ∧ ToString i = Ret shown) →
∃ msg, Orders.dishProperties rq st = (NextErr 400 msg, st).
Proof.
intros Hdata Hds [Hnot|[Hempty|(i & shown & Hline & Hshown)]].
- rewrite (dishProperties_shape _ _ _ _ Hdata Hds); eauto.
- rewrite (dishProperties_shape _ _ _ _ Hdata Hds); eauto.
- rewrite (dishProperties_line _ _ _ _ _ _ Hdata Hds Hline Hshown); eauto.
Qed.

(** C5, amended. For an order create request, and for an order update
  request for an order that exists and whose body id converts to a
  string, with a body whose data is not [null]: a [dishes] that is
  missing, not an array or empty fails with 400, and so does an array
  whose first line that is not accepted ([null], or with a missing,
  non-integer or below-1 quantity) is not [null] and has an id that
  converts to a string; the collection is unchanged. Once the checks placed before in the stack have passed, the
  message is "Order must include a dishes" for a missing or falsy
  [dishes] (the presence check), "Order must include a dish" for a truthy
  one that is not an array and for an empty array, and "Dish <id> must
  have a quantity that is an integer greater than 0", naming the [id] of
  that first line. *)
Theorem order_dishes_checked :
∀ rq db data ds,
  body_data rq = Ret data → get data "dishes" = Ret ds →
  (Array_isArray ds = false ∨ ds = VArr [] ∨
     (∃ i shown, refused_line ds i ∧ ToString i = Ret shown) →
   (∃ msg, handle Orders.exports.create rq db = (NextErr 400 msg, db)) ∧
   (∀ at_ o v shown,
       list_find (λ x, Orders.id x = params rq) db = Some (at_, o) →
       get data "id" = Ret v → ToString v = Ret shown →
       ∃ msg, handle Orders.exports.update rq db = (NextErr 400 msg, db))) ∧
  (∀ stack pre mid st,
      (stack, pre, mid) ∈
        [ (Orders.exports.create,
           [Orders.bodyDataHas "deliverTo"; Orders.bodyDataHas "mobileNumber"],
           []);
          (Orders.exports.update,
           [Orders.orderExists; Orders.matchIds; Orders.orderDelivered;
            Orders.bodyDataHas "deliverTo"; Orders.bodyDataHas "mobileNumber"],
           [Orders.bodyDataHas "status"; Orders.statusInvalid]) ] →
      run pre rq {| store := db; locals := None |} = (Next, st) →
      (ToBoolean ds = false →
       handle stack rq db = (NextErr 400 "Order must include a dishes", db)) ∧
      (∀ st', run mid rq st = (Next, st') →
         (ToBoolean ds = true → Array_isArray ds = false ∨ ds = VArr [] →
          handle stack rq db = (NextErr 400 "Order must include a dish", db)) ∧
         (∀ i shown,
             refused_line ds i → ToString i = Ret shown →
             handle stack rq db
             = (NextErr 400
                  ("Dish " +:+ shown +:+
                   " must have a quantity that is an integer greater than 0"),
                db)))).
Proof.
intros rq db data ds Hdata Hds. split.
- intros Hbad.
  destruct (get_defined _ _ _ "deliverTo" Hds) as [to Hto].
  destruct (get_defined _ _ _ "mobileNumber" Hds) as [mobile Hmobile].
  destruct (get_defined _ _ _ "status" Hds) as [s Hs].
  split.
  + unfold handle, Orders.exports.create.
    destruct (run_refused 400
                [Orders.bodyDataHas "deliverTo";
                 Orders.bodyDataHas "mobileNumber"; Orders.bodyDataHas "dishes"]
                Orders.dishProperties [Orders.create] rq
                {| store := db; locals := None |}) as [msg Hrun].
    { repeat apply Forall_cons_2; [..|apply Forall_nil_2];
        eauto using orders_bodyDataHas_answers. }
    { by apply (dishProperties_refuses _ _ data ds). }
    simpl app in Hrun. rewrite Hrun. eauto.
  + intros at_ o v shown Hfind Hv Hshown.
    pose proof Hfind as (Hat & _ & _)%list_find_Some.
    unfold handle, Orders.exports.update.
    rewrite (run_cons_Next _ _ _ _ _ (orderExists_eval _ _ _ _ Hfind)).
    destruct (run_refused 400
                [Orders.matchIds; Orders.orderDelivered;
                 Orders.bodyDataHas "deliverTo";
                 Orders.bodyDataHas "mobileNumber"; Orders.bodyDataHas "dishes";
                 Orders.bodyDataHas "status"; Orders.statusInvalid]
                Orders.dishProperties [Orders.update] rq
                {| store := db; locals := Some at_ |}) as [msg Hrun].
    { repeat apply Forall_cons_2; [..|apply Forall_nil_2];
        eauto using orders_bodyDataHas_answers, matchIds_answers,
                    statusInvalid_answers.
      by apply (orderDelivered_answers _ _ o). }
    { by apply (dishProperties_refuses _ _ data ds). }
    simpl app in Hrun. rewrite Hrun. eauto.
- intros stack pre mid st Hin Hpre.
  assert (∃ h, stack = pre ++ Orders.bodyDataHas "dishes"
                         :: mid ++ [Orders.dishProperties; h]) as [h ->].
  { repeat (apply elem_of_cons in Hin as [[= -> -> ->]|Hin]);
      [by eexists..|by apply elem_of_nil in Hin]. }
  assert (Forall keeps_store pre ∧ Forall keeps_store mid) as [Hkpre Hkmid].
  { pose proof orders_create_stack_keeps_store as Hc.
    pose proof orders_update_stack_keeps_store as Hu.
    unfold Orders.exports.create in Hc. unfold Orders.exports.update in Hu.
    repeat (apply Forall_cons_1 in Hc as [? Hc]).
    repeat (apply Forall_cons_1 in Hu as [? Hu]).
    repeat (apply elem_of_cons in Hin as [[= _ -> ->]|Hin]);
      [| |by apply elem_of_nil in Hin];
      split; repeat (apply Forall_cons_2; [done|]); apply Forall_nil_2. }
  assert (store st = db) as Hst.
  { pose proof (run_keeps_store _ rq {| store := db; locals := None |} Hkpre)
      as Hk.
    rewrite Hpre in Hk. apply Hk. intros []. }
  pose proof (run_app _ (Orders.bodyDataHas "dishes"
                         :: mid ++ [Orders.dishProperties; h]) _ _ _ Hpre)
    as Hrun.
  split.
  + intros Hfalse. apply (handle_run _ _ _ _ _ _ Hst). rewrite Hrun. cbn [run].
    by rewrite (orders_bodyDataHas_eval _ _ _ _ _ Hdata Hds), Hfalse.
  + intros st' Hmid.
    assert (store st' = db) as Hst'.
    { pose proof (run_keeps_store _ rq st Hkmid) as Hk.
      rewrite Hmid in Hk. rewrite <- Hst. apply Hk. intros []. }
    assert (ToBoolean ds = true →
            run (pre ++ Orders.bodyDataHas "dishes"
                     :: mid ++ [Orders.dishProperties; h])
                rq {| store := db; locals := None |}
            = run [Orders.dishProperties; h] rq st') as Hreach.
    { intros Htrue. rewrite Hrun.
      rewrite (run_cons_Next _ _ _ _ st); [by apply run_app|].
      by rewrite (orders_bodyDataHas_eval _ _ _ _ _ Hdata Hds), Htrue. }
    split.
    * intros Htrue Hshape. apply (handle_run _ _ _ _ _ _ Hst').
      rewrite (Hreach Htrue). cbn [run].
      by rewrite (dishProperties_shape _ _ _ _ Hdata Hds Hshape).
    * intros i shown Hline Hshown. apply (handle_run _ _ _ _ _ _ Hst').
      assert (ToBoolean ds = true) as Htrue.
      { by destruct Hline as (? & ? & ? & ? & -> & _). }
      rewrite (Hreach Htrue). cbn [run].
      by rewrite (dishProperties_line _ _ _ _ _ _ Hdata Hds Hline Hshown).
Qed.

End Claims.

(** ** Closed instances *)

(** *** Where the specification and the controllers part *)

(** C5: with [deliverTo] and [mobileNumber] present and [dishes] missing,
    the create fails in the presence check, whose message is not "Order
    must include a dish"; with an empty [dishes] and no [deliverTo] the
    message is that of the first presence check; an update for an id that
    no order has fails with 404; and of two lines with a quantity of 0
    the message names the first only. *)
Lemma missing_dishes_message :
  handle (@Orders.exports.create decimal)
         (request_with "" [("deliverTo", VStr "a"); ("mobileNumber", VStr "b")])
         []
  = (NextErr 400 "Order must include a dishes", []) ∧
  "Order must include a dishes" ≠ "Order must include a dish" ∧
  handle (@Orders.exports.create decimal)
         (request_with "" [("dishes", VArr [])]) []
  = (NextErr 400 "Order must include a deliverTo", []) ∧
  handle (@Orders.exports.update decimal)
         (request_with "9" (order_fields [])) [an_order "1" "pending"]
  = (NextErr 404 "Order id not found: 9", [an_order "1" "pending"]) ∧
  handle (@Orders.exports.create decimal)
         (request_with "" (order_fields [line "1" 0; line "2" 0])) []
  = (NextErr 400
       "Dish 1 must have a quantity that is an integer greater than 0", []).
Proof. split_and!; [reflexivity|discriminate|reflexivity..]. Qed.

(** C6: an update with price 0 for a dish that does not exist fails with
    404, not 400. *)
Lemma bad_price_on_missing_dish_is_404 :
  handle (@Dishes.exports.update decimal) (request_with "9" (taco_fields 0))
         [taco]
  = (NextErr 404 "Dish not found: 9", [taco]).
Proof. reflexivity. Qed.

(** C8: a dish update whose body id differs from the route's fails on the
    name check first, with a message that names neither id; an order
    update whose body id is the empty string, different from the route's
    ["1"], goes through; and an update for an id that no order has fails
    with 404 whatever the body id. *)
Lemma id_mismatch_not_always_reported :
  handle (@Dishes.exports.update decimal)
         (request_with "1" [("id", VStr "2")]) [taco]
  = (NextErr 400 "Dish must include a name", [taco]) ∧
  handle (@Orders.exports.update decimal)
         (request_with "1"
            (("id", VStr "") :: ("status", VStr "preparing")
             :: order_fields [line "1" 2]))
         [an_order "1" "pending"]
  = (Sent 200 (Data (an_order "1" "preparing")), [an_order "1" "preparing"]) ∧
  handle (@Orders.exports.update decimal)
         (request_with "5" [("id", VStr "6")]) [an_order "1" "pending"]
  = (NextErr 404 "Order id not found: 5", [an_order "1" "pending"]).
Proof. split_and!; reflexivity. Qed.

(** *** The properties at concrete requests *)

Lemma int_positive_integer z : (0 < z)%Z → positive_integer (int z).
Proof.
  intros Hz. exists (inject_Z z). split_and!; [done| |].
  - unfold integral. simpl. by rewrite Z.mod_1_r.
  - unfold Qlt. simpl. lia.
Defined.

Lemma int_0_not_positive : ¬ positive_integer (int 0).
Proof.
  intros (q & Hq & _ & Hpos). injection Hq as <-. by apply Qlt_irrefl in Hpos.
Defined.

Lemma update_delivered_null_data_throws_witness :
  handle (@Orders.exports.update decimal)
         {| params := "1"; body := VObj [("data", VNull)] |}
         [an_order "1" "delivered"]
  = (Thrown, [an_order "1" "delivered"]).
Proof.
  exact (@update_delivered_null_data_throws decimal
           {| params := "1"; body := VObj [("data", VNull)] |}
           [an_order "1" "delivered"] 0 (an_order "1" "delivered")
           eq_refl eq_refl eq_refl).
Defined.

Lemma create_assigns_fresh_increasing_id_witness :
  (Dishes.create (request_with "" (taco_fields 8))
                 {| store := [taco]; locals := None |}
   = (Sent 201 (Data taco_2), {| store := [taco; taco_2]; locals := None |}) ∧
   fresh_increasing (Dishes.id <$> [taco]) (Dishes.id taco_2)) ∧
  (∃ o,
     Orders.create (request_with "" (order_fields [line "1" 2]))
                   {| store := []; locals := None |}
     = (Sent 201 (Data o), {| store := [o]; locals := None |}) ∧
     Orders.id o = "1" ∧ fresh_increasing [] (Orders.id o)).
Proof.
  split.
  - destruct (create_assigns_fresh_increasing_id
                (request_with "" (taco_fields 8))) as [Hdish _].
    destruct (Hdish {| store := [taco]; locals := None |})
      as [[[Hnull|Hnull] _]|(d & Hcreate & _ & Hfresh & _)];
      [discriminate Hnull..|].
    assert (taco_2 = d) as <-
      by (cbv in Hcreate; injection Hcreate as Hd _; exact Hd).
    split; [exact Hcreate|exact Hfresh].
  - destruct (create_assigns_fresh_increasing_id
                (request_with "" (order_fields [line "1" 2]))) as [_ Horder].
    destruct (Horder {| store := []; locals := None |})
      as [[[Hnull|[Hnull|(data & Hdata & Hnone)]] _]
         |(o & Hcreate & Hid & Hfresh & _)];
      [discriminate Hnull..| |].
    + cbv in Hdata. injection Hdata as <-. discriminate Hnone.
    + exists o. split_and!; [exact Hcreate|exact Hid|exact Hfresh].
Defined.

Lemma delete_only_when_pending_witness :
  handle Orders.exports.destroy (request_with "1" []) [an_order "1" "pending"]
  = (Sent 204 Empty, []) ∧
  handle Orders.exports.read (request_with "1" []) []
  = (NextErr 404 "Order id not found: 1", []).
Proof.
  destruct (delete_only_when_pending (request_with "1" [])
              [an_order "1" "pending"] 0 (an_order "1" "pending") eq_refl)
    as [_ Hpending].
  destruct (Hpending eq_refl) as [Hgone Hread]. split; [exact Hgone|].
  apply (Hread (NoDup_singleton "1")).
Defined.

Lemma failed_check_stops_stack_store_unchanged_witness :
  (handle (@Dishes.exports.create decimal) (request_with "" []) [taco]).2
  = [taco] ∧
  (handle Orders.exports.destroy (request_with "1" []) [an_order "1" "preparing"]).2
  = [an_order "1" "preparing"].
Proof.
  destruct (@failed_check_stops_stack_store_unchanged decimal
              (request_with "" [])) as [Hdish _].
  destruct (@failed_check_stops_stack_store_unchanged decimal
              (request_with "1" [])) as [_ Horder].
  split.
  - destruct (Hdish (@Dishes.exports.create decimal) [taco]
                (NextErr 400 "Dish must include a name") [taco]) as [Hsame _];
      [apply list_elem_of_here|reflexivity|exact I|].
    reflexivity.
  - destruct (Horder Orders.exports.destroy [an_order "1" "preparing"]
                (NextErr 400 "An order cannot be deleted unless it is pending.")
                [an_order "1" "preparing"]) as [Hsame _];
      [do 2 apply list_elem_of_further; apply list_elem_of_here
      |reflexivity|exact I|].
    reflexivity.
Defined.

Lemma line_7_refused :
  refused_line (VArr [line "1" 2; line "7" 0]) (VStr "7").
Proof.
  exists [line "1" 2], (line "7" 0), [], (int 0).
  split_and!; [reflexivity| |reflexivity|exact int_0_not_positive|reflexivity].
  apply Forall_cons_2; [|apply Forall_nil_2].
  exists (int 2). split; [reflexivity|by apply int_positive_integer].
Defined.

Lemma order_dishes_checked_witness :
  (∃ msg, handle (@Orders.exports.create decimal)
            (request_with "" [("dishes", VArr [])]) []
          = (NextErr 400 msg, [])) ∧
  (∃ msg, handle (@Orders.exports.update decimal)
            (request_with "1" [("dishes", VArr [line "1" 2; line "7" 0])])
            [an_order "1" "pending"]
          = (NextErr 400 msg, [an_order "1" "pending"])) ∧
  handle (@Orders.exports.create decimal) (request_with "" (order_fields []))
         []
  = (NextErr 400 "Order must include a dish", []) ∧
  handle (@Orders.exports.create decimal)
         (request_with "" (order_fields [line "1" 2; line "7" 0])) []
  = (NextErr 400
       "Dish 7 must have a quantity that is an integer greater than 0", []).
Proof.
  split_and!.
  - destruct (@order_dishes_checked decimal
                (request_with "" [("dishes", VArr [])]) []
                (VObj [("dishes", VArr [])]) (VArr []) eq_refl eq_refl)
      as [Hstatus _].
    destruct Hstatus as [Hcreate _]; [by right; left|]. exact Hcreate.
  - destruct (@order_dishes_checked decimal
                (request_with "1" [("dishes", VArr [line "1" 2; line "7" 0])])
                [an_order "1" "pending"]
                (VObj [("dishes", VArr [line "1" 2; line "7" 0])])
                (VArr [line "1" 2; line "7" 0]) eq_refl eq_refl)
      as [Hstatus _].
    destruct Hstatus as [_ Hupdate].
    + right; right. exists (VStr "7"), "7". split; [exact line_7_refused|].
      reflexivity.
    + exact (Hupdate 0 (an_order "1" "pending") VUndef "undefined"
               eq_refl eq_refl eq_refl).
  - destruct (@order_dishes_checked decimal
                (request_with "" (order_fields [])) []
                (VObj (order_fields [])) (VArr []) eq_refl eq_refl)
      as [_ Hmessage].
    destruct (Hmessage (@Orders.exports.create decimal)
                [Orders.bodyDataHas "deliverTo"; Orders.bodyDataHas "mobileNumber"]
                [] {| store := []; locals := None |})
      as [_ Hshape]; [apply list_elem_of_here|reflexivity|].
    destruct (Hshape _ eq_refl) as [Hempty _].
    apply Hempty; [reflexivity|by right].
  - destruct (@order_dishes_checked decimal
                (request_with "" (order_fields [line "1" 2; line "7" 0])) []
                (VObj (order_fields [line "1" 2; line "7" 0]))
                (VArr [line "1" 2; line "7" 0]) eq_refl eq_refl)
      as [_ Hmessage].
    destruct (Hmessage (@Orders.exports.create decimal)
                [Orders.bodyDataHas "deliverTo"; Orders.bodyDataHas "mobileNumber"]
                [] {| store := []; locals := None |})
      as [_ Hshape]; [apply list_elem_of_here|reflexivity|].
    destruct (Hshape _ eq_refl) as [_ Hline].
    exact (Hline (VStr "7") "7" line_7_refused eq_refl).
Defined.

Lemma bad_price_rejected_with_400_witness :
  (∃ msg, handle (@Dishes.exports.create decimal)
            (request_with "" (taco_fields 0)) [taco]
          = (NextErr 400 msg, [taco])) ∧
  (∃ msg, handle (@Dishes.exports.update decimal)
            (request_with "1" (taco_fields 0)) [taco]
          = (NextErr 400 msg, [taco])).
Proof.
  split.
  - destruct (@bad_price_rejected_with_400 decimal
                (request_with "" (taco_fields 0)) [taco]) as [Hbad _].
    destruct (Hbad (VObj (taco_fields 0)) (int 0) true eq_refl eq_refl eq_refl)
      as [Hcreate _]; [by left|]. exact Hcreate.
  - destruct (@bad_price_rejected_with_400 decimal
                (request_with "1" (taco_fields 0)) [taco]) as [Hbad _].
    destruct (Hbad (VObj (taco_fields 0)) (int 0) true eq_refl eq_refl eq_refl)
      as [_ Hupdate]; [by left|]. exact (Hupdate 0 taco eq_refl).
Defined.

Lemma update_keeps_id_overwrites_fields_witness :
  ∃ new,
    Dishes.update (request_with "1" (("id", VStr "2") :: taco_fields 9))
                  {| store := [taco]; locals := Some 0 |}
    = (Sent 200 (Data new), {| store := [new]; locals := Some 0 |}) ∧
    Dishes.id new = "1" ∧ Dishes.price new = int 9.
Proof.
  destruct (update_keeps_id_overwrites_fields
              (request_with "1" (("id", VStr "2") :: taco_fields 9)))
    as [Hdish _].
  destruct (Hdish {| store := [taco]; locals := Some 0 |} _ _ _ eq_refl)
    as (at_ & old & new & data & Hat & Hold & Hdata & Hr & _ & _ & _ & Hid & _
        & _ & Hprice & _).
  cbn in Hat. injection Hat as <-. cbn in Hold. injection Hold as <-.
  injection Hr as <-.
  eexists. split_and!; [reflexivity|exact Hid|reflexivity].
Defined.

Lemma body_id_must_match_route_witness :
  handle (@Orders.exports.update decimal)
         (request_with "5" [("id", VStr "6")]) [an_order "5" "pending"]
  = (NextErr 400 "Order id does not match route id. Order: 6, Route: 5.",
     [an_order "5" "pending"]) ∧
  (∃ msg, handle (@Dishes.exports.update decimal)
            (request_with "1" [("id", VStr "2")]) [taco]
          = (NextErr 400 msg, [taco])) ∧
  handle (@Dishes.exports.update decimal)
         (request_with "1" (("id", VStr "2") :: taco_fields 9)) [taco]
  = (NextErr 400 "Dish id does not match route id. Dish: 2, Route: 1", [taco]).
Proof.
  split_and!.
  - destruct (@body_id_must_match_route decimal
                (request_with "5" [("id", VStr "6")]) _ (VStr "6")
                eq_refl eq_refl) as [Hmismatch _].
    destruct (Hmismatch eq_refl) with (shown := "6") as [Horder _];
      [discriminate|reflexivity|].
    exact (Horder [an_order "5" "pending"] 0 (an_order "5" "pending") eq_refl).
  - destruct (@body_id_must_match_route decimal
                (request_with "1" [("id", VStr "2")]) _
                (VStr "2") eq_refl eq_refl) as [Hmismatch _].
    destruct (Hmismatch eq_refl) with (shown := "2") as [_ Hdish];
      [discriminate|reflexivity|].
    destruct (Hdish [taco] 0 taco eq_refl) as [Hstatus _].
    exact (Hstatus VUndef false eq_refl eq_refl).
  - destruct (@body_id_must_match_route decimal
                (request_with "1" (("id", VStr "2") :: taco_fields 9)) _
                (VStr "2") eq_refl eq_refl) as [Hmismatch _].
    destruct (Hmismatch eq_refl) with (shown := "2") as [_ Hdish];
      [discriminate|reflexivity|].
    destruct (Hdish [taco] 0 taco eq_refl) as [_ Hmessage].
    exact (Hmessage {| store := [taco]; locals := Some 0 |} eq_refl).
Defined.

Lemma create_then_read_round_trip_witness :
  handle (@Dishes.exports.create decimal) (request_with "" (taco_fields 8))
         [taco]
  = (Sent 201 (Data taco_2), [taco; taco_2]) ∧
  handle Dishes.exports.read (request_with "2" []) [taco; taco_2]
  = (Sent 200 (Data taco_2), [taco; taco_2]).
Proof.
  destruct (@create_then_read_round_trip decimal
              (request_with "" (taco_fields 8))) as [Hdish _].
  destruct (Hdish [taco] {| store := [taco]; locals := None |} eq_refl)
    as (new & data & Hcreate & _ & _ & _ & _ & _ & Hread).
  cbv in Hcreate. injection Hcreate as <-.
  split; [reflexivity|].
  exact (Hread (VObj [("data", VObj [])])).
Defined.

Lemma order_create_stores_status_unvalidated_witness :
  (∃ new,
     Orders.status new = VStr "bogus" ∧
     handle (@Orders.exports.create decimal)
            (request_with "" (("status", VStr "bogus") :: order_fields [line "1" 2]))
            []
     = (Sent 201 (Data new), [new])) ∧
  (∃ new,
     Orders.status new = VUndef ∧
     handle (@Orders.exports.create decimal)
            (request_with "" (order_fields [line "1" 2])) []
     = (Sent 201 (Data new), [new])).
Proof.
  destruct (@order_create_stores_status_unvalidated decimal
              (request_with "" (("status", VStr "bogus")
                                :: order_fields [line "1" 2])) []
              eq_refl eq_refl eq_refl eq_refl) as (data & Hdata & Hany).
  cbv in Hdata. injection Hdata as <-. split.
  - destruct (Hany (request_with "" (("status", VStr "bogus")
                                     :: order_fields [line "1" 2])) _ eq_refl)
      as (s & new & Hs & Hnew & Hcreate); [done|].
    cbv in Hs. injection Hs as <-. exists new. split; [exact Hnew|exact Hcreate].
  - destruct (Hany (request_with "" (order_fields [line "1" 2])) _ eq_refl)
      as (s & new & Hs & Hnew & Hcreate).
    + intros k Hk. simpl. destruct (String.eqb_spec k "status"); done.
    + cbv in Hs. injection Hs as <-. exists new.
      split; [exact Hnew|exact Hcreate].
Defined.

(** ** Further properties of the controllers *)

Section Further.
Context `{Coercions}.

(** *** Reading, and requests for a record that is not there *)

Lemma list_find_absent {R} (key : R → string) (k : string) (db : list R) :
  k ∉ key <$> db → list_find (λ r, key r = k) db = None.
Proof.
  intros Hk. apply list_find_None, Forall_forall. intros r Hr Heq.
  apply Hk. rewrite <- Heq. by apply list_elem_of_fmap_2.
Qed.

Lemma dishes_read_found rq db at_ d :
  list_find (λ x, Dishes.id x = params rq) db = Some (at_, d) →
  handle Dishes.exports.read rq db = (Sent 200 (Data d), db).
Proof.
  intros Hfind. pose proof Hfind as (Hat & _ & _)%list_find_Some.
  unfold handle, Dishes.exports.read.
  rewrite (run_cons_Next _ _ _ _ _ (dishExists_eval _ _ _ _ Hfind)).
  simpl. unfold Dishes.read, found. simpl. by rewrite Hat.
Qed.

Lemma orders_read_found rq db at_ o :
  list_find (λ x, Orders.id x = params rq) db = Some (at_, o) →
  handle Orders.exports.read rq db = (Sent 200 (Data o), db).
Proof.
  intros Hfind. pose proof Hfind as (Hat & _ & _)%list_find_Some.
  unfold handle, Orders.exports.read.
  rewrite (run_cons_Next _ _ _ _ _ (orderExists_eval _ _ _ _ Hfind)).
  simpl. unfold Orders.read, found. simpl. by rewrite Hat.
Qed.

(** X1. The read stack of either controller answers 200 with the first
    record of the collection whose id is the route's, and 404 when no
    record has that id; it does not look at the body and leaves the
    collection as it is. *)
Theorem read_answers_first_match_or_404 :
  ∀ rq,
    (∀ db : list Dishes.dish,
        (∀ at_ d,
            list_find (λ x, Dishes.id x = params rq) db = Some (at_, d) →
            handle Dishes.exports.read rq db = (Sent 200 (Data d), db)) ∧
        (params rq ∉ Dishes.id <$> db →
         handle Dishes.exports.read rq db
         = (NextErr 404 ("Dish not found: " +:+ params rq), db))) ∧
    (∀ db : list Orders.order,
        (∀ at_ o,
            list_find (λ x, Orders.id x = params rq) db = Some (at_, o) →
            handle Orders.exports.read rq db = (Sent 200 (Data o), db)) ∧
        (params rq ∉ Orders.id <$> db →
         handle Orders.exports.read rq db
         = (NextErr 404 ("Order id not found: " +:+ params rq), db))).
Proof.
  intros rq. split; intros db; split.
  - intros at_ d. apply dishes_read_found.
  - intros Habsent%(list_find_absent Dishes.id).
    unfold handle, Dishes.exports.read. cbn [run].
    unfold Dishes.dishExists. cbn [store]. by rewrite Habsent.
  - intros at_ o. apply orders_read_found.
  - intros Habsent%(list_find_absent Orders.id).
    unfold handle, Orders.exports.read. cbn [run].
    unfold Orders.orderExists. cbn [store]. by rewrite Habsent.
Qed.

(** X2. An update of a dish or of an order, and a delete of an order, for
    an id that no record of the collection has answers 404 whatever the
    body holds, a [null] data included, and changes nothing. *)
Theorem missing_record_is_404_before_any_check :
  ∀ rq,
    (∀ db, params rq ∉ Dishes.id <$> db →
           handle Dishes.exports.update rq db
           = (NextErr 404 ("Dish not found: " +:+ params rq), db)) ∧
    (∀ db, params rq ∉ Orders.id <$> db →
           handle Orders.exports.update rq db
           = (NextErr 404 ("Order id not found: " +:+ params rq), db) ∧
           handle Orders.exports.destroy rq db
           = (NextErr 404 ("Order id not found: " +:+ params rq), db)).
Proof.
  intros rq. split; intros db Habsent.
  - apply (list_find_absent Dishes.id) in Habsent.
    unfold handle, Dishes.exports.update. cbn [run].
    unfold Dishes.dishExists. cbn [store]. by rewrite Habsent.
  - apply (list_find_absent Orders.id) in Habsent. split.
    + unfold handle, Orders.exports.update. cbn [run].
      unfold Orders.orderExists. cbn [store]. by rewrite Habsent.
    + unfold handle, Orders.exports.destroy. cbn [run].
      unfold Orders.orderExists. cbn [store]. by rewrite Habsent.
Qed.

(** *** What the price and quantity checks accept *)

Lemma first_refused_none lines :
  Orders.first_refused lines = Ret None ↔ Forall accepted_line lines.
Proof.
  induction lines as [|line lines IH]; simpl.
  - split; [intros _; apply Forall_nil_2|done].
  - destruct (get line "quantity") as [q|] eqn:Hq; simpl.
    + destruct (quantity_test_defined q) as [refused Htest]. rewrite Htest.
      simpl. destruct refused.
      * split.
        -- destruct (get line "id"); done.
        -- intros (q' & Hq' & Hok)%Forall_cons_1%proj1.
           rewrite Hq in Hq'. injection Hq' as <-.
           apply quantity_test in Hok. congruence.
      * rewrite IH. apply quantity_test in Htest. split.
        -- intros Hrest. apply Forall_cons_2; [by exists q|done].
        -- by intros [_ ?]%Forall_cons_1.
    + split; [done|].
      intros (q' & Hq' & _)%Forall_cons_1%proj1. congruence.
Qed.

Lemma dishProperties_passed rq st st' :
  Orders.dishProperties rq st = (Next, st') ↔
  st' = st ∧
  ∃ data line lines,
    body_data rq = Ret data ∧
    get data "dishes" = Ret (VArr (line :: lines)) ∧
    Forall accepted_line (line :: lines).
Proof.
  split.
  - intros Hrun.
    destruct (body_data rq) as [data|] eqn:Hdata;
      [|unfold Orders.dishProperties in Hrun; by rewrite Hdata in Hrun].
    destruct (get data "dishes") as [ds|] eqn:Hds;
      [|unfold Orders.dishProperties in Hrun; rewrite Hdata in Hrun;
        simpl in Hrun; by rewrite Hds in Hrun].
    rewrite (dishProperties_eval _ _ _ _ Hdata Hds) in Hrun. cbv zeta in Hrun.
    destruct (negb _ || _ || _) eqn:Htest in Hrun; [done|].
    apply orb_false_iff in Htest as [[_ Harr]%orb_false_iff Hlen].
    apply negb_false_iff in Harr. apply Nat.eqb_neq in Hlen.
    destruct ds as [| | | | |[|line lines]|]; try done.
    cbn [default] in Hrun.
    destruct (Orders.first_refused (line :: lines)) as [[i|]|] eqn:Hfirst;
      [by destruct (ToString i)| |done].
    injection Hrun as <-. split; [done|]. exists data, line, lines.
    split_and!; [done..|]. by apply first_refused_none.
  - intros (-> & data & line & lines & Hdata & Hds & Hok).
    rewrite (dishProperties_eval _ _ _ _ Hdata Hds). simpl.
    apply first_refused_none in Hok. simpl in Hok. by rewrite Hok.
Qed.

Lemma dishes_hasPrice_pass rq st data p :
  body_data rq = Ret data → get data "price" = Ret p → positive_integer p →
  Dishes.hasPrice rq st = (Next, st).
Proof.
  intros Hdata Hp Hok. rewrite (dishes_hasPrice_eval _ _ _ _ Hdata Hp).
  pose proof (price_accepted p Hok) as Hle. rewrite Hle.
  apply (price_test p false Hle) in Hok. by rewrite Hok.
Qed.

(** X3. The price check of a dish calls [next()] exactly when the body
    data is not [null] and its [price] is a Number that is an integer
    greater than 0: a missing price, a numeric string, [null], a boolean,
    a fraction, zero and the negatives are all refused. *)
Theorem hasPrice_passes_exactly_positive_integers :
  ∀ rq st st',
    Dishes.hasPrice rq st = (Next, st') ↔
    st' = st ∧
    ∃ data p,
      body_data rq = Ret data ∧ get data "price" = Ret p ∧
      positive_integer p.
Proof.
  intros rq st st'. split.
  - intros (_ & -> & Hp)%dishes_hasPrice_inv. split; [done|]. by apply Hp.
  - intros (-> & data & p & Hdata & Hp & Hok).
    by apply (dishes_hasPrice_pass _ _ data p).
Qed.

(** X4. The dishes check of an order calls [next()] exactly when the body
    data is not [null] and its [dishes] is an array of at least one line,
    each line being neither [null] nor [undefined] and holding a
    [quantity] that is a Number, an integer and at least 1. *)
Theorem dishProperties_passes_exactly_valid_lines :
  ∀ rq st st',
    Orders.dishProperties rq st = (Next, st') ↔
    st' = st ∧
    ∃ data line lines,
      body_data rq = Ret data ∧
      get data "dishes" = Ret (VArr (line :: lines)) ∧
      Forall (λ l, ∃ q, get l "quantity" = Ret q ∧
                        ∃ n, q = VNum (Fin n) ∧ integral n = true ∧ (1 <= n)%Q)
             (line :: lines).
Proof.
  intros rq st st'. rewrite dishProperties_passed.
  assert (∀ l, accepted_line l ↔
               ∃ q, get l "quantity" = Ret q ∧
                    ∃ n, q = VNum (Fin n) ∧ integral n = true ∧ (1 <= n)%Q)
    as Hline.
  { intros l. split.
    - intros (q & Hq & n & -> & Hint & Hpos). exists (VNum (Fin n)).
      split; [done|]. exists n. split_and!; [done..|].
      by apply integral_positive_ge_1.
    - intros (q & Hq & n & -> & Hint & Hge). exists (VNum (Fin n)).
      split; [done|]. exists n. split_and!; [done..|].
      eapply Qlt_le_trans; [|exact Hge]. done. }
  split; intros (-> & data & line & lines & Hdata & Hds & Hok);
    (split; [done|]); exists data, line, lines; (split_and!; [done..|]);
    eapply Forall_impl; [exact Hok| |exact Hok|]; intros l; by apply Hline.
Qed.

(** *** When the mutating stacks respond *)

Lemma id_test v route :
  ToBoolean v && negb (strict_eq v route) = false ↔
  ToBoolean v = false ∨ v = VStr route.
Proof.
  rewrite andb_false_iff, negb_false_iff, strict_eq_true. done.
Qed.

Lemma idMatch_passed rq st st' :
  Dishes.idMatch rq st = (Next, st') →
  ∃ data, body_data rq = Ret data ∧ id_agrees data (params rq).
Proof.
  unfold Dishes.idMatch.
  destruct (body_data rq) as [data|]; simpl; [|done].
  destruct (get data "id") as [v|] eqn:Hv; simpl; [|done].
  intros Hrun. exists data. split; [done|]. exists v. split; [done|].
  apply id_test.
  destruct (ToBoolean v), (strict_eq v (params rq)), (ToString v); done.
Qed.

Lemma matchIds_passed rq st st' :
  Orders.matchIds rq st = (Next, st') →
  ∃ data, body_data rq = Ret data ∧ id_agrees data (params rq).
Proof.
  unfold Orders.matchIds.
  destruct (body_data rq) as [data|]; simpl; [|done].
  destruct (get data "id") as [v|] eqn:Hv; simpl; [|done].
  intros Hrun. exists data. split; [done|]. exists v. split; [done|].
  apply id_test.
  destruct (ToBoolean v), (strict_eq v (params rq)), (ToString v); done.
Qed.

Lemma orderDelivered_passed rq st st' :
  Orders.orderDelivered rq st = (Next, st') →
  ∃ o, found st = Some o ∧ Orders.status o ≠ VStr "delivered".
Proof.
  unfold Orders.orderDelivered. destruct (found st) as [o|]; [|done].
  destruct (strict_eq (Orders.status o) "delivered") eqn:Hs; [done|].
  intros _. exists o. split; [done|]. by apply strict_eq_false.
Qed.

Lemma status_test s :
  existsb (strict_eq s) Orders.validStatuses = true ↔
  ∃ t, s = VStr t ∧ t ∈ Orders.validStatuses.
Proof.
  rewrite existsb_exists. split.
  - intros (t & Hin & Heq%strict_eq_true). exists t. split; [done|].
    by apply list_elem_of_In.
  - intros (t & -> & Hin). exists t. split; [by apply list_elem_of_In|].
    by apply strict_eq_true.
Qed.

Lemma statusInvalid_passed rq st st' :
  Orders.statusInvalid rq st = (Next, st') →
  ∃ data s, body_data rq = Ret data ∧ status_accepted data s.
Proof.
  intros Hrun.
  destruct (body_data rq) as [data|] eqn:Hdata;
    [|unfold Orders.statusInvalid in Hrun; by rewrite Hdata in Hrun].
  destruct (get data "status") as [s|] eqn:Hs;
    [|unfold Orders.statusInvalid in Hrun; rewrite Hdata in Hrun;
      simpl in Hrun; by rewrite Hs in Hrun].
  rewrite (statusInvalid_eval _ _ _ _ Hdata Hs) in Hrun.
  destruct (existsb (strict_eq s) Orders.validStatuses) eqn:Htest; [|done].
  exists data, s. split; [done|]. split; [done|]. by apply status_test.
Qed.

Lemma dishes_bodyDataHas_pass p rq st data v :
  body_data rq = Ret data → get data p = Ret v → ToBoolean v = true →
  Dishes.bodyDataHas p rq st = (Next, st).
Proof. intros Hdata Hv Ht. by rewrite (dishes_bodyDataHas_eval _ _ _ _ _ Hdata Hv), Ht. Qed.

Lemma orders_bodyDataHas_pass p rq st data v :
  body_data rq = Ret data → get data p = Ret v → ToBoolean v = true →
  Orders.bodyDataHas p rq st = (Next, st).
Proof. intros Hdata Hv Ht. by rewrite (orders_bodyDataHas_eval _ _ _ _ _ Hdata Hv), Ht. Qed.

Lemma positive_integer_truthy p : positive_integer p → ToBoolean p = true.
Proof.
  intros (q & -> & _ & Hpos). simpl. apply negb_true_iff, not_true_is_false.
  intros Hq%Qeq_bool_iff. rewrite Hq in Hpos. by apply Qlt_irrefl in Hpos.
Qed.

Lemma dishes_checks_pass rq st data n d p i :
  body_data rq = Ret data → dish_payload data n d p i →
  ∀ rest,
    run (Dishes.bodyDataHas "name" :: Dishes.bodyDataHas "description"
         :: Dishes.hasPrice :: Dishes.bodyDataHas "price"
         :: Dishes.bodyDataHas "image_url" :: rest) rq st
    = run rest rq st.
Proof.
  intros Hdata (Hn & Htn & Hd & Htd & Hp & Hok & Hi & Hti) rest.
  rewrite (run_cons_Next _ _ _ _ _ (dishes_bodyDataHas_pass _ _ st _ _ Hdata Hn Htn)).
  rewrite (run_cons_Next _ _ _ _ _ (dishes_bodyDataHas_pass _ _ st _ _ Hdata Hd Htd)).
  rewrite (run_cons_Next _ _ _ _ _ (dishes_hasPrice_pass _ st _ _ Hdata Hp Hok)).
  rewrite (run_cons_Next _ _ _ _ _
             (dishes_bodyDataHas_pass _ _ st _ _ Hdata Hp
                (positive_integer_truthy _ Hok))).
  by rewrite (run_cons_Next _ _ _ _ _ (dishes_bodyDataHas_pass _ _ st _ _ Hdata Hi Hti)).
Qed.

Lemma dishes_create_forward rq db data n d p i :
  body_data rq = Ret data → dish_payload data n d p i →
  handle Dishes.exports.create rq db
  = (Sent 201
       (Data {| Dishes.id := nextId (Dishes.id <$> db); Dishes.name := n;
                Dishes.description := d; Dishes.price := p;
                Dishes.image_url := i |}),
     db ++ [{| Dishes.id := nextId (Dishes.id <$> db); Dishes.name := n;
               Dishes.description := d; Dishes.price := p;
               Dishes.image_url := i |}]).
Proof.
  intros Hdata Hpay. unfold handle, Dishes.exports.create.
  rewrite (dishes_checks_pass _ _ _ _ _ _ _ Hdata Hpay).
  destruct Hpay as (Hn & _ & Hd & _ & Hp & _ & Hi & _).
  simpl. unfold Dishes.create. rewrite Hdata. simpl.
  by rewrite Hn, Hd, Hp, Hi.
Qed.

Lemma idMatch_pass rq st data :
  body_data rq = Ret data → id_agrees data (params rq) →
  Dishes.idMatch rq st = (Next, st).
Proof.
  intros Hdata (v & Hv & Hok). rewrite (idMatch_eval _ _ _ _ Hdata Hv).
  apply id_test in Hok. by rewrite Hok.
Qed.

Lemma dishes_update_forward rq db at_ old data n d p i :
  list_find (λ x, Dishes.id x = params rq) db = Some (at_, old) →
  body_data rq = Ret data → dish_payload data n d p i →
  id_agrees data (params rq) →
  handle Dishes.exports.update rq db
  = (Sent 200
       (Data {| Dishes.id := Dishes.id old; Dishes.name := n;
                Dishes.description := d; Dishes.price := p;
                Dishes.image_url := i |}),
     <[at_ := {| Dishes.id := Dishes.id old; Dishes.name := n;
                 Dishes.description := d; Dishes.price := p;
                 Dishes.image_url := i |}]> db).
Proof.
  intros Hfind Hdata Hpay Hid. pose proof Hfind as (Hat & _ & _)%list_find_Some.
  unfold handle, Dishes.exports.update.
  rewrite (run_cons_Next _ _ _ _ _ (dishExists_eval _ _ _ _ Hfind)).
  rewrite (dishes_checks_pass _ _ _ _ _ _ _ Hdata Hpay).
  rewrite (run_cons_Next _ _ _ _ _ (idMatch_pass _ _ _ Hdata Hid)).
  destruct Hpay as (Hn & _ & Hd & _ & Hp & _ & Hi & _).
  destruct Hid as (v & Hv & _).
  simpl. unfold Dishes.update, found. rewrite Hdata. simpl.
  by rewrite Hv, Hn, Hd, Hp, Hi, Hat.
Qed.

Lemma dishes_update_id_agrees rq db code r db' :
  handle Dishes.exports.update rq db = (Sent code r, db') →
  ∃ data, body_data rq = Ret data ∧ id_agrees data (params rq).
Proof.
  intros (st' & Hrun & _)%handle_inv. unfold Dishes.exports.update in Hrun.
  step_validator Hrun dishExists_inv. destruct Hm as (_ & _ & Hex).
  destruct (Hex eq_refl) as (at_ & old & _ & ->).
  step_validator Hrun (dishes_bodyDataHas_inv "name"). destruct Hm as (_ & -> & _).
  step_validator Hrun (dishes_bodyDataHas_inv "description").
  destruct Hm as (_ & -> & _).
  step_validator Hrun dishes_hasPrice_inv. destruct Hm as (_ & -> & _).
  step_validator Hrun (dishes_bodyDataHas_inv "price"). destruct Hm as (_ & -> & _).
  step_validator Hrun (dishes_bodyDataHas_inv "image_url").
  destruct Hm as (_ & -> & _).
  apply run_cons_inv in Hrun as [(st1 & Hm & _)|[_ Hm]].
  - by apply idMatch_passed in Hm.
  - apply idMatch_inv in Hm as [Hm _]. exfalso. apply Hm. exact I.
Qed.

(** X5. The create stack of a dish responds exactly when the body data is
    not [null], its [name], [description] and [image_url] are truthy and
    its [price] is an integer Number above 0; it then answers 201 with the
    dish made of those four values and appends it to the collection. *)
Theorem dish_create_succeeds_exactly_when :
  ∀ rq db code r db',
    handle Dishes.exports.create rq db = (Sent code r, db') ↔
    ∃ data n d p i,
      body_data rq = Ret data ∧ dish_payload data n d p i ∧
      code = 201%Z ∧
      r = Data {| Dishes.id := nextId (Dishes.id <$> db); Dishes.name := n;
                  Dishes.description := d; Dishes.price := p;
                  Dishes.image_url := i |} ∧
      db' = db ++ [{| Dishes.id := nextId (Dishes.id <$> db); Dishes.name := n;
                      Dishes.description := d; Dishes.price := p;
                      Dishes.image_url := i |}].
Proof.
  intros rq db code r db'. split.
  - intros (data & n & d & p & i & ? & ? & ? & ? & ? & ? & ? & ? & ? & ? & ? & ?)
      %dishes_create_responds.
    exists data, n, d, p, i. unfold dish_payload. split_and!; done.
  - intros (data & n & d & p & i & Hdata & Hpay & -> & -> & ->).
    by apply (dishes_create_forward _ _ data).
Qed.

(** X6. The update stack of a dish responds exactly when a dish has the
    route's id, the body data passes the same field checks as a create,
    and the body id is absent, falsy or equal to the route's id; it then
    answers 200 with the first such dish, its four fields replaced, and
    writes it back at the same position. *)
Theorem dish_update_succeeds_exactly_when :
  ∀ rq db code r db',
    handle Dishes.exports.update rq db = (Sent code r, db') ↔
    ∃ at_ old data n d p i,
      list_find (λ x, Dishes.id x = params rq) db = Some (at_, old) ∧
      body_data rq = Ret data ∧ dish_payload data n d p i ∧
      id_agrees data (params rq) ∧
      code = 200%Z ∧
      r = Data {| Dishes.id := Dishes.id old; Dishes.name := n;
                  Dishes.description := d; Dishes.price := p;
                  Dishes.image_url := i |} ∧
      db' = <[at_ := {| Dishes.id := Dishes.id old; Dishes.name := n;
                        Dishes.description := d; Dishes.price := p;
                        Dishes.image_url := i |}]> db.
Proof.
  intros rq db code r db'. split.
  - intros Hsent.
    destruct (dishes_update_id_agrees _ _ _ _ _ Hsent) as (data' & Hdata' & Hid).
    apply dishes_update_responds in Hsent
      as (at_ & old & data & n & d & p & i & ? & ? & ? & ? & ? & ? & ? & ? & ?
          & ? & ? & ? & ?).
    same_data. eexists at_, old, _, n, d, p, i.
    unfold dish_payload. split_and!; eauto.
  - intros (at_ & old & data & n & d & p & i & Hfind & Hdata & Hpay & Hid
            & -> & -> & ->).
    by apply (dishes_update_forward _ _ _ _ data).
Qed.

Lemma dishProperties_pass rq st data ds :
  body_data rq = Ret data → get data "dishes" = Ret ds →
  (∃ line lines, ds = VArr (line :: lines) ∧ Forall accepted_line (line :: lines)) →
  Orders.dishProperties rq st = (Next, st).
Proof.
  intros Hdata Hds (line & lines & -> & Hok).
  apply dishProperties_passed. split; [done|]. by exists data, line, lines.
Qed.

Lemma status_accepted_truthy data s : status_accepted data s → ToBoolean s = true.
Proof.
  intros (_ & t & -> & Hin). unfold Orders.validStatuses in Hin.
  repeat (apply elem_of_cons in Hin as [->|Hin]); try done.
  by apply elem_of_nil in Hin.
Qed.

Lemma statusInvalid_pass rq st data s :
  body_data rq = Ret data → status_accepted data s →
  Orders.statusInvalid rq st = (Next, st).
Proof.
  intros Hdata (Hs & Hok). rewrite (statusInvalid_eval _ _ _ _ Hdata Hs).
  apply status_test in Hok. by rewrite Hok.
Qed.

Lemma matchIds_pass rq st data :
  body_data rq = Ret data → id_agrees data (params rq) →
  Orders.matchIds rq st = (Next, st).
Proof.
  intros Hdata (v & Hv & Hok). rewrite (matchIds_eval _ _ _ _ Hdata Hv).
  apply id_test in Hok. by rewrite Hok.
Qed.

Lemma orderDelivered_pass rq db at_ old :
  db !! at_ = Some old → Orders.status old ≠ VStr "delivered" →
  Orders.orderDelivered rq {| store := db; locals := Some at_ |}
  = (Next, {| store := db; locals := Some at_ |}).
Proof.
  intros Hat Hs%strict_eq_false. unfold Orders.orderDelivered, found. simpl.
  by rewrite Hat, Hs.
Qed.

Lemma orders_create_forward rq db data to mobile ds s :
  body_data rq = Ret data → order_payload data to mobile ds →
  get data "status" = Ret s →
  handle Orders.exports.create rq db
  = (Sent 201
       (Data {| Orders.id := nextId (Orders.id <$> db);
                Orders.deliverTo := to; Orders.mobileNumber := mobile;
                Orders.status := s; Orders.dishes := ds |}),
     db ++ [{| Orders.id := nextId (Orders.id <$> db);
               Orders.deliverTo := to; Orders.mobileNumber := mobile;
               Orders.status := s; Orders.dishes := ds |}]).
Proof.
  intros Hdata (Hto & Htt & Hm & Htm & Hds & Hlines) Hs.
  assert (ToBoolean ds = true) as Htd.
  { by destruct Hlines as (line & lines & -> & _). }
  destruct (get_defined _ _ _ "id" Hs) as [i Hi].
  unfold handle, Orders.exports.create.
  rewrite (run_cons_Next _ _ _ _ _ (orders_bodyDataHas_pass _ _ _ _ _ Hdata Hto Htt)).
  rewrite (run_cons_Next _ _ _ _ _ (orders_bodyDataHas_pass _ _ _ _ _ Hdata Hm Htm)).
  rewrite (run_cons_Next _ _ _ _ _ (orders_bodyDataHas_pass _ _ _ _ _ Hdata Hds Htd)).
  rewrite (run_cons_Next _ _ _ _ _ (dishProperties_pass _ _ _ _ Hdata Hds Hlines)).
  simpl. unfold Orders.create. rewrite Hdata. simpl.
  rewrite Hi, Hto, Hm, Hs, Hds. simpl.
  by destruct Hlines as (line & lines & -> & _).
Qed.

Lemma orders_update_forward rq db at_ old data to mobile ds s :
  list_find (λ x, Orders.id x = params rq) db = Some (at_, old) →
  Orders.status old ≠ VStr "delivered" →
  body_data rq = Ret data → id_agrees data (params rq) →
  order_payload data to mobile ds → status_accepted data s →
  handle Orders.exports.update rq db
  = (Sent 200
       (Data {| Orders.id := Orders.id old;
                Orders.deliverTo := to; Orders.mobileNumber := mobile;
                Orders.status := s; Orders.dishes := ds |}),
     <[at_ := {| Orders.id := Orders.id old;
                 Orders.deliverTo := to; Orders.mobileNumber := mobile;
                 Orders.status := s; Orders.dishes := ds |}]> db).
Proof.
  intros Hfind Hnot Hdata Hid (Hto & Htt & Hm & Htm & Hds & Hlines) Hst.
  pose proof Hfind as (Hat & _ & _)%list_find_Some.
  assert (ToBoolean ds = true) as Htd.
  { by destruct Hlines as (line & lines & -> & _). }
  pose proof (status_accepted_truthy _ _ Hst) as Hts.
  pose proof Hst as [Hs _].
  unfold handle, Orders.exports.update.
  rewrite (run_cons_Next _ _ _ _ _ (orderExists_eval _ _ _ _ Hfind)).
  rewrite (run_cons_Next _ _ _ _ _ (matchIds_pass _ _ _ Hdata Hid)).
  rewrite (run_cons_Next _ _ _ _ _ (orderDelivered_pass rq _ _ _ Hat Hnot)).
  rewrite (run_cons_Next _ _ _ _ _ (orders_bodyDataHas_pass _ _ _ _ _ Hdata Hto Htt)).
  rewrite (run_cons_Next _ _ _ _ _ (orders_bodyDataHas_pass _ _ _ _ _ Hdata Hm Htm)).
  rewrite (run_cons_Next _ _ _ _ _ (orders_bodyDataHas_pass _ _ _ _ _ Hdata Hds Htd)).
  rewrite (run_cons_Next _ _ _ _ _ (orders_bodyDataHas_pass _ _ _ _ _ Hdata Hs Hts)).
  rewrite (run_cons_Next _ _ _ _ _ (statusInvalid_pass _ _ _ _ Hdata Hst)).
  rewrite (run_cons_Next _ _ _ _ _ (dishProperties_pass _ _ _ _ Hdata Hds Hlines)).
  simpl. unfold Orders.update, found. rewrite Hdata. simpl.
  rewrite Hto, Hm, Hs, Hds, Hat. simpl.
  by destruct Hlines as (line & lines & -> & _).
Qed.

Lemma orders_create_lines rq db code r db' :
  handle Orders.exports.create rq db = (Sent code r, db') →
  ∃ data line lines,
    body_data rq = Ret data ∧
    get data "dishes" = Ret (VArr (line :: lines)) ∧
    Forall accepted_line (line :: lines).
Proof.
  intros (st' & Hrun & _)%handle_inv. unfold Orders.exports.create in Hrun.
  step_validator Hrun (orders_bodyDataHas_inv "deliverTo").
  destruct Hm as (_ & -> & _).
  step_validator Hrun (orders_bodyDataHas_inv "mobileNumber").
  destruct Hm as (_ & -> & _).
  step_validator Hrun (orders_bodyDataHas_inv "dishes").
  destruct Hm as (_ & -> & _).
  apply run_cons_inv in Hrun as [(st1 & Hm & _)|[_ Hm]].
  - by apply dishProperties_passed in Hm as [_ ?].
  - apply dishProperties_inv in Hm as [Hm _]. exfalso. apply Hm. exact I.
Qed.

Lemma orders_update_checks rq db code r db' :
  handle Orders.exports.update rq db = (Sent code r, db') →
  ∃ at_ old data s line lines,
    list_find (λ x, Orders.id x = params rq) db = Some (at_, old) ∧
    Orders.status old ≠ VStr "delivered" ∧
    body_data rq = Ret data ∧ id_agrees data (params rq) ∧
    status_accepted data s ∧
    get data "dishes" = Ret (VArr (line :: lines)) ∧
    Forall accepted_line (line :: lines).
Proof.
  intros (st' & Hrun & _)%handle_inv. unfold Orders.exports.update in Hrun.
  step_validator Hrun orderExists_inv. destruct Hm as (_ & _ & Hex).
  destruct (Hex eq_refl) as (at_ & old & Hfind & ->). simpl in Hfind.
  pose proof Hfind as (Hat & _ & _)%list_find_Some.
  apply run_cons_inv in Hrun as [(st1 & Hm & Hrun)|[_ Hm]];
    [|apply matchIds_inv in Hm as [Hm _]; exfalso; apply Hm; exact I].
  pose proof Hm as (data & Hdata & Hid)%matchIds_passed.
  apply matchIds_inv in Hm as (_ & ->).
  apply run_cons_inv in Hrun as [(st1 & Hm & Hrun)|[_ Hm]];
    [|apply orderDelivered_inv in Hm as [Hm _]; exfalso; apply Hm; exact I].
  pose proof Hm as (o & Ho & Hnot)%orderDelivered_passed.
  unfold found in Ho. simpl in Ho. rewrite Hat in Ho. injection Ho as <-.
  apply orderDelivered_inv in Hm as (_ & ->).
  step_validator Hrun (orders_bodyDataHas_inv "deliverTo").
  destruct Hm as (_ & -> & _).
  step_validator Hrun (orders_bodyDataHas_inv "mobileNumber").
  destruct Hm as (_ & -> & _).
  step_validator Hrun (orders_bodyDataHas_inv "dishes").
  destruct Hm as (_ & -> & _).
  step_validator Hrun (orders_bodyDataHas_inv "status").
  destruct Hm as (_ & -> & _).
  apply run_cons_inv in Hrun as [(st1 & Hm & Hrun)|[_ Hm]];
    [|apply statusInvalid_inv in Hm as [Hm _]; exfalso; apply Hm; exact I].
  pose proof Hm as (? & s & ? & Hst)%statusInvalid_passed.
  apply statusInvalid_inv in Hm as (_ & ->).
  apply run_cons_inv in Hrun as [(st1 & Hm & _)|[_ Hm]];
    [|apply dishProperties_inv in Hm as [Hm _]; exfalso; apply Hm; exact I].
  apply dishProperties_passed in Hm as (_ & ? & line & lines & ? & Hds & Hok).
  same_data. eexists at_, old, _, s, line, lines. split_and!; eauto.
Qed.

(** X7. The create stack of an order responds exactly when the body data
    is not [null], its [deliverTo] and [mobileNumber] are truthy and its
    [dishes] is a non-empty array of lines with a quantity that is an
    integer of at least 1; it then answers 201 with the order made of
    those values and of whatever [status] the data holds. *)
Theorem order_create_succeeds_exactly_when :
  ∀ rq db code r db',
    handle Orders.exports.create rq db = (Sent code r, db') ↔
    ∃ data to mobile ds s,
      body_data rq = Ret data ∧ order_payload data to mobile ds ∧
      get data "status" = Ret s ∧
      code = 201%Z ∧
      r = Data {| Orders.id := nextId (Orders.id <$> db);
                  Orders.deliverTo := to; Orders.mobileNumber := mobile;
                  Orders.status := s; Orders.dishes := ds |} ∧
      db' = db ++ [{| Orders.id := nextId (Orders.id <$> db);
                      Orders.deliverTo := to; Orders.mobileNumber := mobile;
                      Orders.status := s; Orders.dishes := ds |}].
Proof.
  intros rq db code r db'. split.
  - intros Hsent.
    destruct (orders_create_lines _ _ _ _ _ Hsent)
      as (data' & line & lines & Hdata' & Hds' & Hok).
    apply orders_create_responds in Hsent
      as (data & to & mobile & s & ds & ? & ? & ? & ? & ? & ? & Hds & ? & ? & ? & ?).
    same_data. assert (ds = VArr (line :: lines)) as -> by congruence.
    eexists _, to, mobile, (VArr (line :: lines)), s.
    unfold order_payload. split_and!; eauto.
  - intros (data & to & mobile & ds & s & Hdata & Hpay & Hs & -> & -> & ->).
    by apply (orders_create_forward _ _ data).
Qed.

(** X8. The update stack of an order responds exactly when an order has
    the route's id and the first such order is not delivered, the body id
    is absent, falsy or the route's id, the body data passes the field
    checks of a create, and its [status] is one of "pending", "preparing",
    "out-for-delivery" and "delivered"; it then answers 200 with that
    order, its four fields replaced, written back at the same position. *)
Theorem order_update_succeeds_exactly_when :
  ∀ rq db code r db',
    handle Orders.exports.update rq db = (Sent code r, db') ↔
    ∃ at_ old data to mobile ds s,
      list_find (λ x, Orders.id x = params rq) db = Some (at_, old) ∧
      Orders.status old ≠ VStr "delivered" ∧
      body_data rq = Ret data ∧ id_agrees data (params rq) ∧
      order_payload data to mobile ds ∧ status_accepted data s ∧
      code = 200%Z ∧
      r = Data {| Orders.id := Orders.id old;
                  Orders.deliverTo := to; Orders.mobileNumber := mobile;
                  Orders.status := s; Orders.dishes := ds |} ∧
      db' = <[at_ := {| Orders.id := Orders.id old;
                        Orders.deliverTo := to; Orders.mobileNumber := mobile;
                        Orders.status := s; Orders.dishes := ds |}]> db.
Proof.
  intros rq db code r db'. split.
  - intros Hsent.
    destruct (orders_update_checks _ _ _ _ _ Hsent)
      as (at_' & old' & data' & s' & line & lines & Hfind' & Hnot & Hdata' & Hid
          & Hst & Hds' & Hok).
    apply orders_update_responds in Hsent
      as (at_ & old & data & to & mobile & s & ds & Hfind & ? & ? & ? & ? & ?
          & Hs & ? & Hds & ? & ? & ? & ?).
    same_data. assert (ds = VArr (line :: lines)) as -> by congruence.
    assert (s' = s) as -> by (destruct Hst as [Hs' _]; congruence).
    assert (at_' = at_ ∧ old' = old) as [-> ->] by (split; congruence).
    eexists at_, old, _, to, mobile, (VArr (line :: lines)), s.
    unfold order_payload. split_and!; eauto.
  - intros (at_ & old & data & to & mobile & ds & s & Hfind & Hnot & Hdata & Hid
            & Hpay & Hst & -> & -> & ->).
    by apply (orders_update_forward _ _ _ _ data).
Qed.

(** *** Deleting *)

Lemma destroy_eval rq db at_ x :
  list_find (λ o, Orders.id o = params rq) db = Some (at_, x) →
  handle Orders.exports.destroy rq db
  = if strict_eq (Orders.status x) "pending"
    then (Sent 204 Empty, delete at_ db)
    else (NextErr 400 "An order cannot be deleted unless it is pending.", db).
Proof.
  intros Hfind. pose proof Hfind as (Hat & Hid & _)%list_find_Some.
  unfold handle, Orders.exports.destroy.
  rewrite (run_cons_Next _ _ _ _ _ (orderExists_eval _ _ _ _ Hfind)).
  cbn [run]. unfold Orders.orderStatus, Orders.destroy, found. simpl.
  rewrite Hat, Hid, Hfind.
  destruct (strict_eq (Orders.status x) "pending"); simpl; [|done].
  by rewrite Hat, Hid, Hfind.
Qed.

(** X9. Whatever a delete request is, the collection afterwards is either
    the one before, or the one before without a single order: the first
    one that has the route's id, whose status was "pending". The other
    orders keep their places relative to one another, and an order that is
    not pending, or has another id, is never removed. *)
Theorem delete_removes_at_most_the_pending_match :
  ∀ rq db o db',
    handle Orders.exports.destroy rq db = (o, db') →
    (¬ responded o ∧ db' = db) ∨
    (o = Sent 204 Empty ∧
     ∃ at_ x,
       list_find (λ y, Orders.id y = params rq) db = Some (at_, x) ∧
       Orders.status x = VStr "pending" ∧
       db' = delete at_ db ∧ length db = S (length db')).
Proof.
  intros rq db o db' Hrun.
  destruct (list_find (λ y, Orders.id y = params rq) db) as [[at_ x]|] eqn:Hfind.
  - rewrite (destroy_eval _ _ _ _ Hfind) in Hrun.
    destruct (strict_eq (Orders.status x) "pending") eqn:Hs.
    + injection Hrun as <- <-. right. split; [done|]. exists at_, x.
      apply strict_eq_true in Hs. split_and!; [done..|].
      pose proof Hfind as (Hat%lookup_lt_Some & _)%list_find_Some.
      rewrite length_delete by (by apply lookup_lt_is_Some). lia.
    + injection Hrun as <- <-. left. split; [intros []|done].
  - unfold handle, Orders.exports.destroy in Hrun. cbn [run] in Hrun.
    unfold Orders.orderExists in Hrun. cbn [store] in Hrun.
    rewrite Hfind in Hrun. injection Hrun as <- <-. left. split; [intros []|done].
Qed.

(** *** Updating, then reading *)

Lemma list_find_insert {R} (P : R → Prop) `{!∀ x, Decision (P x)}
      (db : list R) at_ old new :
  list_find P db = Some (at_, old) → P new →
  list_find P (<[at_ := new]> db) = Some (at_, new).
Proof.
  intros (Hat & _ & Hfirst)%list_find_Some Hnew. apply list_find_Some.
  split_and!; [|done|].
  - apply list_lookup_insert_eq. by eapply lookup_lt_Some.
  - intros j y Hj Hlt. rewrite list_lookup_insert_ne in Hj by lia. eauto.
Qed.

(** X10. After an update of a dish or of an order has responded, reading
    the same route id answers 200 with the record the update responded
    with, whatever the collection held beside it. *)
Theorem update_then_read_returns_the_update :
  ∀ rq,
    (∀ db code r db',
        handle Dishes.exports.update rq db = (Sent code r, db') →
        ∀ b, handle Dishes.exports.read {| params := params rq; body := b |} db'
             = (Sent 200 r, db')) ∧
    (∀ db code r db',
        handle Orders.exports.update rq db = (Sent code r, db') →
        ∀ b, handle Orders.exports.read {| params := params rq; body := b |} db'
             = (Sent 200 r, db')).
Proof.
  intros rq. split; intros db code r db' Hsent b.
  - apply dishes_update_responds in Hsent
      as (at_ & old & data & n & d & p & i & Hfind & _ & _ & _ & _ & _ & _ & _
          & _ & _ & _ & -> & ->).
    pose proof Hfind as (_ & Hid & _)%list_find_Some.
    apply (dishes_read_found {| params := params rq; body := b |} _ at_).
    by apply (list_find_insert _ _ _ old).
  - apply orders_update_responds in Hsent
      as (at_ & old & data & to & mobile & s & ds & Hfind & _ & _ & _ & _ & _
          & _ & _ & _ & _ & _ & -> & ->).
    pose proof Hfind as (_ & Hid & _)%list_find_Some.
    apply (orders_read_found {| params := params rq; body := b |} _ at_).
    by apply (list_find_insert _ _ _ old).
Qed.

Lemma unchanged_unless_responded {R} (stack : list (middleware R)) rq db o db' :
  Forall keeps_store stack → handle stack rq db = (o, db') →
  ¬ responded o → db' = db.
Proof.
  intros Hall (st' & Hrun & <-)%handle_inv Hno.
  pose proof (run_keeps_store _ rq {| store := db; locals := None |} Hall) as Hk.
  rewrite Hrun in Hk. by apply Hk.
Qed.

Lemma dishes_update_ids rq db :
  Dishes.id <$> (handle Dishes.exports.update rq db).2 = Dishes.id <$> db.
Proof.
  destruct (handle Dishes.exports.update rq db) as [o db'] eqn:Hrun. simpl.
  destruct o as [|c m|c r|].
  1,2,4: by rewrite (unchanged_unless_responded _ _ _ _ _
                       dishes_update_stack_keeps_store Hrun) by (intros []).
  apply dishes_update_responds in Hrun
    as (at_ & old & data & n & d & p & i & Hfind & _ & _ & _ & _ & _ & _ & _
        & _ & _ & _ & _ & ->).
  apply list_find_Some in Hfind as (Hat & _ & _).
  rewrite list_fmap_insert. simpl. apply list_insert_id.
  by rewrite list_lookup_fmap, Hat.
Qed.

Lemma orders_update_ids rq db :
  Orders.id <$> (handle Orders.exports.update rq db).2 = Orders.id <$> db.
Proof.
  destruct (handle Orders.exports.update rq db) as [o db'] eqn:Hrun. simpl.
  destruct o as [|c m|c r|].
  1,2,4: by rewrite (unchanged_unless_responded _ _ _ _ _
                       orders_update_stack_keeps_store Hrun) by (intros []).
  apply orders_update_responds in Hrun
    as (at_ & old & data & to & mobile & s & ds & Hfind & _ & _ & _ & _ & _
        & _ & _ & _ & _ & _ & _ & ->).
  apply list_find_Some in Hfind as (Hat & _ & _).
  rewrite list_fmap_insert. simpl. apply list_insert_id.
  by rewrite list_lookup_fmap, Hat.
Qed.

(** X11. An update request never changes which ids the collection holds,
    nor their order, whether it succeeds or fails. *)
Theorem update_keeps_the_ids :
  ∀ rq,
    (∀ db, Dishes.id <$> (handle Dishes.exports.update rq db).2
           = Dishes.id <$> db) ∧
    (∀ db, Orders.id <$> (handle Orders.exports.update rq db).2
           = Orders.id <$> db).
Proof.
  intros rq. split; intros db;
    [apply dishes_update_ids|apply orders_update_ids].
Qed.

(** *** The status of an order *)

(** X12. Once an update has written the status "delivered" to an order,
    no later update request for that id responds or changes the
    collection, whatever its body. *)
Theorem delivered_by_update_is_final :
  ∀ rq db code r db' data,
    handle Orders.exports.update rq db = (Sent code r, db') →
    body_data rq = Ret data →
    get data "status" = Ret (VStr "delivered") →
    ∀ rq', params rq' = params rq →
           ¬ responded (handle Orders.exports.update rq' db').1 ∧
           (handle Orders.exports.update rq' db').2 = db'.
Proof.
  intros rq db code r db' data Hsent Hdata Hs rq' Hroute.
  apply orders_update_responds in Hsent
    as (at_ & old & data' & to & mobile & s & ds & Hfind & Hdata' & _ & _ & _ & _
        & Hs' & _ & _ & _ & _ & _ & ->).
  same_data. assert (s = VStr "delivered") as -> by congruence.
  pose proof Hfind as (_ & Hid & _)%list_find_Some.
  eapply update_delivered_never_applies;
    [rewrite Hroute; by apply (list_find_insert _ _ _ old)|reflexivity].
Qed.

(** X13. Between the presence check of [status] and the quantity check,
    the update of an order that exists and is not delivered, with a body
    id that agrees with the route and truthy [deliverTo], [mobileNumber] and
    [dishes], refuses a falsy or missing status with 400 "Order must
    include a status" and any other value that is not one of the four
    status strings with 400 "Order status invalid"; the lines of [dishes]
    are not looked at before. *)
Theorem order_update_checks_the_status :
  ∀ rq db at_ old data to mobile ds s,
    list_find (λ x, Orders.id x = params rq) db = Some (at_, old) →
    Orders.status old ≠ VStr "delivered" →
    body_data rq = Ret data → id_agrees data (params rq) →
    get data "deliverTo" = Ret to → ToBoolean to = true →
    get data "mobileNumber" = Ret mobile → ToBoolean mobile = true →
    get data "dishes" = Ret ds → ToBoolean ds = true →
    get data "status" = Ret s →
    (ToBoolean s = false →
     handle Orders.exports.update rq db
     = (NextErr 400 "Order must include a status", db)) ∧
    (ToBoolean s = true → (∀ t, t ∈ Orders.validStatuses → s ≠ VStr t) →
     handle Orders.exports.update rq db
     = (NextErr 400 "Order status invalid", db)).
Proof.
  intros rq db at_ old data to mobile ds s Hfind Hnot Hdata Hid Hto Htt Hm Htm
    Hds Htd Hs.
  pose proof Hfind as (Hat & _ & _)%list_find_Some.
  unfold handle, Orders.exports.update.
  rewrite (run_cons_Next _ _ _ _ _ (orderExists_eval _ _ _ _ Hfind)).
  rewrite (run_cons_Next _ _ _ _ _ (matchIds_pass _ _ _ Hdata Hid)).
  rewrite (run_cons_Next _ _ _ _ _ (orderDelivered_pass rq _ _ _ Hat Hnot)).
  rewrite (run_cons_Next _ _ _ _ _ (orders_bodyDataHas_pass _ _ _ _ _ Hdata Hto Htt)).
  rewrite (run_cons_Next _ _ _ _ _ (orders_bodyDataHas_pass _ _ _ _ _ Hdata Hm Htm)).
  rewrite (run_cons_Next _ _ _ _ _ (orders_bodyDataHas_pass _ _ _ _ _ Hdata Hds Htd)).
  split.
  - intros Hfalse. cbn [run].
    by rewrite (orders_bodyDataHas_eval _ _ _ _ _ Hdata Hs), Hfalse.
  - intros Htrue Hnone.
    rewrite (run_cons_Next _ _ _ _ _ (orders_bodyDataHas_pass _ _ _ _ _ Hdata Hs Htrue)).
    cbn [run]. rewrite (statusInvalid_eval _ _ _ _ Hdata Hs).
    destruct (existsb (strict_eq s) Orders.validStatuses) eqn:Htest; [|done].
    apply status_test in Htest as (t & -> & Hin). by destruct (Hnone t Hin).
Qed.

(** *** Bodies the controllers do not handle *)

(** X14. A body whose [data] is [null] makes the create of a dish, the
    create of an order and the update of a dish that exists throw in their
    first check that reads the body: no 400 is produced, and the
    collection is unchanged. *)
Theorem null_data_throws_in_the_first_body_check :
  ∀ rq,
    body_data rq = Ret VNull →
    (∀ db, handle Dishes.exports.create rq db = (Thrown, db)) ∧
    (∀ db, handle Orders.exports.create rq db = (Thrown, db)) ∧
    (∀ db at_ d,
        list_find (λ x, Dishes.id x = params rq) db = Some (at_, d) →
        handle Dishes.exports.update rq db = (Thrown, db)).
Proof.
  intros rq Hdata. split_and!.
  - intros db. unfold handle, Dishes.exports.create. cbn [run].
    unfold Dishes.bodyDataHas. by rewrite Hdata.
  - intros db. unfold handle, Orders.exports.create. cbn [run].
    unfold Orders.bodyDataHas. by rewrite Hdata.
  - intros db at_ d Hfind. unfold handle, Dishes.exports.update.
    rewrite (run_cons_Next _ _ _ _ _ (dishExists_eval _ _ _ _ Hfind)).
    cbn [run]. unfold Dishes.bodyDataHas. by rewrite Hdata.
Qed.

Lemma first_refused_null good rest :
  Forall accepted_line good →
  Orders.first_refused (good ++ VNull :: rest) = TypeError.
Proof.
  induction 1 as [|l good (q & Hq & Hok) _ IH]; simpl; [done|].
  rewrite Hq. simpl. apply quantity_test in Hok. by rewrite Hok.
Qed.

(** X15. A [null] line in [dishes], after lines that are accepted, makes
    the quantity check throw: an order create with truthy [deliverTo] and
    [mobileNumber] then ends in an exception, not in a 400, and nothing is
    stored. *)
Theorem null_line_throws_in_the_quantity_check :
  ∀ rq db data to mobile good rest,
    body_data rq = Ret data →
    get data "deliverTo" = Ret to → ToBoolean to = true →
    get data "mobileNumber" = Ret mobile → ToBoolean mobile = true →
    get data "dishes" = Ret (VArr (good ++ VNull :: rest)) →
    Forall accepted_line good →
    handle Orders.exports.create rq db = (Thrown, db).
Proof.
  intros rq db data to mobile good rest Hdata Hto Htt Hm Htm Hds Hgood.
  unfold handle, Orders.exports.create.
  rewrite (run_cons_Next _ _ _ _ _ (orders_bodyDataHas_pass _ _ _ _ _ Hdata Hto Htt)).
  rewrite (run_cons_Next _ _ _ _ _ (orders_bodyDataHas_pass _ _ _ _ _ Hdata Hm Htm)).
  rewrite (run_cons_Next _ _ _ _ _
             (orders_bodyDataHas_pass _ _ _ _ _ Hdata Hds eq_refl)).
  cbn [run]. rewrite (dishProperties_eval _ _ _ _ Hdata Hds).
  cbn [default ToBoolean Array_isArray negb orb Orders.length_of].
  rewrite length_app. simpl length.
  replace (length good + S (length rest) =? 0)%nat with false
    by (symmetry; apply Nat.eqb_neq; lia).
  by rewrite (first_refused_null _ _ Hgood).
Qed.

(** *** A message that is never sent *)

Lemma dishes_bodyDataHas_refused p rq st c msg st' :
  Dishes.bodyDataHas p rq st = (NextErr c msg, st') →
  msg = "Dish must include a " +:+ p ∧
  ∃ data v, body_data rq = Ret data ∧ get data p = Ret v ∧ ToBoolean v = false.
Proof.
  unfold Dishes.bodyDataHas.
  destruct (body_data rq) as [data|]; simpl; [|done].
  destruct (get data p) as [v|] eqn:Hv; simpl; [|done].
  destruct (ToBoolean v) eqn:Ht; [done|]. intros [= <- <- <-]. eauto 10.
Qed.

Lemma dishes_stack_never_asks_for_a_price rq st (rest : list (middleware Dishes.dish))
      o st' c :
  (∀ s o' s', run rest rq s = (o', s') →
              o' ≠ NextErr c "Dish must include a price") →
  run (Dishes.bodyDataHas "name" :: Dishes.bodyDataHas "description"
       :: Dishes.hasPrice :: Dishes.bodyDataHas "price"
       :: Dishes.bodyDataHas "image_url" :: rest) rq st = (o, st') →
  o ≠ NextErr c "Dish must include a price".
Proof.
  intros Hrest Hrun ->.
  apply run_cons_inv in Hrun as [(st1 & Hm & Hrun)|[_ Hm]];
    [|by apply dishes_bodyDataHas_refused in Hm as [? _]].
  apply run_cons_inv in Hrun as [(st2 & Hm2 & Hrun)|[_ Hm2]];
    [|by apply dishes_bodyDataHas_refused in Hm2 as [? _]].
  apply run_cons_inv in Hrun as [(st3 & Hm3 & Hrun)|[_ Hm3]].
  2:{ unfold Dishes.hasPrice in Hm3.
      destruct (body_data rq ≫= _) as [p|]; [|done].
      destruct (le p (Fin 0)) as [nonpositive|]; [|done].
      by destruct (nonpositive || negb (Number_isInteger p)). }
  apply dishes_hasPrice_inv in Hm3 as (_ & _ & Hprice).
  destruct (Hprice eq_refl) as (data & p & Hdata & Hp & Hok).
  apply run_cons_inv in Hrun as [(st4 & Hm4 & Hrun)|[_ Hm4]].
  2:{ apply dishes_bodyDataHas_refused in Hm4
        as (_ & data' & v & Hdata' & Hv & Hfalse).
      same_data. assert (v = p) as -> by congruence.
      apply positive_integer_truthy in Hok. congruence. }
  apply run_cons_inv in Hrun as [(st5 & Hm5 & Hrun)|[_ Hm5]];
    [|by apply dishes_bodyDataHas_refused in Hm5 as [? _]].
  by eapply Hrest.
Qed.

(** X16. No dish request is ever answered "Dish must include a price":
    the test of the price runs before the presence check of the price, so
    a missing price is reported as "Dish must have a price that is an
    integer greater than 0", and a price that passes the test is truthy. *)
Theorem price_presence_message_is_never_sent :
  ∀ rq db stack o db' c,
    stack ∈ [Dishes.exports.create; Dishes.exports.update] →
    handle stack rq db = (o, db') →
    o ≠ NextErr c "Dish must include a price".
Proof.
  intros rq db stack o db' c Hin (st' & Hrun & _)%handle_inv.
  repeat (apply elem_of_cons in Hin as [->|Hin]); [| |by apply elem_of_nil in Hin].
  - unfold Dishes.exports.create in Hrun.
    eapply dishes_stack_never_asks_for_a_price; [|exact Hrun].
    intros s o' s'. simpl. unfold Dishes.create.
    destruct (body_data rq ≫= _) as [[[[? ?] ?] ?]|]; by intros [= <- _].
  - unfold Dishes.exports.update in Hrun.
    apply run_cons_inv in Hrun as [(st1 & Hm & Hrun)|[_ Hm]].
    2:{ unfold Dishes.dishExists in Hm.
        destruct (list_find _ _) as [[? ?]|]; by intros ->. }
    eapply dishes_stack_never_asks_for_a_price; [|exact Hrun].
    intros s o' s' Hrest ->.
    apply run_cons_inv in Hrest as [(st2 & Hm2 & Hrest)|[_ Hm2]].
    + simpl in Hrest. unfold Dishes.update in Hrest.
      destruct (body_data rq ≫= _) as [[[[? ?] ?] ?]|]; [|done].
      by destruct (locals st2), (found st2).
    + unfold Dishes.idMatch in Hm2.
      destruct (body_data rq ≫= _) as [v|]; [|done].
      by destruct (ToBoolean v), (strict_eq v (params rq)), (ToString v).
Qed.

(** *** Repeating an update *)

(** X17. Sending a successful update a second time gives the same
    response and leaves the collection as the first left it: always for a
    dish, and for an order unless the status just written is "delivered"
    (see X12). *)
Theorem repeated_update_changes_nothing :
  ∀ rq,
    (∀ db code r db',
        handle Dishes.exports.update rq db = (Sent code r, db') →
        handle Dishes.exports.update rq db' = (Sent code r, db')) ∧
    (∀ db code r db' data s,
        handle Orders.exports.update rq db = (Sent code r, db') →
        body_data rq = Ret data → get data "status" = Ret s →
        s ≠ VStr "delivered" →
        handle Orders.exports.update rq db' = (Sent code r, db')).
Proof.
  intros rq. split.
  - intros db code r db' Hsent.
    destruct (dishes_update_id_agrees _ _ _ _ _ Hsent) as (data' & Hdata' & Hid).
    apply dishes_update_responds in Hsent
      as (at_ & old & data & n & d & p & i & Hfind & Hdata & Hn & Htn & Hd & Htd
          & Hp & Hok & Hi & Hti & -> & -> & ->).
    same_data. pose proof Hfind as (_ & Hold & _)%list_find_Some.
    erewrite dishes_update_forward;
      [|by apply (list_find_insert _ _ _ old)|done|unfold dish_payload; eauto 10
       |done].
    simpl. by rewrite list_insert_insert_eq.
  - intros db code r db' data0 s0 Hsent Hdata0 Hs0 Hnot.
    destruct (orders_update_checks _ _ _ _ _ Hsent)
      as (at_' & old' & data' & s' & line & lines & _ & _ & Hdata' & Hid
          & Hst & Hds' & Hok).
    apply orders_update_responds in Hsent
      as (at_ & old & data & to & mobile & s & ds & Hfind & Hdata & Hto & Htt
          & Hm & Htm & Hs & Hts & Hds & Htd & -> & -> & ->).
    same_data. pose proof Hfind as (_ & Hold & _)%list_find_Some.
    assert (s' = s ∧ s0 = s) as [-> ->].
    { destruct Hst as [Hs' _]. split; congruence. }
    assert (ds = VArr (line :: lines)) as -> by congruence.
    erewrite orders_update_forward;
      [|by apply (list_find_insert _ _ _ old)|done|done|done
       |unfold order_payload; eauto 10|done].
    simpl. by rewrite list_insert_insert_eq.
Qed.

(** *** Invariants of the collections *)

Lemma destroy_outcome rq db :
  (handle Orders.exports.destroy rq db).2 = db ∨
  ∃ at_, (handle Orders.exports.destroy rq db).2 = delete at_ db.
Proof.
  destruct (list_find (λ y, Orders.id y = params rq) db) as [[at_ x]|] eqn:Hfind.
  - rewrite (destroy_eval _ _ _ _ Hfind).
    destruct (strict_eq (Orders.status x) "pending"); eauto.
  - left. unfold handle, Orders.exports.destroy. cbn [run].
    unfold Orders.orderExists. cbn [store]. by rewrite Hfind.
Qed.

(** X18. The mutating stacks keep the stored records well formed: if every
    dish of the collection has truthy name, description and image and an
    integer price above 0, so has every dish after a create or an update
    request; if every order has truthy [deliverTo] and [mobileNumber] and a
    non-empty array of lines with integer quantities of at least 1, so has
    every order after a create, an update or a delete request. *)
Theorem stored_records_stay_valid :
  ∀ rq,
    (∀ db stack,
        stack ∈ [Dishes.exports.create; Dishes.exports.update] →
        Forall valid_dish db → Forall valid_dish (handle stack rq db).2) ∧
    (∀ db stack,
        stack ∈ [Orders.exports.create; Orders.exports.update;
                 Orders.exports.destroy] →
        Forall valid_order db → Forall valid_order (handle stack rq db).2).
Proof.
  intros rq. split; intros db stack Hin Hvalid.
  - repeat (apply elem_of_cons in Hin as [->|Hin]); [| |by apply elem_of_nil in Hin].
    + destruct (handle Dishes.exports.create rq db) as [o db'] eqn:Hrun. simpl.
      destruct o as [|c m|c r|].
      1,2,4: by rewrite (unchanged_unless_responded _ _ _ _ _
                           dishes_create_stack_keeps_store Hrun) by (intros []).
      apply dishes_create_responds in Hrun
        as (data & n & d & p & i & _ & _ & ? & _ & ? & _ & ? & _ & ? & _ & _ & ->).
      apply Forall_app. split; [done|]. apply Forall_singleton. by split_and!.
    + destruct (handle Dishes.exports.update rq db) as [o db'] eqn:Hrun. simpl.
      destruct o as [|c m|c r|].
      1,2,4: by rewrite (unchanged_unless_responded _ _ _ _ _
                           dishes_update_stack_keeps_store Hrun) by (intros []).
      apply dishes_update_responds in Hrun
        as (at_ & old & data & n & d & p & i & _ & _ & _ & ? & _ & ? & _ & ? & _
            & ? & _ & _ & ->).
      apply Forall_insert; [done|]. by split_and!.
  - repeat (apply elem_of_cons in Hin as [->|Hin]); [| | |by apply elem_of_nil in Hin].
    + destruct (handle Orders.exports.create rq db) as [o db'] eqn:Hrun. simpl.
      destruct o as [|c m|c r|].
      1,2,4: by rewrite (unchanged_unless_responded _ _ _ _ _
                           orders_create_stack_keeps_store Hrun) by (intros []).
      destruct (orders_create_lines _ _ _ _ _ Hrun)
        as (data' & line & lines & Hdata' & Hds' & Hok).
      apply orders_create_responds in Hrun
        as (data & to & mobile & s & ds & ? & _ & ? & _ & ? & _ & Hds & _ & _ & _
            & ->).
      same_data. assert (ds = VArr (line :: lines)) as -> by congruence.
      apply Forall_app. split; [done|]. apply Forall_singleton.
      split_and!; [done..|]. by exists line, lines.
    + destruct (handle Orders.exports.update rq db) as [o db'] eqn:Hrun. simpl.
      destruct o as [|c m|c r|].
      1,2,4: by rewrite (unchanged_unless_responded _ _ _ _ _
                           orders_update_stack_keeps_store Hrun) by (intros []).
      destruct (orders_update_checks _ _ _ _ _ Hrun)
        as (_ & _ & data' & _ & line & lines & _ & _ & Hdata' & _ & _ & Hds'
            & Hok).
      apply orders_update_responds in Hrun
        as (at_ & old & data & to & mobile & s & ds & _ & ? & _ & ? & _ & ? & _
            & _ & Hds & _ & _ & _ & ->).
      same_data. assert (ds = VArr (line :: lines)) as -> by congruence.
      apply Forall_insert; [done|]. split_and!; [done..|]. by exists line, lines.
    + destruct (destroy_outcome rq db) as [->|[at_ ->]]; [done|].
      by apply Forall_delete.
Qed.

(** X19. Updates and deletes keep the ids of a collection pairwise
    distinct. *)
Theorem update_and_delete_keep_ids_distinct :
  ∀ rq,
    (∀ db, NoDup (Dishes.id <$> db) →
           NoDup (Dishes.id <$> (handle Dishes.exports.update rq db).2)) ∧
    (∀ db stack,
        stack ∈ [Orders.exports.update; Orders.exports.destroy] →
        NoDup (Orders.id <$> db) →
        NoDup (Orders.id <$> (handle stack rq db).2)).
Proof.
  intros rq. split.
  - intros db Hnd. by rewrite dishes_update_ids.
  - intros db stack Hin Hnd.
    repeat (apply elem_of_cons in Hin as [->|Hin]); [| |by apply elem_of_nil in Hin].
    + by rewrite orders_update_ids.
    + destruct (destroy_outcome rq db) as [->|[at_ ->]]; [done|].
      rewrite list_fmap_delete.
      exact (sublist_NoDup _ _ Hnd (sublist_delete _ _)).
Qed.

(** *** Values that have no primitive *)

(** X20. An object that carries a [toString] property of its own cannot
    be converted to a string or to a number. As the [price] of a dish it
    makes [hasPrice] throw in the comparison with 0; as the body [id],
    truthy and different from every route id, it makes [idMatch] and
    [matchIds] throw while they build their message; as the [id] of the
    line the quantity loop stops at, it makes [dishProperties] throw
    likewise. No error with a status is passed on, and the state is as
    before. *)
Theorem own_toString_makes_the_checks_throw :
  ∀ rq data props,
    body_data rq = Ret data → has_own "toString" props = true →
    (get data "price" = Ret (VObj props) →
     ∀ st, Dishes.hasPrice rq st = (Thrown, st)) ∧
    (get data "id" = Ret (VObj props) →
     (∀ st, Dishes.idMatch rq st = (Thrown, st)) ∧
     (∀ st, Orders.matchIds rq st = (Thrown, st))) ∧
    (∀ ds, get data "dishes" = Ret ds → refused_line ds (VObj props) →
           ∀ st, Orders.dishProperties rq st = (Thrown, st)).
Proof.
  intros rq data props Hdata Hown.
  assert (ToString (VObj props) = TypeError) as Hshown
    by (simpl; by rewrite Hown).
  split_and!.
  - intros Hp st. rewrite (dishes_hasPrice_eval _ _ _ _ Hdata Hp).
    unfold le, ToNumber. by rewrite Hshown.
  - intros Hid. split; intros st.
    + by rewrite (idMatch_eval _ _ _ _ Hdata Hid), Hshown.
    + by rewrite (matchIds_eval _ _ _ _ Hdata Hid), Hshown.
  - intros ds Hds (lines & -> & Hlines & Hfirst)%first_refused_at st.
    rewrite (dishProperties_eval _ _ _ _ Hdata Hds). cbn [default].
    cbn [ToBoolean Array_isArray negb orb Orders.length_of].
    destruct lines as [|l lines]; [done|]. simpl length. cbn [Nat.eqb].
    by rewrite Hfirst, Hshown.
Qed.

End Further.

(** *** The further properties at concrete requests *)

Lemma line_accepted id : accepted_line (line id 2).
Proof.
  unfold accepted_line. exists (int 2).
  split; [reflexivity|]. by apply int_positive_integer.
Defined.

Lemma taco_payload price :
  (0 < price)%Z →
  dish_payload (VObj (taco_fields price)) (VStr "Taco") (VStr "x") (int price)
               (VStr "u").
Proof.
  intros Hprice. unfold dish_payload.
  split_and!; try reflexivity. by apply int_positive_integer.
Defined.

Lemma order_payload_sample s :
  order_payload (VObj (("status", s) :: order_fields [line "1" 2]))
                (VStr "a") (VStr "b") (VArr [line "1" 2]).
Proof.
  unfold order_payload. split_and!; try reflexivity.
  exists (line "1" 2), []. split; [reflexivity|].
  apply Forall_cons_2; [apply line_accepted|apply Forall_nil_2].
Defined.

Lemma taco_valid : valid_dish taco.
Proof.
  unfold valid_dish. split_and!; try reflexivity. by apply int_positive_integer.
Defined.

Lemma no_id_agrees fields route :
  own "id" fields = VUndef → id_agrees (VObj fields) route.
Proof. intros Hid. exists VUndef. split; [simpl; by rewrite Hid|by left]. Defined.

Lemma read_answers_first_match_or_404_witness :
  handle Dishes.exports.read (request_with "1" []) [taco]
  = (Sent 200 (Data taco), [taco]) ∧
  handle Orders.exports.read (request_with "7" []) [an_order "1" "pending"]
  = (NextErr 404 "Order id not found: 7", [an_order "1" "pending"]).
Proof.
  split.
  - destruct (read_answers_first_match_or_404 (request_with "1" []))
      as [Hdish _].
    destruct (Hdish [taco]) as [Hfound _]. exact (Hfound 0 taco eq_refl).
  - destruct (read_answers_first_match_or_404 (request_with "7" []))
      as [_ Horder].
    destruct (Horder [an_order "1" "pending"]) as [_ Habsent].
    apply Habsent. simpl. intros Hin.
    apply list_elem_of_singleton in Hin. discriminate Hin.
Defined.

Lemma missing_record_is_404_before_any_check_witness :
  handle (@Dishes.exports.update decimal)
         {| params := "9"; body := VObj [("data", VNull)] |} [taco]
  = (NextErr 404 "Dish not found: 9", [taco]) ∧
  handle Orders.exports.destroy (request_with "9" []) [an_order "1" "pending"]
  = (NextErr 404 "Order id not found: 9", [an_order "1" "pending"]).
Proof.
  split.
  - destruct (@missing_record_is_404_before_any_check decimal
                {| params := "9"; body := VObj [("data", VNull)] |})
      as [Hdish _].
    apply Hdish. simpl. intros Hin.
    apply list_elem_of_singleton in Hin. discriminate Hin.
  - destruct (@missing_record_is_404_before_any_check decimal
                (request_with "9" [])) as [_ Horder].
    destruct (Horder [an_order "1" "pending"]) as [_ Hdestroy]; [|exact Hdestroy].
    simpl. intros Hin. apply list_elem_of_singleton in Hin. discriminate Hin.
Defined.

Lemma hasPrice_passes_exactly_positive_integers_witness :
  @Dishes.hasPrice decimal (request_with "" (taco_fields 8))
                   {| store := [taco]; locals := None |}
  = (Next, {| store := [taco]; locals := None |}).
Proof.
  apply (proj2 (@hasPrice_passes_exactly_positive_integers decimal _ _ _)).
  split; [reflexivity|]. exists (VObj (taco_fields 8)), (int 8).
  split_and!; [reflexivity..|]. by apply int_positive_integer.
Defined.

Lemma dishProperties_passes_exactly_valid_lines_witness :
  @Orders.dishProperties decimal
     (request_with "" (order_fields [line "1" 2]))
     {| store := []; locals := None |}
  = (Next, {| store := []; locals := None |}).
Proof.
  apply (proj2 (@dishProperties_passes_exactly_valid_lines decimal _ _ _)).
  split; [reflexivity|].
  exists (VObj (order_fields [line "1" 2])), (line "1" 2), [].
  split_and!; [reflexivity..|].
  apply Forall_cons_2; [|apply Forall_nil_2].
  exists (int 2). split; [reflexivity|]. exists (inject_Z 2).
  split_and!; [reflexivity..|]. unfold Qle. simpl. lia.
Defined.

Lemma dish_create_succeeds_exactly_when_witness :
  handle (@Dishes.exports.create decimal) (request_with "" (taco_fields 8))
         [taco]
  = (Sent 201 (Data taco_2), [taco; taco_2]).
Proof.
  apply (proj2 (@dish_create_succeeds_exactly_when decimal _ _ _ _ _)).
  exists (VObj (taco_fields 8)), (VStr "Taco"), (VStr "x"), (int 8), (VStr "u").
  split_and!; try reflexivity. by apply taco_payload.
Defined.

Lemma dish_update_succeeds_exactly_when_witness :
  handle (@Dishes.exports.update decimal) (request_with "1" (taco_fields 9))
         [taco]
  = (Sent 200 (Data taco_9), [taco_9]).
Proof.
  apply (proj2 (@dish_update_succeeds_exactly_when decimal _ _ _ _ _)).
  exists 0, taco, (VObj (taco_fields 9)), (VStr "Taco"), (VStr "x"), (int 9),
    (VStr "u").
  split_and!; try reflexivity; [by apply taco_payload|by apply no_id_agrees].
Defined.

Lemma order_create_succeeds_exactly_when_witness :
  ∃ new,
    Orders.status new = VStr "bogus" ∧
    handle (@Orders.exports.create decimal)
           (request_with "" (("status", VStr "bogus") :: order_fields [line "1" 2]))
           []
    = (Sent 201 (Data new), [new]).
Proof.
  eexists. split; [|
    apply (proj2 (@order_create_succeeds_exactly_when decimal _ _ _ _ _));
    exists (VObj (("status", VStr "bogus") :: order_fields [line "1" 2])),
      (VStr "a"), (VStr "b"), (VArr [line "1" 2]), (VStr "bogus");
    split_and!; try reflexivity; apply order_payload_sample].
  reflexivity.
Defined.

Lemma order_update_succeeds_exactly_when_witness :
  handle (@Orders.exports.update decimal)
         (request_with "1" (("status", VStr "preparing")
                            :: order_fields [line "1" 2]))
         [an_order "1" "pending"]
  = (Sent 200 (Data (an_order "1" "preparing")), [an_order "1" "preparing"]).
Proof.
  apply (proj2 (@order_update_succeeds_exactly_when decimal _ _ _ _ _)).
  exists 0, (an_order "1" "pending"),
    (VObj (("status", VStr "preparing") :: order_fields [line "1" 2])),
    (VStr "a"), (VStr "b"), (VArr [line "1" 2]), (VStr "preparing").
  split_and!; try reflexivity;
    [discriminate|by apply no_id_agrees|apply order_payload_sample|].
  split; [reflexivity|]. exists "preparing". split; [reflexivity|].
  apply list_elem_of_further, list_elem_of_here.
Defined.

Lemma delete_removes_at_most_the_pending_match_witness :
  ∃ at_ x,
    list_find (λ y, Orders.id y = "1")
              [an_order "2" "preparing"; an_order "1" "pending"]
    = Some (at_, x) ∧
    Orders.status x = VStr "pending".
Proof.
  destruct (delete_removes_at_most_the_pending_match
              (request_with "1" [])
              [an_order "2" "preparing"; an_order "1" "pending"]
              (Sent 204 Empty) [an_order "2" "preparing"] eq_refl)
    as [[Hno _]|[_ (at_ & x & Hfind & Hpending & _)]].
  - destruct (Hno I).
  - exists at_, x. split; [exact Hfind|exact Hpending].
Defined.

Lemma update_then_read_returns_the_update_witness :
  handle Orders.exports.read (request_with "1" []) [an_order "1" "preparing"]
  = (Sent 200 (Data (an_order "1" "preparing")), [an_order "1" "preparing"]).
Proof.
  destruct (@update_then_read_returns_the_update decimal
              (request_with "1" (("status", VStr "preparing")
                                 :: order_fields [line "1" 2])))
    as [_ Horder].
  exact (Horder [an_order "1" "pending"] 200%Z
           (Data (an_order "1" "preparing")) [an_order "1" "preparing"]
           eq_refl (VObj [("data", VObj [])])).
Defined.

Lemma delivered_by_update_is_final_witness :
  (handle (@Orders.exports.update decimal)
          (request_with "1" (("status", VStr "pending")
                             :: order_fields [line "1" 2]))
          [an_order "1" "delivered"]).2
  = [an_order "1" "delivered"].
Proof.
  destruct (@delivered_by_update_is_final decimal
              (request_with "1" (("status", VStr "delivered")
                                 :: order_fields [line "1" 2]))
              [an_order "1" "pending"] 200%Z
              (Data (an_order "1" "delivered")) [an_order "1" "delivered"]
              (VObj (("status", VStr "delivered") :: order_fields [line "1" 2]))
              eq_refl eq_refl eq_refl
              (request_with "1" (("status", VStr "pending")
                                 :: order_fields [line "1" 2]))
              eq_refl) as [_ Hsame].
  exact Hsame.
Defined.

Lemma order_update_checks_the_status_witness :
  handle (@Orders.exports.update decimal)
         (request_with "1" (("status", VStr "cooking")
                            :: order_fields [line "1" 0]))
         [an_order "1" "pending"]
  = (NextErr 400 "Order status invalid", [an_order "1" "pending"]).
Proof.
  destruct (@order_update_checks_the_status decimal
              (request_with "1" (("status", VStr "cooking")
                                 :: order_fields [line "1" 0]))
              [an_order "1" "pending"] 0 (an_order "1" "pending")
              (VObj (("status", VStr "cooking") :: order_fields [line "1" 0]))
              (VStr "a") (VStr "b") (VArr [line "1" 0]) (VStr "cooking"))
    as [_ Hinvalid];
    [reflexivity|discriminate|reflexivity|by apply no_id_agrees
    |reflexivity..|].
  apply Hinvalid; [reflexivity|].
  intros t Hin Heq. injection Heq as <-.
  unfold Orders.validStatuses in Hin.
  repeat (apply elem_of_cons in Hin as [Hin|Hin]; [discriminate Hin|]).
  by apply elem_of_nil in Hin.
Defined.

Lemma null_data_throws_in_the_first_body_check_witness :
  handle (@Dishes.exports.create decimal)
         {| params := ""; body := VObj [("data", VNull)] |} [taco]
  = (Thrown, [taco]) ∧
  handle (@Orders.exports.create decimal)
         {| params := ""; body := VObj [("data", VNull)] |} []
  = (Thrown, []).
Proof.
  destruct (@null_data_throws_in_the_first_body_check decimal
              {| params := ""; body := VObj [("data", VNull)] |} eq_refl)
    as (Hdish & Horder & _).
  split; [apply Hdish|apply Horder].
Defined.

Lemma null_line_throws_in_the_quantity_check_witness :
  handle (@Orders.exports.create decimal)
         (request_with "" (order_fields [line "1" 2; VNull])) []
  = (Thrown, []).
Proof.
  apply (@null_line_throws_in_the_quantity_check decimal
           (request_with "" (order_fields [line "1" 2; VNull])) []
           (VObj (order_fields [line "1" 2; VNull])) (VStr "a") (VStr "b")
           [line "1" 2] []); try reflexivity.
  apply Forall_cons_2; [apply line_accepted|apply Forall_nil_2].
Defined.

Lemma price_presence_message_is_never_sent_witness :
  handle (@Dishes.exports.create decimal)
         (request_with "" [("name", VStr "Taco"); ("description", VStr "x")])
         [taco]
  = (NextErr 400 "Dish must have a price that is an integer greater than 0",
     [taco]) ∧
  NextErr (R := Dishes.dish) 400
          "Dish must have a price that is an integer greater than 0"
  ≠ NextErr 400 "Dish must include a price".
Proof.
  split; [reflexivity|].
  apply (@price_presence_message_is_never_sent decimal
           (request_with "" [("name", VStr "Taco"); ("description", VStr "x")])
           [taco] (@Dishes.exports.create decimal) _ [taco] 400%Z);
    [apply list_elem_of_here|reflexivity].
Defined.

Lemma repeated_update_changes_nothing_witness :
  handle (@Dishes.exports.update decimal) (request_with "1" (taco_fields 9))
         [taco_9]
  = (Sent 200 (Data taco_9), [taco_9]).
Proof.
  destruct (@repeated_update_changes_nothing decimal
              (request_with "1" (taco_fields 9))) as [Hdish _].
  exact (Hdish [taco] 200%Z (Data taco_9) [taco_9] eq_refl).
Defined.

Lemma stored_records_stay_valid_witness :
  Forall valid_dish [taco; taco_2].
Proof.
  destruct (@stored_records_stay_valid decimal
              (request_with "" (taco_fields 8))) as [Hdish _].
  apply (Hdish [taco] (@Dishes.exports.create decimal));
    [apply list_elem_of_here|].
  apply Forall_cons_2; [apply taco_valid|apply Forall_nil_2].
Defined.

Lemma update_and_delete_keep_ids_distinct_witness :
  NoDup (Orders.id <$> [an_order "2" "preparing"]).
Proof.
  destruct (@update_and_delete_keep_ids_distinct decimal (request_with "1" []))
    as [_ Horder].
  apply (Horder [an_order "1" "pending"; an_order "2" "preparing"]
           Orders.exports.destroy).
  - apply list_elem_of_further, list_elem_of_here.
  - simpl. apply NoDup_cons_2; [|apply NoDup_singleton].
    intros Hin. apply list_elem_of_singleton in Hin. discriminate Hin.
Defined.

Lemma own_toString_makes_the_checks_throw_witness :
  @Dishes.hasPrice decimal
    (request_with "" [("price", VObj [("toString", VStr "8")])])
    {| store := [taco]; locals := None |}
  = (Thrown, {| store := [taco]; locals := None |}) ∧
  @Orders.matchIds decimal
    (request_with "1" [("id", VObj [("toString", VStr "1")])])
    {| store := [an_order "1" "pending"]; locals := Some 0 |}
  = (Thrown, {| store := [an_order "1" "pending"]; locals := Some 0 |}).
Proof.
  split.
  - destruct (@own_toString_makes_the_checks_throw decimal
                (request_with "" [("price", VObj [("toString", VStr "8")])])
                _ [("toString", VStr "8")] eq_refl eq_refl) as [Hprice _].
    exact (Hprice eq_refl {| store := [taco]; locals := None |}).
  - destruct (@own_toString_makes_the_checks_throw decimal
                (request_with "1" [("id", VObj [("toString", VStr "1")])])
                _ [("toString", VStr "1")] eq_refl eq_refl) as (_ & Hid & _).
    destruct (Hid eq_refl) as [_ Horder].
    exact (Horder {| store := [an_order "1" "pending"]; locals := Some 0 |}).
Defined.
